(** * gin-demo: read-through user cache, write invalidation and the
      service tracing decorator

    A shallow embedding of
      - [logic/constants.go], [logic/user_query.go], [logic/user_write.go],
      - [model/user.go],
      - [pkg/tracing.go],
      - [service/service_c.go] (the interface and the traced wrapper),
    together with executable models of the collaborators those files call
    (go-redis, GORM over the [users] table of [create_tables.sql],
    [encoding/json], [fmt.Sprintf], the OpenTelemetry tracer).

    Part I holds the definitions, Part II the theorems. *)

From Stdlib Require Import ZArith NArith Lia List Ascii String Bool.
From stdpp Require Import base option list strings gmap.

Set Warnings "-register-all".

(** String concatenation unfolds under [simpl], as list concatenation does. *)
#[global] Arguments String.append !s1 s2 : simpl nomatch.

Open Scope N_scope.

(* ===================================================================== *)
(** * Part I - definitions                                                *)
(* ===================================================================== *)

(** ** Bytes and Go strings

    A Go [string] is an immutable byte sequence; it is embedded as a Rocq
    [string], whose characters are the 256 values of [ascii]. *)

Definition byte_of (c : ascii) : N := N_of_ascii c.
Definition char_of (b : N) : ascii := ascii_of_N b.

Fixpoint string_drop (n : nat) (s : string) : string :=
  match n, s with
  | O, _ => s
  | S n', String _ s' => string_drop n' s'
  | S _, EmptyString => EmptyString
  end.

Fixpoint string_take (n : nat) (s : string) : string :=
  match n, s with
  | O, _ => EmptyString
  | S n', String c s' => String c (string_take n' s')
  | S _, EmptyString => EmptyString
  end.

Definition isDigit (c : ascii) : bool :=
  (48 <=? byte_of c) && (byte_of c <=? 57).

Definition digit_val (c : ascii) : N := byte_of c - 48.

(** ** Decimal rendering: the [%d] verb of [fmt] and [strconv]           *)

Module strconv.

Definition digit_char (d : N) : ascii := char_of (48 + d).

(** The digit loop of [fmt.fmtInteger] / [strconv.formatBits] in base 10:
    [for u >= 10 { buf[i] = '0' + u%10; u /= 10 }; buf[i] = '0' + u].
    The recursion is bounded by the bit length of [u]. *)
Fixpoint format_loop (fuel : nat) (u : N) (buf : string) : string :=
  match fuel with
  | O => buf
  | S fuel' =>
      if u <? 10 then String (digit_char u) buf
      else format_loop fuel' (u / 10) (String (digit_char (u mod 10)) buf)
  end.

Definition FormatUint (u : N) : string :=
  format_loop (S (N.to_nat (N.log2 u))) u EmptyString.

Definition FormatInt (i : Z) : string :=
  if (i <? 0)%Z then String "-" (FormatUint (Z.to_N (- i)))
  else FormatUint (Z.to_N i).

(** The value of a run of decimal digits, most significant first. *)
Fixpoint digits_value (acc : N) (s : string) : N :=
  match s with
  | EmptyString => acc
  | String c s' => digits_value (10 * acc + digit_val c) s'
  end.

Fixpoint all_digits (s : string) : bool :=
  match s with
  | EmptyString => true
  | String c s' => isDigit c && all_digits s'
  end.

Definition maxUint64 : N := 18446744073709551615.
Definition maxInt64 : Z := 9223372036854775807.
Definition minInt64 : Z := (-9223372036854775808)%Z.

(** [strconv.ParseUint(s, 10, 64)]: a non-empty run of digits whose value
    fits 64 bits; no sign, no underscore. *)
Definition ParseUint (s : string) : option N :=
  match s with
  | EmptyString => None
  | _ =>
      if all_digits s then
        let v := digits_value 0 s in
        if v <=? maxUint64 then Some v else None
      else None
  end.

(** [strconv.ParseInt(s, 10, 64)]: an optional sign, then digits, within
    the range of [int64]. *)
Definition ParseInt (s : string) : option Z :=
  match s with
  | EmptyString => None
  | String c s' =>
      let neg := Ascii.eqb c "-" in
      let body := if neg || Ascii.eqb c "+" then s' else s in
      match body with
      | EmptyString => None
      | _ =>
          if all_digits body then
            let v := Z.of_N (digits_value 0 body) in
            let i := if neg then (- v)%Z else v in
            if ((minInt64 <=? i) && (i <=? maxInt64))%Z then Some i else None
          else None
      end
  end.

End strconv.

Module fmt.

(** [fmt.Sprintf] restricted to what the repository's format strings use:
    literal bytes and the [%d] verb applied to unsigned operands.  A verb
    without an operand prints Go's [%!d(MISSING)]. *)
Fixpoint Sprintf (format : string) (args : list N) : string :=
  match format with
  | EmptyString => EmptyString
  | String c rest =>
      if Ascii.eqb c "%" then
        match rest with
        | String v rest' =>
            if Ascii.eqb v "d" then
              match args with
              | a :: args' => strconv.FormatUint a +:+ Sprintf rest' args'
              | [] => "%!d(MISSING)" +:+ Sprintf rest' []
              end
            else String c (Sprintf rest args)
        | EmptyString => "%!(NOVERB)"
        end
      else String c (Sprintf rest args)
  end.

End fmt.

(** ** logic/constants.go *)

Definition Duration := Z.                       (* nanoseconds, as time.Duration *)
Definition Minute : Duration := 60000000000%Z.

Definition UserCacheKey : string := "user:%d".
Definition UserCacheTTL : Duration := (30 * Minute)%Z.

(** [fmt.Sprintf(UserCacheKey, id)], the key every read and write derives. *)
Definition cacheKey (id : N) : string := fmt.Sprintf UserCacheKey [id].

(** ** UTF-8, as [unicode/utf8] decodes and encodes it

    The shifts and masks of the Go package are written as the equivalent
    multiplications, divisions and remainders on byte values. *)

Module utf8.

Definition RuneError : N := 65533.            (* U+FFFD *)
Definition RuneSelf : N := 128.
Definition MaxRune : N := 1114111.            (* U+10FFFF *)

Definition in_range (lo hi b : N) : bool := (lo <=? b) && (b <=? hi).

(** [utf8.DecodeRune]: the first rune of [s] and its width in bytes;
    [(RuneError, 1)] for an invalid or truncated encoding,
    [(RuneError, 0)] for the empty string. *)
Definition DecodeRune (s : string) : N * nat :=
  match s with
  | EmptyString => (RuneError, O)
  | String c0 s1 =>
      let b0 := byte_of c0 in
      if b0 <? 128 then (b0, 1%nat)
      else if b0 <? 194 then (RuneError, 1%nat)
      else if b0 <? 224 then
        match s1 with
        | String c1 _ =>
            let b1 := byte_of c1 in
            if in_range 128 191 b1
            then ((b0 - 192) * 64 + (b1 - 128), 2%nat)
            else (RuneError, 1%nat)
        | _ => (RuneError, 1%nat)
        end
      else if b0 <? 240 then
        match s1 with
        | String c1 (String c2 _) =>
            let b1 := byte_of c1 in
            let b2 := byte_of c2 in
            let lo := if b0 =? 224 then 160 else 128 in
            let hi := if b0 =? 237 then 159 else 191 in
            if in_range lo hi b1 && in_range 128 191 b2
            then ((b0 - 224) * 4096 + (b1 - 128) * 64 + (b2 - 128), 3%nat)
            else (RuneError, 1%nat)
        | _ => (RuneError, 1%nat)
        end
      else if b0 <? 245 then
        match s1 with
        | String c1 (String c2 (String c3 _)) =>
            let b1 := byte_of c1 in
            let b2 := byte_of c2 in
            let b3 := byte_of c3 in
            let lo := if b0 =? 240 then 144 else 128 in
            let hi := if b0 =? 244 then 143 else 191 in
            if in_range lo hi b1 && in_range 128 191 b2 && in_range 128 191 b3
            then ((b0 - 240) * 262144 + (b1 - 128) * 4096
                  + (b2 - 128) * 64 + (b3 - 128), 4%nat)
            else (RuneError, 1%nat)
        | _ => (RuneError, 1%nat)
        end
      else (RuneError, 1%nat)
  end.

Definition is_surrogate (r : N) : bool := (55296 <=? r) && (r <? 57344).

Definition encode3 (r : N) : string :=
  String (char_of (224 + r / 4096))
    (String (char_of (128 + (r / 64) mod 64))
       (String (char_of (128 + r mod 64)) EmptyString)).

(** [utf8.EncodeRune]; surrogates and values above [MaxRune] are written as
    the encoding of [RuneError]. *)
Definition EncodeRune (r : N) : string :=
  if r <=? 127 then String (char_of r) EmptyString
  else if r <=? 2047 then
    String (char_of (192 + r / 64))
      (String (char_of (128 + r mod 64)) EmptyString)
  else if (MaxRune <? r) || is_surrogate r then encode3 RuneError
  else if r <=? 65535 then encode3 r
  else
    String (char_of (240 + r / 262144))
      (String (char_of (128 + (r / 4096) mod 64))
         (String (char_of (128 + (r / 64) mod 64))
            (String (char_of (128 + r mod 64)) EmptyString))).

(** [utf8.ValidString], by the same loop as the decoder's callers: every
    rune decodes to something other than a width-1 [RuneError]. *)
Fixpoint valid_loop (fuel : nat) (s : string) : bool :=
  match fuel with
  | O => match s with EmptyString => true | _ => false end
  | S fuel' =>
      match s with
      | EmptyString => true
      | String c s' =>
          if byte_of c <? RuneSelf then valid_loop fuel' s'
          else
            let '(r, size) := DecodeRune s in
            if (r =? RuneError) && Nat.eqb size 1 then false
            else valid_loop fuel' (string_drop size s)
      end
  end.

Definition ValidString (s : string) : bool := valid_loop (String.length s) s.

End utf8.

(** ** time.Time and its RFC 3339 text

    A [time.Time] is embedded by the reading that [Time.Equal] and the
    RFC 3339 text observe: the civil date and clock in the value's zone,
    the nanosecond, and the zone's offset east of UTC in seconds.  The
    name of the [*Location] and the monotonic clock reading are not part of
    the embedding. *)

Module time.

Record Time := mkTime {
  Year : N; Month : N; Day : N;
  Hour : N; Minute : N; Second : N;
  Nanosecond : N;
  ZoneOffset : Z
}.

(** The zero [time.Time{}]: January 1, year 1, 00:00:00 UTC. *)
Definition zero : Time := mkTime 1 1 1 0 0 0 0 0%Z.

Definition eqb (a b : Time) : bool :=
  (Year a =? Year b) && (Month a =? Month b) && (Day a =? Day b)
  && (Hour a =? Hour b) && (Minute a =? Minute b) && (Second a =? Second b)
  && (Nanosecond a =? Nanosecond b) && (ZoneOffset a =? ZoneOffset b)%Z.

Definition IsZero (t : Time) : bool := eqb t zero.

Definition isLeap (y : N) : bool :=
  (y mod 4 =? 0) && (negb (y mod 100 =? 0) || (y mod 400 =? 0)).

Definition daysIn (m y : N) : N :=
  if m =? 2 then (if isLeap y then 29 else 28)
  else if (m =? 4) || (m =? 6) || (m =? 9) || (m =? 11) then 30
  else 31.

Fixpoint zeros (n : nat) : string :=
  match n with O => EmptyString | S n' => String "0" (zeros n') end.

(** [appendInt(b, x, width)]: decimal, zero-padded on the left to [width]. *)
Definition appendInt (x : N) (width : nat) : string :=
  let d := strconv.FormatUint x in
  zeros (width - String.length d) +:+ d.

(** Drop the trailing ['0'] bytes of a run of digits. *)
Fixpoint trim_zeros (s : string) : string :=
  match s with
  | EmptyString => EmptyString
  | String c s' =>
      match trim_zeros s' with
      | EmptyString => if Ascii.eqb c "0" then EmptyString
                       else String c EmptyString
      | t => String c t
      end
  end.

(** [appendNano] for the layout [.999999999]: nothing for a zero
    nanosecond, else the nine digits without their trailing zeros. *)
Definition appendNano (ns : N) : string :=
  if ns =? 0 then EmptyString
  else String "." (trim_zeros (appendInt ns 9)).

(** The zone suffix of [appendFormatRFC3339]: [Z] for UTC, else the sign
    and the offset in hours and minutes; the seconds of an offset are
    dropped. *)
Definition formatZone (offset : Z) : string :=
  if (offset =? 0)%Z then "Z"
  else
    let zone := (offset ÷ 60)%Z in
    let az := Z.to_N (Z.abs zone) in
    (if (zone <? 0)%Z then "-" else "+")
      +:+ appendInt (az / 60) 2 +:+ ":" +:+ appendInt (az mod 60) 2.

(** [Time.appendFormatRFC3339(b, true)]. *)
Definition appendFormatRFC3339 (t : Time) : string :=
  appendInt (Year t) 4 +:+ "-" +:+ appendInt (Month t) 2 +:+ "-"
    +:+ appendInt (Day t) 2 +:+ "T"
    +:+ appendInt (Hour t) 2 +:+ ":" +:+ appendInt (Minute t) 2 +:+ ":"
    +:+ appendInt (Second t) 2
    +:+ appendNano (Nanosecond t)
    +:+ formatZone (ZoneOffset t).

(** [Time.appendStrictRFC3339]: the text, or [None] where Go reports
    "year outside of range [0,9999]" or "timezone hour outside of range
    [0,23]". *)
Definition appendStrictRFC3339 (t : Time) : option string :=
  if 9999 <? Year t then None
  else if (ZoneOffset t =? 0)%Z then Some (appendFormatRFC3339 t)
  else if 24 <=? Z.to_N (Z.abs (ZoneOffset t ÷ 60)) / 60 then None
  else Some (appendFormatRFC3339 t).

(** The [parseUint] closure of [parseRFC3339] on a two-digit field. *)
Definition parseUint2 (c1 c2 : ascii) (lo hi : N) : option N :=
  if isDigit c1 && isDigit c2 then
    let x := 10 * digit_val c1 + digit_val c2 in
    if (lo <=? x) && (x <=? hi) then Some x else None
  else None.

Fixpoint span_digits (s : string) : string * string :=
  match s with
  | String c s' =>
      if isDigit c then let '(d, r) := span_digits s' in (String c d, r)
      else (EmptyString, s)
  | EmptyString => (EmptyString, EmptyString)
  end.

(** [parseNanoseconds]: at most nine fractional digits count, scaled to
    nanoseconds. *)
Definition parseNanoseconds (digits : string) : N :=
  let d := string_take 9 digits in
  strconv.digits_value 0 d * 10 ^ N.of_nat (9 - String.length d).

(** The zone suffix of [parseRFC3339]: [Z], or a sign and [hh:mm]. *)
Definition parseZone (s : string) : option Z :=
  match s with
  | String z EmptyString =>
      if Ascii.eqb z "Z" then Some 0%Z else None
  | String sg (String h1 (String h2 (String c (String m1 (String m2 EmptyString))))) =>
      match parseUint2 h1 h2 0 23, parseUint2 m1 m2 0 59 with
      | Some hr, Some mm =>
          if (Ascii.eqb sg "-" || Ascii.eqb sg "+") && Ascii.eqb c ":" then
            let off := Z.of_N ((hr * 60 + mm) * 60) in
            Some (if Ascii.eqb sg "-" then (- off)%Z else off)
          else None
      | _, _ => None
      end
  | _ => None
  end.

(** [parseRFC3339]: the strict reading of
    [2006-01-02T15:04:05[.fraction](Z|±hh:mm)]. *)
Definition parseRFC3339 (s : string) : option Time :=
  match s with
  | String y1 (String y2 (String y3 (String y4 (String d1
    (String mo1 (String mo2 (String d2
    (String dy1 (String dy2 (String sepT
    (String h1 (String h2 (String c1
    (String mi1 (String mi2 (String c2
    (String s1 (String s2 rest)))))))))))))))))) =>
      if isDigit y1 && isDigit y2 && isDigit y3 && isDigit y4
         && Ascii.eqb d1 "-" && Ascii.eqb d2 "-" && Ascii.eqb sepT "T"
         && Ascii.eqb c1 ":" && Ascii.eqb c2 ":"
      then
        let year := strconv.digits_value 0
                      (String y1 (String y2 (String y3 (String y4 EmptyString)))) in
        match parseUint2 mo1 mo2 1 12 with
        | Some month =>
            match parseUint2 dy1 dy2 1 (daysIn month year),
                  parseUint2 h1 h2 0 23,
                  parseUint2 mi1 mi2 0 59,
                  parseUint2 s1 s2 0 59 with
            | Some day, Some hour, Some min, Some sec =>
                let '(nsec, rest') :=
                  match rest with
                  | String dot (String f after) =>
                      if Ascii.eqb dot "." && isDigit f then
                        let '(ds, r) := span_digits (String f after) in
                        (parseNanoseconds ds, r)
                      else (0, rest)
                  | _ => (0, rest)
                  end in
                match parseZone rest' with
                | Some off => Some (mkTime year month day hour min sec nsec off)
                | None => None
                end
            | _, _, _, _ => None
            end
        | None => None
        end
      else None
  | _ => None
  end.

(** The values a [time.Time] read from a DATETIME or TIMESTAMP column takes
    in this embedding: a date of the calendar in the years 0 to 9999, a
    clock reading, and a zone offset of whole minutes within a day. *)
Definition valid (t : Time) : bool :=
  (Year t <=? 9999)
  && (1 <=? Month t) && (Month t <=? 12)
  && (1 <=? Day t) && (Day t <=? daysIn (Month t) (Year t))
  && (Hour t <=? 23) && (Minute t <=? 59) && (Second t <=? 59)
  && (Nanosecond t <? 1000000000)
  && (ZoneOffset t mod 60 =? 0)%Z && (Z.abs (ZoneOffset t) <? 86400)%Z.

End time.

(** ** gorm.DeletedAt (a [sql.NullTime]) and model/user.go *)

Module gorm.

Record DeletedAt := mkDeletedAt {
  Time : time.Time;
  Valid : bool
}.

End gorm.

Module model.

Record User := mkUser {
  ID : N;                          (* uint,  json:"id",         primaryKey *)
  CreatedAt : time.Time;           (*        json:"created_at"            *)
  UpdatedAt : time.Time;           (*        json:"updated_at"            *)
  DeletedAt : gorm.DeletedAt;      (*        json:"deleted_at", index     *)
  Name : string;                   (*        json:"name",  not null       *)
  Email : string;                  (*        json:"email", not null;unique *)
  Age : Z;                         (* int,   json:"age"                   *)
  Status : Z                       (* int,   json:"status", default:1     *)
}.

(** [model.User{}], the zero value. *)
Definition zero : User :=
  mkUser 0 time.zero time.zero (gorm.mkDeletedAt time.zero false)
         EmptyString EmptyString 0%Z 0%Z.

Definition TableName : string := "users".

Definition set_ID (v : N) (u : User) : User :=
  mkUser v (CreatedAt u) (UpdatedAt u) (DeletedAt u) (Name u) (Email u) (Age u) (Status u).
Definition set_CreatedAt (v : time.Time) (u : User) : User :=
  mkUser (ID u) v (UpdatedAt u) (DeletedAt u) (Name u) (Email u) (Age u) (Status u).
Definition set_UpdatedAt (v : time.Time) (u : User) : User :=
  mkUser (ID u) (CreatedAt u) v (DeletedAt u) (Name u) (Email u) (Age u) (Status u).
Definition set_DeletedAt (v : gorm.DeletedAt) (u : User) : User :=
  mkUser (ID u) (CreatedAt u) (UpdatedAt u) v (Name u) (Email u) (Age u) (Status u).
Definition set_Name (v : string) (u : User) : User :=
  mkUser (ID u) (CreatedAt u) (UpdatedAt u) (DeletedAt u) v (Email u) (Age u) (Status u).
Definition set_Email (v : string) (u : User) : User :=
  mkUser (ID u) (CreatedAt u) (UpdatedAt u) (DeletedAt u) (Name u) v (Age u) (Status u).
Definition set_Age (v : Z) (u : User) : User :=
  mkUser (ID u) (CreatedAt u) (UpdatedAt u) (DeletedAt u) (Name u) (Email u) v (Status u).
Definition set_Status (v : Z) (u : User) : User :=
  mkUser (ID u) (CreatedAt u) (UpdatedAt u) (DeletedAt u) (Name u) (Email u) (Age u) v.

(** The entities the [users] table hands out: an id of 64 bits, ages and
    statuses within [int], valid times, names and emails in UTF-8 (the
    table's character set is utf8mb4), and a soft-delete marker that is
    either a valid time or NULL, which scans as the zero time. *)
Definition valid (u : User) : bool :=
  (ID u <=? strconv.maxUint64)
  && time.valid (CreatedAt u) && time.valid (UpdatedAt u)
  && (if gorm.Valid (DeletedAt u) then time.valid (gorm.Time (DeletedAt u))
      else time.eqb (gorm.Time (DeletedAt u)) time.zero)
  && utf8.ValidString (Name u) && utf8.ValidString (Email u)
  && (strconv.minInt64 <=? Age u)%Z && (Age u <=? strconv.maxInt64)%Z
  && (strconv.minInt64 <=? Status u)%Z && (Status u <=? strconv.maxInt64)%Z.

End model.

(** ** Errors

    The [error] values that cross the functions of the repository.  The
    comparisons the code makes ([err == nil], [err != redis.Nil]) are on
    these constructors. *)

Inductive error :=
| RedisNil                        (* redis.Nil: the key does not exist *)
| ErrRecordNotFound               (* gorm.ErrRecordNotFound *)
| ErrDuplicatedKey                (* a PRIMARY or UNIQUE key rejects the row *)
| ContextCanceled                 (* context.Canceled *)
| DeadlineExceeded                (* context.DeadlineExceeded *)
| Unavailable (code : N)          (* connection, timeout or server failure *)
| SyntaxError                     (* *json.SyntaxError *)
| UnmarshalTypeError (field : string)   (* *json.UnmarshalTypeError *)
| TimeParseError                  (* error of Time.UnmarshalJSON *)
| MarshalerError                  (* *json.MarshalerError *)
| Errorf (msg : string).          (* fmt.Errorf(...) *)

(** ** encoding/json on [model.User] *)

Module json.

Definition hex_char (d : N) : ascii :=
  if d <? 10 then char_of (48 + d) else char_of (87 + d).

Definition hex_val (c : ascii) : option N :=
  let b := byte_of c in
  if utf8.in_range 48 57 b then Some (b - 48)
  else if utf8.in_range 97 102 b then Some (b - 87)
  else if utf8.in_range 65 70 b then Some (b - 55)
  else None.

(** [htmlSafeSet]: the ASCII bytes [appendString] copies unchanged when
    HTML escaping is on, as it is for [json.Marshal]. *)
Definition htmlSafe (b : N) : bool :=
  (32 <=? b) && (b <? 128)
  && negb ((b =? 34) || (b =? 92) || (b =? 60) || (b =? 62) || (b =? 38)).

(** The escape [appendString] writes for an ASCII byte outside
    [htmlSafeSet]. *)
Definition escape_ascii (b : N) : string :=
  if (b =? 92) || (b =? 34) then String "\" (String (char_of b) EmptyString)
  else if b =? 8 then "\b"
  else if b =? 12 then "\f"
  else if b =? 10 then "\n"
  else if b =? 13 then "\r"
  else if b =? 9 then "\t"
  else String "\" (String "u" (String "0" (String "0"
         (String (hex_char (b / 16)) (String (hex_char (b mod 16)) EmptyString))))).

(** The loop of [appendString(dst, src, escapeHTML = true)], without the
    surrounding quotes. *)
Fixpoint escape_loop (fuel : nat) (s : string) : string :=
  match fuel with
  | O => EmptyString
  | S fuel' =>
      match s with
      | EmptyString => EmptyString
      | String c s' =>
          let b := byte_of c in
          if b <? utf8.RuneSelf then
            if htmlSafe b then String c (escape_loop fuel' s')
            else escape_ascii b +:+ escape_loop fuel' s'
          else
            let '(r, size) := utf8.DecodeRune s in
            if (r =? utf8.RuneError) && Nat.eqb size 1 then
              "\ufffd" +:+ escape_loop fuel' s'
            else if (r =? 8232) || (r =? 8233) then
              String "\" (String "u" (String "2" (String "0" (String "2"
                (String (hex_char (r mod 16)) EmptyString)))))
                +:+ escape_loop fuel' (string_drop size s)
            else string_take size s +:+ escape_loop fuel' (string_drop size s)
      end
  end.

Definition quote : ascii := char_of 34.

Definition appendString (s : string) : string :=
  String quote (escape_loop (String.length s) s +:+ String quote EmptyString).

(** [Time.MarshalJSON]. *)
Definition Time_MarshalJSON (t : time.Time) : option string :=
  match time.appendStrictRFC3339 t with
  | Some b => Some (String quote (b +:+ String quote EmptyString))
  | None => None
  end.

(** [gorm.DeletedAt.MarshalJSON]: the time when valid, else [null]. *)
Definition DeletedAt_MarshalJSON (n : gorm.DeletedAt) : option string :=
  if gorm.Valid n then Time_MarshalJSON (gorm.Time n) else Some "null".

(** The quoted tag and colon the encoder writes before a field's value. *)
Definition member (tag : string) : string :=
  String quote (tag +:+ String quote ":").

(** [json.Marshal(user)] for a [*model.User]: the fields in declaration
    order under their [json] tags, without white space.  A failing
    [MarshalJSON] makes the whole call fail with no bytes. *)
Definition Marshal (u : model.User) : string * option error :=
  match Time_MarshalJSON (model.CreatedAt u),
        Time_MarshalJSON (model.UpdatedAt u),
        DeletedAt_MarshalJSON (model.DeletedAt u) with
  | Some created, Some updated, Some deleted =>
      ("{" +:+ member "id" +:+ strconv.FormatUint (model.ID u)
         +:+ "," +:+ member "created_at" +:+ created
         +:+ "," +:+ member "updated_at" +:+ updated
         +:+ "," +:+ member "deleted_at" +:+ deleted
         +:+ "," +:+ member "name" +:+ appendString (model.Name u)
         +:+ "," +:+ member "email" +:+ appendString (model.Email u)
         +:+ "," +:+ member "age" +:+ strconv.FormatInt (model.Age u)
         +:+ "," +:+ member "status" +:+ strconv.FormatInt (model.Status u)
         +:+ "}", None)
  | _, _, _ => (EmptyString, Some MarshalerError)
  end.

(** *** The scanner: JSON text to a syntax tree

    Strings and numbers keep their source text; it is interpreted when a
    value is stored into a field, as the Go decoder does. *)

Inductive Value :=
| Null
| Bool (b : bool)
| Number (lit : string)
| Str (raw : string)
| Array (elems : list Value)
| Object (members : list (string * Value)).

Definition isSpace (c : ascii) : bool :=
  let b := byte_of c in (b =? 32) || (b =? 9) || (b =? 13) || (b =? 10).

Fixpoint skip_space (s : string) : string :=
  match s with
  | String c s' => if isSpace c then skip_space s' else s
  | EmptyString => EmptyString
  end.

Definition is_hex (c : ascii) : bool :=
  match hex_val c with Some _ => true | None => false end.

Definition is_simple_escape (c : ascii) : bool :=
  let b := byte_of c in
  (b =? 34) || (b =? 92) || (b =? 47) || (b =? 98) || (b =? 102)
  || (b =? 110) || (b =? 114) || (b =? 116).

Definition cons_raw (c : ascii) (r : option (string * string))
  : option (string * string) :=
  match r with
  | Some (body, rest) => Some (String c body, rest)
  | None => None
  end.

(** The body of a string literal after its opening quote: the raw text up
    to the closing quote, and what follows it.  Escapes are checked, bytes
    below 0x20 are rejected. *)
Fixpoint scan_string (s : string) : option (string * string) :=
  match s with
  | EmptyString => None
  | String c s' =>
      let b := byte_of c in
      if b =? 34 then Some (EmptyString, s')
      else if b =? 92 then
        match s' with
        | String e s'' =>
            if is_simple_escape e then cons_raw c (cons_raw e (scan_string s''))
            else if byte_of e =? 117 then
              match s'' with
              | String h1 (String h2 (String h3 (String h4 s5))) =>
                  if is_hex h1 && is_hex h2 && is_hex h3 && is_hex h4 then
                    cons_raw c (cons_raw e (cons_raw h1 (cons_raw h2
                      (cons_raw h3 (cons_raw h4 (scan_string s5))))))
                  else None
              | _ => None
              end
            else None
        | EmptyString => None
        end
      else if b <? 32 then None
      else cons_raw c (scan_string s')
  end.

(** A number literal: an optional minus sign; a single zero, or a non-zero
    digit and further digits; an optional fraction (a dot and digits); an
    optional exponent ([e] or [E], an optional sign, digits). *)
Definition scan_number (s : string) : option (string * string) :=
  let '(sign, s1) :=
    match s with
    | String c s' => if Ascii.eqb c "-" then (String c EmptyString, s')
                     else (EmptyString, s)
    | EmptyString => (EmptyString, s)
    end in
  let '(int, s2) := time.span_digits s1 in
  let int_ok :=
    match int with
    | EmptyString => false
    | String d EmptyString => true
    | String d _ => negb (Ascii.eqb d "0")
    end in
  if negb int_ok then None
  else
    let frac :=
      match s2 with
      | String dot s3 =>
          if Ascii.eqb dot "." then
            let '(f, s4) := time.span_digits s3 in
            match f with
            | EmptyString => None
            | _ => Some (String dot f, s4)
            end
          else Some (EmptyString, s2)
      | EmptyString => Some (EmptyString, s2)
      end in
    match frac with
    | None => None
    | Some (fr, s5) =>
        let exp :=
          match s5 with
          | String e s6 =>
              if Ascii.eqb e "e" || Ascii.eqb e "E" then
                let '(sg, s7) :=
                  match s6 with
                  | String p s' =>
                      if Ascii.eqb p "+" || Ascii.eqb p "-"
                      then (String p EmptyString, s')
                      else (EmptyString, s6)
                  | EmptyString => (EmptyString, s6)
                  end in
                let '(ds, s8) := time.span_digits s7 in
                match ds with
                | EmptyString => None
                | _ => Some (String e (sg +:+ ds), s8)
                end
              else Some (EmptyString, s5)
          | EmptyString => Some (EmptyString, s5)
          end in
        match exp with
        | None => None
        | Some (ex, s9) => Some (sign +:+ int +:+ fr +:+ ex, s9)
        end
    end.

Definition strip_prefix (p s : string) : option string :=
  if String.prefix p s then Some (string_drop (String.length p) s) else None.

(** One value, and the objects and arrays below it.  Every call consumes
    input, so the length of the text bounds the recursion. *)
Fixpoint scan_value (fuel : nat) (s : string) : option (Value * string) :=
  match fuel with
  | O => None
  | S fuel' =>
      match skip_space s with
      | EmptyString => None
      | String c rest =>
          let b := byte_of c in
          if b =? 123 then                                   (* an opening brace *)
            match skip_space rest with
            | String c' rest' =>
                if byte_of c' =? 125 then Some (Object [], rest')
                else
                  match scan_members fuel' (skip_space rest) with
                  | Some (ms, r) => Some (Object ms, r)
                  | None => None
                  end
            | EmptyString => None
            end
          else if b =? 91 then                               (* an opening bracket *)
            match skip_space rest with
            | String c' rest' =>
                if byte_of c' =? 93 then Some (Array [], rest')
                else
                  match scan_elements fuel' rest with
                  | Some (es, r) => Some (Array es, r)
                  | None => None
                  end
            | EmptyString => None
            end
          else if b =? 34 then                               (* a quote *)
            match scan_string rest with
            | Some (raw, r) => Some (Str raw, r)
            | None => None
            end
          else if (b =? 45) || isDigit c then
            match scan_number (String c rest) with
            | Some (lit, r) => Some (Number lit, r)
            | None => None
            end
          else
            match strip_prefix "true" (String c rest),
                  strip_prefix "false" (String c rest),
                  strip_prefix "null" (String c rest) with
            | Some r, _, _ => Some (Bool true, r)
            | _, Some r, _ => Some (Bool false, r)
            | _, _, Some r => Some (Null, r)
            | _, _, _ => None
            end
      end
  end

(** The members of an object after ['{'], from a key to the closing
    ['}']. *)
with scan_members (fuel : nat) (s : string)
  : option (list (string * Value) * string) :=
  match fuel with
  | O => None
  | S fuel' =>
      match s with
      | String q s1 =>
          if byte_of q =? 34 then
            match scan_string s1 with
            | Some (key, s2) =>
                match skip_space s2 with
                | String colon s3 =>
                    if byte_of colon =? 58 then
                      match scan_value fuel' s3 with
                      | Some (v, s4) =>
                          match skip_space s4 with
                          | String d s5 =>
                              if byte_of d =? 125 then Some ([(key, v)], s5)
                              else if byte_of d =? 44 then
                                match scan_members fuel' (skip_space s5) with
                                | Some (ms, r) => Some ((key, v) :: ms, r)
                                | None => None
                                end
                              else None
                          | EmptyString => None
                          end
                      | None => None
                      end
                    else None
                | EmptyString => None
                end
            | None => None
            end
          else None
      | EmptyString => None
      end
  end

(** The elements of an array after ['['], up to the closing [']']. *)
with scan_elements (fuel : nat) (s : string)
  : option (list Value * string) :=
  match fuel with
  | O => None
  | S fuel' =>
      match scan_value fuel' s with
      | Some (v, s1) =>
          match skip_space s1 with
          | String d s2 =>
              if byte_of d =? 93 then Some ([v], s2)
              else if byte_of d =? 44 then
                match scan_elements fuel' s2 with
                | Some (es, r) => Some (v :: es, r)
                | None => None
                end
              else None
          | EmptyString => None
          end
      | None => None
      end
  end.

(** [checkValid] and the scan in one: a single value, white space around
    it, nothing after it. *)
Definition scan (data : string) : option Value :=
  match scan_value (S (String.length data)) data with
  | Some (v, rest) =>
      match skip_space rest with
      | EmptyString => Some v
      | _ => None
      end
  | None => None
  end.

(** *** Stored values *)

Definition getu4 (s : string) : option N :=
  match s with
  | String bs (String u (String h1 (String h2 (String h3 (String h4 _))))) =>
      if (byte_of bs =? 92) && (byte_of u =? 117) then
        match hex_val h1, hex_val h2, hex_val h3, hex_val h4 with
        | Some a, Some b, Some c, Some d =>
            Some (a * 4096 + b * 256 + c * 16 + d)
        | _, _, _, _ => None
        end
      else None
  | _ => None
  end.

(** [utf16.DecodeRune]: the code point of a surrogate pair, [RuneError]
    when the two halves do not pair. *)
Definition utf16_DecodeRune (r1 : N) (r2 : option N) : N :=
  match r2 with
  | Some r2 =>
      if utf8.in_range 55296 56319 r1 && utf8.in_range 56320 57343 r2
      then (r1 - 55296) * 1024 + (r2 - 56320) + 65536
      else utf8.RuneError
  | None => utf8.RuneError
  end.

Definition unescape_simple (e : ascii) : option ascii :=
  let b := byte_of e in
  if (b =? 34) || (b =? 92) || (b =? 47) then Some e
  else if b =? 98 then Some (char_of 8)
  else if b =? 102 then Some (char_of 12)
  else if b =? 110 then Some (char_of 10)
  else if b =? 114 then Some (char_of 13)
  else if b =? 116 then Some (char_of 9)
  else None.

(** [unquoteBytes] on the raw body of a literal (the quotes removed):
    escapes are replaced, other bytes are decoded and written back as
    UTF-8, so an invalid byte becomes U+FFFD. *)
Fixpoint unquote_loop (fuel : nat) (s : string) : option string :=
  match fuel with
  | O => match s with EmptyString => Some EmptyString | _ => None end
  | S fuel' =>
      match s with
      | EmptyString => Some EmptyString
      | String c s' =>
          let b := byte_of c in
          if b =? 92 then
            match s' with
            | String e s'' =>
                if byte_of e =? 117 then
                  match getu4 s with
                  | Some rr =>
                      let after := string_drop 6 s in
                      if utf8.is_surrogate rr then
                        let dec := utf16_DecodeRune rr (getu4 after) in
                        if negb (dec =? utf8.RuneError) then
                          option_map (String.app (utf8.EncodeRune dec))
                            (unquote_loop fuel' (string_drop 6 after))
                        else
                          option_map (String.app (utf8.EncodeRune utf8.RuneError))
                            (unquote_loop fuel' after)
                      else
                        option_map (String.app (utf8.EncodeRune rr))
                          (unquote_loop fuel' after)
                  | None => None
                  end
                else
                  match unescape_simple e with
                  | Some d => option_map (String d) (unquote_loop fuel' s'')
                  | None => None
                  end
            | EmptyString => None
            end
          else if (b =? 34) || (b <? 32) then None
          else if b <? utf8.RuneSelf then
            option_map (String c) (unquote_loop fuel' s')
          else
            let '(rr, size) := utf8.DecodeRune s in
            option_map (String.app (utf8.EncodeRune rr))
              (unquote_loop fuel' (string_drop size s))
      end
  end.

Definition unquote (raw : string) : option string :=
  unquote_loop (String.length raw) raw.

(** The fields of [model.User] by [json] tag, in declaration order. *)
Inductive Field :=
| FID | FCreatedAt | FUpdatedAt | FDeletedAt | FName | FEmail | FAge | FStatus.

Definition fields : list (string * Field) :=
  [ ("id", FID); ("created_at", FCreatedAt); ("updated_at", FUpdatedAt);
    ("deleted_at", FDeletedAt); ("name", FName); ("email", FEmail);
    ("age", FAge); ("status", FStatus) ].

(** Simple case folding onto the lower-case ASCII tags: [A-Z] to [a-z],
    U+017F (long s) to [s], U+212A (Kelvin sign) to [k]. *)
Fixpoint foldName (s : string) : string :=
  match s with
  | EmptyString => EmptyString
  | String c s' =>
      let b := byte_of c in
      if utf8.in_range 65 90 b then String (char_of (b + 32)) (foldName s')
      else
        match s' with
        | String c1 s'' =>
            if (b =? 197) && (byte_of c1 =? 191) then String "s" (foldName s'')
            else
              match s'' with
              | String c2 s3 =>
                  if (b =? 226) && (byte_of c1 =? 132) && (byte_of c2 =? 170)
                  then String "k" (foldName s3)
                  else String c (foldName s')
              | EmptyString => String c (foldName s')
              end
        | EmptyString => String c EmptyString
        end
  end.

Fixpoint assoc_find (p : string -> bool) (l : list (string * Field))
  : option Field :=
  match l with
  | [] => None
  | (n, f) :: l' => if p n then Some f else assoc_find p l'
  end.

(** The field a key names: the exact tag, else the first tag equal to the
    key under case folding. *)
Definition find_field (key : string) : option Field :=
  match assoc_find (String.eqb key) fields with
  | Some f => Some f
  | None => assoc_find (String.eqb (foldName key)) fields
  end.

(** What storing one member does. *)
Inductive Stored :=
| Set_ (u : model.User)            (* the field is set, or left alone *)
| Mismatch (e : error)             (* UnmarshalTypeError: saved, decoding goes on *)
| Abort (e : error).               (* an Unmarshaler failed: decoding stops *)

(** [Time.UnmarshalJSON] on the raw bytes of a value: [null] leaves the
    time alone, a string literal is read by [parseRFC3339] on the text
    between its quotes, anything else is an error.  The looser forms that
    Go's fallback to [time.Parse] also takes (a one-digit hour, a comma
    before the fraction) count as errors here. *)
Definition Time_UnmarshalJSON (v : Value) (t : time.Time)
  : option time.Time :=
  match v with
  | Null => Some t
  | Str raw => time.parseRFC3339 raw
  | _ => None
  end.

(** [gorm.DeletedAt.UnmarshalJSON]: [null] clears [Valid]; anything else is
    unmarshalled into [Time], and [Valid] is set when that succeeds. *)
Definition DeletedAt_UnmarshalJSON (v : Value) (n : gorm.DeletedAt)
  : option gorm.DeletedAt :=
  match v with
  | Null => Some (gorm.mkDeletedAt (gorm.Time n) false)
  | _ =>
      match Time_UnmarshalJSON v (gorm.Time n) with
      | Some t => Some (gorm.mkDeletedAt t true)
      | None => None
      end
  end.

Definition store_uint (tag : string) (v : Value) (set : N -> model.User)
  (u : model.User) : Stored :=
  match v with
  | Null => Set_ u
  | Number lit =>
      match strconv.ParseUint lit with
      | Some n => Set_ (set n)
      | None => Mismatch (UnmarshalTypeError tag)
      end
  | _ => Mismatch (UnmarshalTypeError tag)
  end.

Definition store_int (tag : string) (v : Value) (set : Z -> model.User)
  (u : model.User) : Stored :=
  match v with
  | Null => Set_ u
  | Number lit =>
      match strconv.ParseInt lit with
      | Some n => Set_ (set n)
      | None => Mismatch (UnmarshalTypeError tag)
      end
  | _ => Mismatch (UnmarshalTypeError tag)
  end.

Definition store_string (tag : string) (v : Value) (set : string -> model.User)
  (u : model.User) : Stored :=
  match v with
  | Null => Set_ u
  | Str raw =>
      match unquote raw with
      | Some s => Set_ (set s)
      | None => Abort SyntaxError
      end
  | _ => Mismatch (UnmarshalTypeError tag)
  end.

Definition store_time (v : Value) (old : time.Time)
  (set : time.Time -> model.User) : Stored :=
  match Time_UnmarshalJSON v old with
  | Some t => Set_ (set t)
  | None => Abort TimeParseError
  end.

Definition store (f : Field) (v : Value) (u : model.User) : Stored :=
  match f with
  | FID => store_uint "id" v (fun n => model.set_ID n u) u
  | FCreatedAt =>
      store_time v (model.CreatedAt u) (fun t => model.set_CreatedAt t u)
  | FUpdatedAt =>
      store_time v (model.UpdatedAt u) (fun t => model.set_UpdatedAt t u)
  | FDeletedAt =>
      match DeletedAt_UnmarshalJSON v (model.DeletedAt u) with
      | Some n => Set_ (model.set_DeletedAt n u)
      | None => Abort TimeParseError
      end
  | FName => store_string "name" v (fun s => model.set_Name s u) u
  | FEmail => store_string "email" v (fun s => model.set_Email s u) u
  | FAge => store_int "age" v (fun n => model.set_Age n u) u
  | FStatus => store_int "status" v (fun n => model.set_Status n u) u
  end.

Definition first_error (saved : option error) (e : error) : option error :=
  match saved with Some _ => saved | None => Some e end.

(** The member loop of [decodeState.object] into the struct: unknown keys
    are skipped, a later duplicate key overwrites, the first
    [UnmarshalTypeError] is kept and returned at the end. *)
Fixpoint decode_members (ms : list (string * Value)) (u : model.User)
  (saved : option error) : model.User * option error :=
  match ms with
  | [] => (u, saved)
  | (rawkey, v) :: ms' =>
      match unquote rawkey with
      | None => (u, Some SyntaxError)
      | Some key =>
          match find_field key with
          | None => decode_members ms' u saved
          | Some f =>
              match store f v u with
              | Set_ u' => decode_members ms' u' saved
              | Mismatch e => decode_members ms' u (first_error saved e)
              | Abort e => (u, Some e)
              end
          end
      end
  end.

(** [json.Unmarshal(data, user)] for a non-nil [*model.User]: the struct
    the pointer leads to after the call, and the error.  Invalid JSON
    leaves the struct untouched. *)
Definition Unmarshal (data : string) (u : model.User)
  : model.User * option error :=
  match scan data with
  | None => (u, Some SyntaxError)
  | Some Null => (u, None)
  | Some (Object ms) => decode_members ms u None
  | Some _ => (u, Some (UnmarshalTypeError EmptyString))
  end.

End json.

(** ** context.Context

    A context is the chain of derivations that built it.  Cancellation
    reaches a context from every cancel handle and timer on its chain up to
    the first [WithoutCancel]; values (here: the active span) are inherited
    along the whole chain. *)

Definition SpanID := nat.

Inductive Context :=
| Background
| WithCancel (parent : Context) (handle : nat)
| WithTimeout (parent : Context) (d : Duration) (handle : nat)
| WithoutCancel (parent : Context)
| ContextWithSpan (parent : Context) (span : SpanID).

(** The cancel handles and timers a context listens to. *)
Fixpoint signals (c : Context) : list nat :=
  match c with
  | Background => []
  | WithCancel p h => h :: signals p
  | WithTimeout p _ h => h :: signals p
  | WithoutCancel _ => []
  | ContextWithSpan p _ => signals p
  end.

(** [trace.SpanFromContext]: the innermost span a context carries. *)
Fixpoint SpanFromContext (c : Context) : option SpanID :=
  match c with
  | Background => None
  | WithCancel p _ => SpanFromContext p
  | WithTimeout p _ _ => SpanFromContext p
  | WithoutCancel p => SpanFromContext p
  | ContextWithSpan _ s => Some s
  end.

(** The innermost timeout a context was given after its last detachment. *)
Fixpoint own_timeout (c : Context) : option Duration :=
  match c with
  | Background => None
  | WithCancel p _ => own_timeout p
  | WithTimeout _ d _ => Some d
  | WithoutCancel _ => None
  | ContextWithSpan p _ => own_timeout p
  end.

(** ** What the collaborators observe *)

Inductive AttrValue :=
| AttrInt (i : Z)
| AttrString (s : string).

Definition KeyValue := (string * AttrValue)%type.

Inductive Code := Unset | Error | Ok.

(** The work of the one [go] statement of the repository, the closure of
    [GetUserByID]: it captures [ctx], [cacheKey] and [user]. *)
Record Task := mkTask {
  task_ctx : Context;
  task_key : string;
  task_user : model.User
}.

Inductive Event :=
| RedisGetCmd (ctx : Context) (key : string)
| RedisSetCmd (ctx : Context) (key : string) (value : string) (ttl : Duration)
| RedisDelCmd (ctx : Context) (key : string)
| SelectByID (ctx : Context) (id : N) (dest_id : N)
| SelectByEmail (ctx : Context) (email : string)
| Insert (ctx : Context) (u : model.User)
| Update (ctx : Context) (columns : list string) (id : N) (u : model.User)
| Go (t : Task)
| SpanStart (s : SpanID) (name : string) (parent : option SpanID)
| SpanSetAttributes (s : SpanID) (attrs : list KeyValue)
| SpanRecordError (s : SpanID) (e : error)
| SpanSetStatus (s : SpanID) (c : Code) (description : string)
| SpanEnd (s : SpanID).

(** ** The world the service runs in

    The [users] table behind [database.DB], the keys behind
    [database.RedisClient], the clock, the cancel handles that have fired,
    the goroutines launched and not yet run, and the process-wide tracer.
    [faults] scripts the failures of the network: each call to Redis or to
    MySQL consumes one entry, and [Some e] makes that call fail with [e]
    without touching the store.  [log] records every call in order. *)

Record World := mkWorld {
  users : list model.User;
  auto_increment : N;
  clock : time.Time;
  cache : gmap string (string * Duration);
  fired : list nat;
  faults : list (option error);
  log : list Event;
  goroutines : list Task;
  next_span : SpanID
}.

Definition with_users (v : list model.User) (w : World) : World :=
  mkWorld v (auto_increment w) (clock w) (cache w) (fired w) (faults w)
          (log w) (goroutines w) (next_span w).
Definition with_auto_increment (v : N) (w : World) : World :=
  mkWorld (users w) v (clock w) (cache w) (fired w) (faults w)
          (log w) (goroutines w) (next_span w).
Definition with_cache (v : gmap string (string * Duration)) (w : World) : World :=
  mkWorld (users w) (auto_increment w) (clock w) v (fired w) (faults w)
          (log w) (goroutines w) (next_span w).
Definition with_fired (v : list nat) (w : World) : World :=
  mkWorld (users w) (auto_increment w) (clock w) (cache w) v (faults w)
          (log w) (goroutines w) (next_span w).
Definition with_faults (v : list (option error)) (w : World) : World :=
  mkWorld (users w) (auto_increment w) (clock w) (cache w) (fired w) v
          (log w) (goroutines w) (next_span w).
Definition with_log (v : list Event) (w : World) : World :=
  mkWorld (users w) (auto_increment w) (clock w) (cache w) (fired w) (faults w)
          v (goroutines w) (next_span w).
Definition with_goroutines (v : list Task) (w : World) : World :=
  mkWorld (users w) (auto_increment w) (clock w) (cache w) (fired w) (faults w)
          (log w) v (next_span w).
Definition with_next_span (v : SpanID) (w : World) : World :=
  mkWorld (users w) (auto_increment w) (clock w) (cache w) (fired w) (faults w)
          (log w) (goroutines w) v.

(** ** The monad of the service code: state, and Go's panics *)

Inductive Result (A : Type) :=
| Ret (a : A)
| Panic (v : string).
Arguments Ret {A} a.
Arguments Panic {A} v.

Definition M (A : Type) : Type := World -> Result A * World.

Definition ret {A} (a : A) : M A := fun w => (Ret a, w).

Definition bind {A B} (m : M A) (k : A -> M B) : M B :=
  fun w =>
    match m w with
    | (Ret a, w') => k a w'
    | (Panic v, w') => (Panic v, w')
    end.

Definition panic {A} (v : string) : M A := fun w => (Panic v, w).

#[global] Instance M_ret : MRet M := @ret.
#[global] Instance M_bind : MBind M := fun A B k m => bind m k.

(** [defer d] around [body]: [d] runs when [body] returns and when it
    panics; the result or the panic of [body] goes on to the caller. *)
Definition defer {A} (d : M unit) (body : M A) : M A :=
  fun w =>
    let '(r, w1) := body w in
    let '(_, w2) := d w1 in
    (r, w2).

Definition emit (ev : Event) : M unit :=
  fun w => (Ret tt, with_log (log w ++ [ev]) w).

(** [ctx.Err()]: a context is done once a handle on its chain has fired.
    Timers report [DeadlineExceeded], cancel handles [Canceled]. *)
Fixpoint ctx_err (fired : list nat) (c : Context) : option error :=
  match c with
  | Background => None
  | WithCancel p h =>
      if existsb (Nat.eqb h) fired then Some ContextCanceled else ctx_err fired p
  | WithTimeout p _ h =>
      if existsb (Nat.eqb h) fired then Some DeadlineExceeded else ctx_err fired p
  | WithoutCancel _ => None
  | ContextWithSpan p _ => ctx_err fired p
  end.

(** One call over the network under [ctx]: it is logged, it consumes one
    entry of the fault script, and it fails when the context is done or the
    script says so. *)
Definition called (ev : Event) (w : World) : World :=
  with_faults (tl (faults w)) (with_log (log w ++ [ev]) w).

Definition round_trip (ctx : Context) (ev : Event) : M (option error) :=
  fun w =>
    let w' := called ev w in
    match ctx_err (fired w) ctx with
    | Some e => (Ret (Some e), w')
    | None =>
        match faults w with
        | Some e :: _ => (Ret (Some e), w')
        | _ => (Ret None, w')
        end
    end.

Definition get_world : M World := fun w => (Ret w, w).
Definition put_cache (c : gmap string (string * Duration)) : M unit :=
  fun w => (Ret tt, with_cache c w).
Definition put_users (us : list model.User) : M unit :=
  fun w => (Ret tt, with_users us w).
Definition put_auto_increment (n : N) : M unit :=
  fun w => (Ret tt, with_auto_increment n w).

(** ** database.RedisClient *)

Module RedisClient.

(** [Get(ctx, key).Result()]: the value, or [redis.Nil] for an absent
    key, or the failure of the call. *)
Definition Get (ctx : Context) (key : string) : M (string * option error) :=
  failed ← round_trip ctx (RedisGetCmd ctx key);
  match failed with
  | Some e => ret (EmptyString, Some e)
  | None =>
      w ← get_world;
      match cache w !! key with
      | Some (v, _) => ret (v, None)
      | None => ret (EmptyString, Some RedisNil)
      end
  end.

(** [Set(ctx, key, value, expiration)]. *)
Definition Set_ (ctx : Context) (key value : string) (ttl : Duration)
  : M (option error) :=
  failed ← round_trip ctx (RedisSetCmd ctx key value ttl);
  match failed with
  | Some e => ret (Some e)
  | None =>
      w ← get_world;
      put_cache (<[key := (value, ttl)]> (cache w));;
      ret None
  end.

(** [Del(ctx, key)]. *)
Definition Del (ctx : Context) (key : string) : M (option error) :=
  failed ← round_trip ctx (RedisDelCmd ctx key);
  match failed with
  | Some e => ret (Some e)
  | None =>
      w ← get_world;
      put_cache (delete key (cache w));;
      ret None
  end.

End RedisClient.

(** ** database.DB: GORM over the [users] table

    The statements GORM builds for the four call shapes of the repository,
    run against the rows of [create_tables.sql]: [id] is the primary key
    with AUTO_INCREMENT, [email] carries a UNIQUE key, [deleted_at] is the
    soft-delete marker that every query and update filters on. *)

Module DB.

Definition live (r : model.User) : bool :=
  negb (gorm.Valid (model.DeletedAt r)).

(** [ORDER BY id LIMIT 1] over the rows that satisfy [p]. *)
Fixpoint first_by_id (p : model.User -> bool) (rows : list model.User)
  : option model.User :=
  match rows with
  | [] => None
  | r :: rows' =>
      match first_by_id p rows' with
      | Some r' =>
          if p r && (model.ID r <=? model.ID r') then Some r else Some r'
      | None => if p r then Some r else None
      end
  end.

(** [DB.WithContext(ctx).First(user, id)]:
    [SELECT * FROM users WHERE id = ? AND deleted_at IS NULL ORDER BY id
    LIMIT 1].  When the destination already holds a non-zero primary key,
    GORM adds [AND id = <that key>].  The row found overwrites the
    destination; otherwise the destination is left as it was. *)
Definition First (ctx : Context) (dest : model.User) (id : N)
  : M (model.User * option error) :=
  failed ← round_trip ctx (SelectByID ctx id (model.ID dest));
  match failed with
  | Some e => ret (dest, Some e)
  | None =>
      w ← get_world;
      let cond r :=
        live r && (model.ID r =? id)
        && ((model.ID dest =? 0) || (model.ID r =? model.ID dest)) in
      match first_by_id cond (users w) with
      | Some r => ret (r, None)
      | None => ret (dest, Some ErrRecordNotFound)
      end
  end.

(** [DB.WithContext(ctx).Where("email = ?", email).First(&dest)] with a
    zero destination. *)
Definition FirstWhereEmail (ctx : Context) (email : string)
  : M (model.User * option error) :=
  failed ← round_trip ctx (SelectByEmail ctx email);
  match failed with
  | Some e => ret (model.zero, Some e)
  | None =>
      w ← get_world;
      let cond r := live r && String.eqb (model.Email r) email in
      match first_by_id cond (users w) with
      | Some r => ret (r, None)
      | None => ret (model.zero, Some ErrRecordNotFound)
      end
  end.

(** [DB.WithContext(ctx).Create(user)]: GORM fills zero [CreatedAt] and
    [UpdatedAt] with the current time, a zero [ID] takes the next
    AUTO_INCREMENT value and is written back to the struct, a zero
    [Status] is stored as the column default 1.  The PRIMARY and UNIQUE
    keys reject a row whose id or email is already in the table. *)
Definition Create (ctx : Context) (user : model.User)
  : M (model.User * option error) :=
  failed ← round_trip ctx (Insert ctx user);
  match failed with
  | Some e => ret (user, Some e)
  | None =>
      w ← get_world;
      let id := if model.ID user =? 0 then auto_increment w else model.ID user in
      let stamped :=
        model.set_ID id
          (model.set_CreatedAt
             (if time.IsZero (model.CreatedAt user) then clock w
              else model.CreatedAt user)
             (model.set_UpdatedAt
                (if time.IsZero (model.UpdatedAt user) then clock w
                 else model.UpdatedAt user)
                user)) in
      let row :=
        if (model.Status stamped =? 0)%Z then model.set_Status 1 stamped
        else stamped in
      if existsb (fun r => (model.ID r =? id)
                           || String.eqb (model.Email r) (model.Email user))
                 (users w)
      then ret (user, Some ErrDuplicatedKey)
      else
        put_users (users w ++ [row]);;
        put_auto_increment (N.max (auto_increment w) (id + 1));;
        ret (stamped, None)
  end.

(** One [SET column = value] of an update whose values come from the
    struct [src]; [updated_at] is a tracked update time and takes the
    current time. *)
Definition assign (now : time.Time) (src : model.User) (column : string)
  (row : model.User) : model.User :=
  if String.eqb column "name" then model.set_Name (model.Name src) row
  else if String.eqb column "email" then model.set_Email (model.Email src) row
  else if String.eqb column "age" then model.set_Age (model.Age src) row
  else if String.eqb column "status" then model.set_Status (model.Status src) row
  else if String.eqb column "updated_at" then model.set_UpdatedAt now row
  else if String.eqb column "created_at"
    then model.set_CreatedAt (model.CreatedAt src) row
  else if String.eqb column "deleted_at"
    then model.set_DeletedAt (model.DeletedAt src) row
  else if String.eqb column "id" then model.set_ID (model.ID src) row
  else row.

Definition assign_all (now : time.Time) (src : model.User)
  (columns : list string) (row : model.User) : model.User :=
  fold_left (fun r c => assign now src c r) columns row.

(** [DB.WithContext(ctx).Model(&model.User{}).Select(columns...)
      .Where("id = ?", id).Updates(user)]:
    [UPDATE users SET <columns> WHERE id = ? AND deleted_at IS NULL].
    Updating no row is not an error.  The UNIQUE key on [email] rejects
    the statement when the new row would share its email with another
    row. *)
Definition Updates (ctx : Context) (columns : list string) (id : N)
  (user : model.User) : M (option error) :=
  failed ← round_trip ctx (Update ctx columns id user);
  match failed with
  | Some e => ret (Some e)
  | None =>
      w ← get_world;
      let target r := live r && (model.ID r =? id) in
      let rows' :=
        map (fun r => if target r then assign_all (clock w) user columns r else r)
            (users w) in
      let clash :=
        existsb
          (fun r => target r
                    && existsb (fun o => negb (model.ID o =? model.ID r)
                                         && String.eqb (model.Email o)
                                              (model.Email (assign_all (clock w) user columns r)))
                               (users w))
          (users w) in
      if clash then ret (Some ErrDuplicatedKey)
      else put_users rows';; ret None
  end.

End DB.

(** ** logic/user_query.go *)

(** The [go func() { ... }()] statement: the closure is queued, the caller
    goes on at once. *)
Definition go (t : Task) : M unit :=
  fun w => (Ret tt, with_goroutines (goroutines w ++ [t])
                      (with_log (log w ++ [Go t]) w)).

(** The body of the closure [GetUserByID] launches:
    [jsonData, _ := json.Marshal(user);
     database.RedisClient.Set(ctx, cacheKey, string(jsonData), UserCacheTTL)]. *)
Definition run_task (t : Task) : M unit :=
  let '(jsonData, _) := json.Marshal (task_user t) in
  RedisClient.Set_ (task_ctx t) (task_key t) jsonData UserCacheTTL;;
  ret tt.

(** The first [if] of [GetUserByID]: on [err == nil] the bytes are
    unmarshalled into [user], and a nil error there returns the user ([inl]);
    a failed decode, [redis.Nil] and any other Redis error fall through
    ([inr]) with [user] as the decoder left it. *)
Definition cache_attempt (jsonData : string) (err : option error)
  (user : model.User) : model.User + model.User :=
  match err with
  | None =>
      match json.Unmarshal jsonData user with
      | (user', None) => inl user'
      | (user', Some _) => inr user'
      end
  | Some RedisNil => inr user
  | Some _ => inr user
  end.

(** [GetUserByID(ctx, id)], of result type [( *model.User, error )]. *)
Definition GetUserByID (ctx : Context) (id : N)
  : M (option model.User * option error) :=
  let cacheKey := fmt.Sprintf UserCacheKey [id] in
  let user := model.zero in
  '(jsonData, err) ← RedisClient.Get ctx cacheKey;
  match cache_attempt jsonData err user with
  | inl user' => ret (Some user', None)
  | inr user' =>
      '(user'', err) ← DB.First ctx user' id;
      match err with
      | Some e => ret (None, Some e)
      | None =>
          go (mkTask ctx cacheKey user'');;
          ret (Some user'', None)
      end
  end.

(** ** logic/user_write.go *)

(** [CreateUser(ctx, user) error]; the struct behind the pointer after the
    call is returned with the error. *)
Definition CreateUser (ctx : Context) (user : model.User)
  : M (model.User * option error) :=
  if String.eqb (model.Name user) EmptyString
     || String.eqb (model.Email user) EmptyString
  then ret (user, Some (Errorf "用户姓名和邮箱不能为空"))
  else
    '(existingUser, err) ← DB.FirstWhereEmail ctx (model.Email user);
    match err with
    | None => ret (user, Some (Errorf ("邮箱 " +:+ model.Email user +:+ " 已存在")))
    | Some _ =>
        '(user', err) ← DB.Create ctx user;
        match err with
        | Some e => ret (user', Some e)
        | None =>
            let cacheKey := fmt.Sprintf UserCacheKey [model.ID user'] in
            RedisClient.Del ctx cacheKey;;
            ret (user', None)
        end
    end.

(** The columns [UpdateUser] names in [Select(...)]. *)
Definition update_columns : list string :=
  ["name"; "email"; "age"; "status"; "updated_at"].

(** [UpdateUser(ctx, user) error]. *)
Definition UpdateUser (ctx : Context) (user : model.User) : M (option error) :=
  if model.ID user =? 0
  then ret (Some (Errorf "用户ID不能为空"))
  else
    err ← DB.Updates ctx update_columns (model.ID user) user;
    match err with
    | Some e => ret (Some e)
    | None =>
        let cacheKey := fmt.Sprintf UserCacheKey [model.ID user] in
        RedisClient.Del ctx cacheKey;;
        ret None
    end.

(** ** pkg/tracing.go *)

Module Tracer.

(** [Tracer.Start(ctx, name)]: a fresh span, child of the span [ctx]
    carries, and the context that carries the new span. *)
Definition Start (ctx : Context) (name : string) : M (Context * SpanID) :=
  fun w =>
    let s := next_span w in
    (Ret (ContextWithSpan ctx s, s),
     with_next_span (S s)
       (with_log (log w ++ [SpanStart s name (SpanFromContext ctx)]) w)).

End Tracer.

Module span.
Definition End (s : SpanID) : M unit := emit (SpanEnd s).
Definition SetAttributes (s : SpanID) (attrs : list KeyValue) : M unit :=
  emit (SpanSetAttributes s attrs).
Definition RecordError (s : SpanID) (e : error) : M unit :=
  emit (SpanRecordError s e).
Definition SetStatus (s : SpanID) (c : Code) (description : string) : M unit :=
  emit (SpanSetStatus s c description).
End span.

(** [err.Error()]. *)
Definition Error_ (e : error) : string :=
  match e with
  | RedisNil => "redis: nil"
  | ErrRecordNotFound => "record not found"
  | ErrDuplicatedKey => "duplicated key not allowed"
  | ContextCanceled => "context canceled"
  | DeadlineExceeded => "context deadline exceeded"
  | Unavailable code => "unavailable: " +:+ strconv.FormatUint code
  | SyntaxError => "invalid character"
  | UnmarshalTypeError f => "json: cannot unmarshal into Go struct field " +:+ f
  | TimeParseError => "parsing time"
  | MarshalerError => "json: error calling MarshalJSON"
  | Errorf msg => msg
  end.

(** [TraceServiceFunc[T, R](operationName, fn, attrFunc)]; a nil [attrFunc]
    is [None]. *)
Definition TraceServiceFunc {T R : Type}
  (operationName : string)
  (fn : Context -> T -> M (R * option error))
  (attrFunc : option (Context -> T -> list KeyValue))
  : Context -> T -> M (R * option error) :=
  fun ctx arg =>
    '(ctx, span) ← Tracer.Start ctx operationName;
    defer (span.End span)
      ((match attrFunc with
        | Some attrFunc =>
            let attrs := attrFunc ctx arg in
            if (0 <? length attrs)%nat then span.SetAttributes span attrs
            else ret tt
        | None => ret tt
        end);;
       '(result, err) ← fn ctx arg;
       (match err with
        | Some e =>
            span.RecordError span e;;
            span.SetStatus span Error (Error_ e)
        | None => ret tt
        end);;
       ret (result, err)).

(** *** The stages of a traced call

    What [TraceServiceFunc] itself tells the tracer around the call of
    [fn]: the span it starts and the attributes it sets before, the error it
    records and the end of the span after. *)

Definition attribute_events {T : Type}
  (attrFunc : option (Context -> T -> list KeyValue))
  (ctx : Context) (arg : T) (s : SpanID) : list Event :=
  match attrFunc with
  | Some attrFunc =>
      if (0 <? length (attrFunc ctx arg))%nat
      then [SpanSetAttributes s (attrFunc ctx arg)] else []
  | None => []
  end.

Definition entry_events {T : Type} (operationName : string)
  (attrFunc : option (Context -> T -> list KeyValue))
  (ctx : Context) (arg : T) (s : SpanID) : list Event :=
  SpanStart s operationName (SpanFromContext ctx)
    :: attribute_events attrFunc (ContextWithSpan ctx s) arg s.

Definition exit_events {R : Type} (s : SpanID)
  (outcome : Result (R * option error)) : list Event :=
  match outcome with
  | Ret (_, Some e) => [SpanRecordError s e; SpanSetStatus s Error (Error_ e)]
  | Ret (_, None) => []
  | Panic _ => []
  end ++ [SpanEnd s].

(** The world in which the wrapped [fn] is entered. *)
Definition entered {T : Type} (operationName : string)
  (attrFunc : option (Context -> T -> list KeyValue))
  (ctx : Context) (arg : T) (w : World) : World :=
  with_log (log w ++ entry_events operationName attrFunc ctx arg (next_span w))
    (with_next_span (S (next_span w)) w).

Definition spans_started (evs : list Event) : list SpanID :=
  flat_map (fun ev => match ev with SpanStart s _ _ => [s] | _ => [] end) evs.

Definition spans_ended (evs : list Event) : list SpanID :=
  flat_map (fun ev => match ev with SpanEnd s => [s] | _ => [] end) evs.

(** [cancel()] of the handle [h], or the expiry of the timer [h]. *)
Definition fire (h : nat) (w : World) : World := with_fired (h :: fired w) w.

(** ** Sample data for the worked instances *)

Definition noon : time.Time := time.mkTime 2024 1 2 12 0 0 0 0%Z.
Definition later : time.Time := time.mkTime 2024 3 4 9 30 0 500000000 28800%Z.

Definition alice : model.User :=
  model.mkUser 1 noon noon (gorm.mkDeletedAt time.zero false)
               "A" "a@x.com" 30%Z 1%Z.

(** The context of an HTTP request: cancelled through handle 7 when the
    client goes away, carrying the span 3 of the tracing middleware. *)
Definition request_ctx : Context := ContextWithSpan (WithCancel Background 7) 3%nat.

Definition world_of (rows : list model.User)
  (entries : gmap string (string * Duration)) (script : list (option error))
  : World :=
  mkWorld rows 2 later entries [] script [] [] 4%nat.

(** A corrupted cache entry: the object with the members [id], the number
    5, and [name], the number 3.  It is JSON, and [name] is of the wrong
    type for [model.User]. *)
Definition corrupted_entry : string :=
  "{" +:+ json.member "id" +:+ "5," +:+ json.member "name" +:+ "3}".

(** What the spec asks of the context of the population task: another
    context than the request's, with the request's span, out of reach of
    the request's cancel handles, under a timeout of its own. *)
Definition detached_from (ctx c : Context) : Prop :=
  c <> ctx
  /\ SpanFromContext c = SpanFromContext ctx
  /\ (forall h, In h (signals ctx) -> ~ In h (signals c))
  /\ own_timeout c <> None.

(** ** Notions the proofs of Part II use *)

(** What it means for [ds] to be the decimal numeral of [u]. *)
Record numeral (u : N) (ds : string) : Prop := {
  numeral_digits : strconv.all_digits ds = true;
  numeral_value : forall acc,
      strconv.digits_value acc ds = acc * 10 ^ N.of_nat (String.length ds) + u;
  numeral_head : forall c rest, ds = String c rest ->
      (u = 0 -> rest = EmptyString) /\ (u <> 0 -> c <> "0"%char);
  numeral_nonempty : ds <> EmptyString
}.

(** Linear arithmetic with division and remainder by constants. *)
Ltac divlia := zify; Z.div_mod_to_equations; Z.quot_rem_to_equations; lia.

(** [a] put in front of the body a scan returned. *)
Definition prepend (a : string) (r : option (string * string))
  : option (string * string) :=
  match r with
  | Some (body, rest) => Some (a +:+ body, rest)
  | None => None
  end.

(** [a] is text the string scanner walks through and keeps. *)
Definition passes (a : string) : Prop :=
  forall rest, json.scan_string (a +:+ rest) = prepend a (json.scan_string rest).

(** [a] is one step of [unquote] that yields [x]. *)
Definition decodes (a x : string) : Prop :=
  forall fuel rest,
    json.unquote_loop (S fuel) (a +:+ rest)
    = option_map (String.app x) (json.unquote_loop fuel rest).

(** A byte a string literal holds as it is: not a control byte, not a
    quote, not a backslash. *)
Definition plain_char (c : ascii) : bool :=
  (32 <=? byte_of c) && negb (byte_of c =? 34) && negb (byte_of c =? 92).

(** A string of such bytes. *)
Fixpoint plain (s : string) : bool :=
  match s with
  | EmptyString => true
  | String c s' => plain_char c && plain s'
  end.

(** Every byte is 0x80 or above, as inside a multi-byte rune. *)
Fixpoint high (s : string) : bool :=
  match s with
  | EmptyString => true
  | String c s' => (128 <=? byte_of c) && high s'
  end.

(** What may follow a value inside the object the encoder writes. *)
Definition closes (c : ascii) : Prop := c = ","%char \/ c = "}"%char.

(** The text [vtext] scans as the value [v] wherever a comma or a closing
    brace follows it. *)
Definition scans_as (vtext : string) (v : json.Value) : Prop :=
  forall fuel c rest,
    closes c ->
    json.scan_value (S fuel) (vtext +:+ String c rest) = Some (v, String c rest).

(** The members of an object as the encoder lays them out: tag, value text,
    a comma between members, the closing brace after the last. *)
Fixpoint render (l : list (string * string)) (rest : string) : string :=
  match l with
  | [] => rest
  | (tag, text) :: l' =>
      json.member tag +:+ text
        +:+ match l' with
            | [] => String "}" rest
            | _ => String "," (render l' rest)
            end
  end.

(** A tag with its value text, against the member the scanner returns. *)
Definition member_scans (m : string * string) (kv : string * json.Value) : Prop :=
  fst kv = fst m /\ plain (fst m) = true /\ scans_as (snd m) (snd kv).

(** ** logic/user_query.go: GetAllUsers *)

(** A call over the network of a statement kind the log keeps no entry
    for (the full scan of [GetAllUsers]): it consumes one entry of the fault
    script and fails when the context is done or the script says so. *)
Definition unlogged_round_trip (ctx : Context) : M (option error) :=
  fun w =>
    let w' := with_faults (tl (faults w)) w in
    match ctx_err (fired w) ctx with
    | Some e => (Ret (Some e), w')
    | None =>
        match faults w with
        | Some e :: _ => (Ret (Some e), w')
        | _ => (Ret None, w')
        end
    end.

(** [DB.WithContext(ctx).Find(&users)] on a nil slice:
    [SELECT * FROM users WHERE deleted_at IS NULL].  The statement has no
    ORDER BY: the order of the list is the order of the model's table and
    nothing more.  A failed query leaves the slice nil. *)
Definition DB_Find (ctx : Context) (dest : option (list model.User))
  : M (option (list model.User) * option error) :=
  failed ← unlogged_round_trip ctx;
  match failed with
  | Some e => ret (dest, Some e)
  | None =>
      w ← get_world;
      ret (Some (List.filter DB.live (users w)), None)
  end.

(** [GetAllUsers(ctx)], of result type [( []model.User, error )]; [None] is
    the nil slice. *)
Definition GetAllUsers (ctx : Context)
  : M (option (list model.User) * option error) :=
  let users := None in
  '(users, err) ← DB_Find ctx users;
  match err with
  | Some e => ret (None, Some e)
  | None => ret (users, None)
  end.

(** ** The table's keys

    What the PRIMARY KEY, the UNIQUE key on [email] and AUTO_INCREMENT of
    [create_tables.sql] maintain: no two rows share an id or an email, and
    the counter is above every id in use.

    Emails are compared as [DB] compares them, byte by byte.  The collation
    of the table, utf8mb4_unicode_ci, also takes for equal some emails that
    are different bytes (it ignores case); that is not modelled, and what is
    proved about emails is proved of tables in which two emails the
    collation takes for equal are the same bytes. *)
Definition keys_hold (w : World) : Prop :=
  NoDup (map model.ID (users w))
  /\ NoDup (map model.Email (users w))
  /\ Forall (fun r => model.ID r < auto_increment w) (users w).

(** ** What the two writes put into the table

    [clock w] is the time of a statement as the table keeps it; the
    rounding of a [timestamp] column to whole seconds is not modelled. *)

(** The id [DB.Create] gives [user], the struct it hands back, and the row
    it writes. *)
Definition new_id (user : model.User) (w : World) : N :=
  if model.ID user =? 0 then auto_increment w else model.ID user.

Definition stamped (user : model.User) (w : World) : model.User :=
  model.set_ID (new_id user w)
    (model.set_CreatedAt
       (if time.IsZero (model.CreatedAt user) then clock w
        else model.CreatedAt user)
       (model.set_UpdatedAt
          (if time.IsZero (model.UpdatedAt user) then clock w
           else model.UpdatedAt user)
          user)).

Definition new_row (user : model.User) (w : World) : model.User :=
  if (model.Status (stamped user w) =? 0)%Z
  then model.set_Status 1 (stamped user w) else stamped user w.

(** The row [UpdateUser] leaves where [row] was. *)
Definition updated (now : time.Time) (user row : model.User) : model.User :=
  model.set_UpdatedAt now
    (model.set_Status (model.Status user)
       (model.set_Age (model.Age user)
          (model.set_Email (model.Email user)
             (model.set_Name (model.Name user) row)))).

(** The table after the update of [UpdateUser]. *)
Definition update_rows (now : time.Time) (user : model.User)
  (rows : list model.User) : list model.User :=
  map (fun r => if DB.live r && (model.ID r =? model.ID user)
                then updated now user r else r) rows.

(** No row other than the one updated holds the new email. *)
Definition email_free (user : model.User) (rows : list model.User) : Prop :=
  forall r o, In r rows -> In o rows ->
    DB.live r = true -> model.ID r = model.ID user ->
    model.ID o <> model.ID r -> model.Email o <> model.Email user.

(** ** service/service_c.go: ServiceC behind the tracing decorator *)

Module attribute.
Definition String_ (k v : string) : KeyValue := (k, AttrString v).
Definition Int (k : string) (v : Z) : KeyValue := (k, AttrInt v).
End attribute.

Module service.

(** [ServiceCInterface].  The methods of [*ServiceC] itself are calls of a
    remote API over HTTP; they enter as an instance of the interface. *)
Class ServiceCInterface (S : Type) := {
  Calculate : S -> Context -> Z -> M (string * option error);
  Process : S -> Context -> string -> M (string * option error)
}.

(** [ServiceCWithTrace]: the embedded [*ServiceC] and the two decorated
    functions. *)
Record ServiceCWithTrace (S : Type) := mkServiceCWithTrace {
  ServiceC : S;
  calculate : Context -> Z -> M (string * option error);
  process : Context -> string -> M (string * option error)
}.
Arguments mkServiceCWithTrace {S} _ _ _.
Arguments ServiceC {S} _.
Arguments calculate {S} _ _ _.
Arguments process {S} _ _ _.

(** [NewServiceCWithTrace], from the [*ServiceC] that [NewServiceC(baseURL)]
    returns. *)
Definition NewServiceCWithTrace {S : Type} `{ServiceCInterface S} (serviceC : S)
  : ServiceCWithTrace S :=
  mkServiceCWithTrace serviceC
    (TraceServiceFunc "ServiceC.Calculate" (Calculate serviceC)
       (Some (fun (ctx : Context) (number : Z) =>
                [attribute.String_ "service.name" "ServiceC";
                 attribute.String_ "method" "Calculate";
                 attribute.Int "input.number" number])))
    (TraceServiceFunc "ServiceC.Process" (Process serviceC)
       (Some (fun (ctx : Context) (content : string) =>
                [attribute.String_ "service.name" "ServiceC";
                 attribute.String_ "method" "Process";
                 attribute.String_ "input.content" content]))).

(** The methods [Calculate] and [Process] of [*ServiceCWithTrace]. *)
#[global] Instance ServiceCWithTrace_interface (S : Type)
  : ServiceCInterface (ServiceCWithTrace S) := {
  Calculate s ctx number := calculate s ctx number;
  Process s ctx content := process s ctx content
}.

End service.

(* ===================================================================== *)
(** * Part II - theorems                                                  *)
(* ===================================================================== *)

(** ** Decimal digits *)

Section Decimal.

Import strconv.

Lemma byte_of_char_of (b : N) : b < 256 -> byte_of (char_of b) = b.
Proof. apply N_ascii_embedding. Qed.

Lemma char_of_byte_of (c : ascii) : char_of (byte_of c) = c.
Proof. apply ascii_N_embedding. Qed.

Lemma byte_of_inj (a b : ascii) : byte_of a = byte_of b -> a = b.
Proof.
  intros H. rewrite <- (char_of_byte_of a), <- (char_of_byte_of b). now rewrite H.
Qed.

Lemma digit_val_char (d : N) : d < 10 -> digit_val (digit_char d) = d.
Proof.
  intros H. unfold digit_val, digit_char. rewrite byte_of_char_of; lia.
Qed.

Lemma isDigit_char (d : N) : d < 10 -> isDigit (digit_char d) = true.
Proof.
  intros H. unfold isDigit, digit_char. rewrite byte_of_char_of by lia.
  apply andb_true_intro; split; apply N.leb_le; lia.
Qed.

Lemma digit_char_zero (d : N) : d < 10 -> digit_char d = "0"%char -> d = 0.
Proof.
  intros H E. apply (f_equal byte_of) in E. unfold digit_char in E.
  rewrite byte_of_char_of in E by lia. change (byte_of "0"%char) with 48 in E. lia.
Qed.

Lemma all_digits_app (a b : string) :
  all_digits (a +:+ b) = all_digits a && all_digits b.
Proof. induction a as [|c a IH]; simpl; [reflexivity|]. now rewrite IH, andb_assoc. Qed.

Lemma digits_value_app (a b : string) (acc : N) :
  digits_value acc (a +:+ b) = digits_value (digits_value acc a) b.
Proof. revert acc. induction a as [|c a IH]; intros acc; simpl; [reflexivity|]. apply IH. Qed.

Lemma string_length_app (a b : string) :
  String.length (a +:+ b) = (String.length a + String.length b)%nat.
Proof. induction a as [|c a IH]; simpl; [reflexivity|]. now rewrite IH. Qed.

Lemma string_app_assoc (a b c : string) : (a +:+ b) +:+ c = a +:+ (b +:+ c).
Proof. induction a as [|x a IH]; simpl; [reflexivity|]. now rewrite IH. Qed.

Lemma string_app_nil_r (a : string) : a +:+ EmptyString = a.
Proof. induction a as [|x a IH]; simpl; [reflexivity|]. now rewrite IH. Qed.

Lemma string_app_inv_head (a b c : string) : a +:+ b = a +:+ c -> b = c.
Proof. induction a as [|x a IH]; simpl; [trivial|]. intros H. injection H. exact IH. Qed.

(** The digit loop writes the numeral of [u] in front of the buffer, when
    the fuel covers the bit length of [u]. *)
Lemma format_loop_S (fuel : nat) (u : N) (buf : string) :
  format_loop (S fuel) u buf =
  if u <? 10 then String (digit_char u) buf
  else format_loop fuel (u / 10) (String (digit_char (u mod 10)) buf).
Proof. reflexivity. Qed.

Lemma format_loop_numeral (fuel : nat) : forall (u : N) (buf : string),
  u < 2 ^ N.of_nat (S fuel) ->
  exists ds, format_loop (S fuel) u buf = ds +:+ buf /\ numeral u ds.
Proof.
  induction fuel as [|fuel IH]; intros u buf Hu;
    rewrite format_loop_S; destruct (N.ltb_spec u 10) as [Hlt|Hge].
  1, 3: exists (String (digit_char u) EmptyString); split; [reflexivity|];
        split;
        [ simpl; now rewrite isDigit_char
        | intros acc; simpl; rewrite digit_val_char by assumption;
          change (N.of_nat 1) with 1; lia
        | intros c rest E; injection E as <- <-; split; [reflexivity|];
          intros Hnz Hc; apply digit_char_zero in Hc; [contradiction|assumption]
        | discriminate ].
  - change (2 ^ N.of_nat 1) with 2 in Hu. lia.
  - assert (Hdiv : u / 10 < 2 ^ N.of_nat (S fuel)).
    { rewrite (Nat2N.inj_succ (S fuel)), N.pow_succ_r' in Hu.
      apply N.Div0.div_lt_upper_bound. lia. }
    destruct (IH (u / 10) (String (digit_char (u mod 10)) buf) Hdiv)
      as (ds & E & [Hd Hv Hh Hn]).
    assert (Hmod : u mod 10 < 10) by (apply N.mod_lt; lia).
    exists (ds +:+ String (digit_char (u mod 10)) EmptyString). split.
    + rewrite E, string_app_assoc. reflexivity.
    + split.
      * rewrite all_digits_app, Hd. simpl. now rewrite isDigit_char.
      * intros acc. rewrite digits_value_app, Hv. simpl.
        rewrite digit_val_char by assumption.
        rewrite string_length_app. simpl String.length.
        rewrite Nat2N.inj_add. change (N.of_nat 1) with 1.
        rewrite N.pow_add_r. change (10 ^ 1) with 10.
        pose proof (N.div_mod u 10 ltac:(lia)) as Hdm. lia.
      * intros c rest Ec. destruct ds as [|c' ds']; [congruence|].
        simpl in Ec. injection Ec as <- <-.
        destruct (Hh c' ds' eq_refl) as [_ H2]. split.
        -- intros ->. simpl in Hge. lia.
        -- intros _. apply H2. intros H0.
           assert (u < 10); [|lia].
           pose proof (N.div_mod u 10 ltac:(lia)). lia.
      * destruct ds; simpl; discriminate.
Qed.

Lemma FormatUint_numeral (u : N) : numeral u (FormatUint u).
Proof.
  unfold FormatUint.
  destruct (format_loop_numeral (N.to_nat (N.log2 u)) u EmptyString)
    as (ds & E & Hn).
  - rewrite Nat2N.inj_succ, N2Nat.id.
    destruct (N.eq_dec u 0) as [->|Hnz]; [reflexivity|].
    apply N.log2_spec. lia.
  - rewrite E, string_app_nil_r. exact Hn.
Qed.

Lemma FormatUint_value (u : N) : digits_value 0 (FormatUint u) = u.
Proof. rewrite (numeral_value _ _ (FormatUint_numeral u)). lia. Qed.

Lemma FormatUint_inj (a b : N) : FormatUint a = FormatUint b -> a = b.
Proof.
  intros H. rewrite <- (FormatUint_value a), <- (FormatUint_value b). now rewrite H.
Qed.

End Decimal.

(** ** Cache keys *)

Lemma cacheKey_unfold (id : N) :
  cacheKey id = "user:" +:+ strconv.FormatUint id.
Proof.
  unfold cacheKey, UserCacheKey. simpl. now rewrite string_app_nil_r.
Qed.

(** C8. The cache key of an identifier is the text [user:] followed by the
    decimal numeral of the identifier and of nothing else, and two
    different identifiers never share a key. *)
Theorem C8_cache_key_injective :
  forall id1 id2 : N,
    cacheKey id1 = "user:" +:+ strconv.FormatUint id1
    /\ strconv.digits_value 0 (strconv.FormatUint id1) = id1
    /\ (cacheKey id1 = cacheKey id2 <-> id1 = id2).
Proof.
  intros id1 id2. split; [apply cacheKey_unfold|].
  split; [apply FormatUint_value|]. split.
  - rewrite !cacheKey_unfold. intros H.
    apply string_app_inv_head in H. now apply FormatUint_inj.
  - now intros ->.
Qed.

(** ** The collaborators: what each call returns and what it leaves *)

Lemma bind_run {A B} (m : M A) (k : A -> M B) (w : World) :
  (m ≫= k) w =
  match m w with
  | (Ret a, w') => k a w'
  | (Panic v, w') => (Panic v, w')
  end.
Proof. reflexivity. Qed.

Lemma round_trip_run (ctx : Context) (ev : Event) (w : World) :
  exists failed, round_trip ctx ev w = (Ret failed, called ev w).
Proof.
  unfold round_trip. destruct (ctx_err (fired w) ctx); [eauto|].
  destruct (faults w) as [|[e|] fs]; eauto.
Qed.

(** A lookup returns, and changes nothing but the log and the fault
    script. *)
Lemma Get_run (ctx : Context) (key : string) (w : World) :
  exists jsonData err,
    RedisClient.Get ctx key w
    = (Ret (jsonData, err), called (RedisGetCmd ctx key) w).
Proof.
  unfold RedisClient.Get. rewrite bind_run.
  destruct (round_trip_run ctx (RedisGetCmd ctx key) w) as [[e|] ->].
  - eauto.
  - rewrite bind_run. unfold get_world.
    destruct (cache _ !! key) as [[v ttl]|]; eauto.
Qed.

Lemma First_run (ctx : Context) (dest : model.User) (id : N) (w : World) :
  exists user err,
    DB.First ctx dest id w
    = (Ret (user, err), called (SelectByID ctx id (model.ID dest)) w).
Proof.
  unfold DB.First. rewrite bind_run.
  destruct (round_trip_run ctx (SelectByID ctx id (model.ID dest)) w) as [[e|] ->].
  - eauto.
  - rewrite bind_run. unfold get_world.
    destruct (DB.first_by_id _ _); eauto.
Qed.

Lemma FirstWhereEmail_run (ctx : Context) (email : string) (w : World) :
  exists user err,
    DB.FirstWhereEmail ctx email w
    = (Ret (user, err), called (SelectByEmail ctx email) w).
Proof.
  unfold DB.FirstWhereEmail. rewrite bind_run.
  destruct (round_trip_run ctx (SelectByEmail ctx email) w) as [[e|] ->].
  - eauto.
  - rewrite bind_run. unfold get_world.
    destruct (DB.first_by_id _ _); eauto.
Qed.

(** A deletion returns; it removes the key when the call goes through and
    leaves the cache alone when it fails. *)
Lemma Del_run (ctx : Context) (key : string) (w : World) :
  let w1 := called (RedisDelCmd ctx key) w in
  (exists e, RedisClient.Del ctx key w = (Ret (Some e), w1))
  \/ RedisClient.Del ctx key w = (Ret None, with_cache (delete key (cache w)) w1).
Proof.
  unfold RedisClient.Del. rewrite bind_run.
  destruct (round_trip_run ctx (RedisDelCmd ctx key) w) as [[e|] ->].
  - left. eauto.
  - right. reflexivity.
Qed.

Lemma Set_run (ctx : Context) (key value : string) (ttl : Duration) (w : World) :
  let w1 := called (RedisSetCmd ctx key value ttl) w in
  (exists e, RedisClient.Set_ ctx key value ttl w = (Ret (Some e), w1))
  \/ RedisClient.Set_ ctx key value ttl w
     = (Ret None, with_cache (<[key := (value, ttl)]> (cache w)) w1).
Proof.
  unfold RedisClient.Set_. rewrite bind_run.
  destruct (round_trip_run ctx (RedisSetCmd ctx key value ttl) w) as [[e|] ->].
  - left. eauto.
  - right. reflexivity.
Qed.

(** ** GetUserByID *)

(** How a lookup that does not produce the user leaves the destination. *)
Lemma cache_attempt_falls_through (jsonData : string) (err : option error) :
  (exists e, err = Some e)
  \/ (err = None /\ snd (json.Unmarshal jsonData model.zero) <> None) ->
  cache_attempt jsonData err model.zero
  = inr (match err with
         | None => fst (json.Unmarshal jsonData model.zero)
         | Some _ => model.zero
         end).
Proof.
  intros [[e ->]|[-> H]]; unfold cache_attempt.
  - now destruct e.
  - destruct (json.Unmarshal jsonData model.zero) as [u [e|]]; simpl in *;
      [reflexivity|congruence].
Qed.

(** [GetUserByID] after a lookup that fell through. *)
Lemma GetUserByID_fallback (ctx : Context) (id : N) (w : World)
  (jsonData : string) (err : option error) (dest : model.User) :
  RedisClient.Get ctx (cacheKey id) w
    = (Ret (jsonData, err), called (RedisGetCmd ctx (cacheKey id)) w) ->
  cache_attempt jsonData err model.zero = inr dest ->
  let w1 := called (RedisGetCmd ctx (cacheKey id)) w in
  let w2 := called (SelectByID ctx id (model.ID dest)) w1 in
  exists user dberr,
    DB.First ctx dest id w1 = (Ret (user, dberr), w2)
    /\ GetUserByID ctx id w
       = match dberr with
         | Some e => (Ret (None, Some e), w2)
         | None =>
             (Ret (Some user, None),
              with_goroutines (goroutines w2 ++ [mkTask ctx (cacheKey id) user])
                (with_log (log w2 ++ [Go (mkTask ctx (cacheKey id) user)]) w2))
         end.
Proof.
  intros HG HA w1 w2.
  destruct (First_run ctx dest id w1) as (user & dberr & HF).
  exists user, dberr. split; [exact HF|].
  unfold GetUserByID. fold (cacheKey id). rewrite bind_run, HG.
  cbv beta iota. rewrite HA, bind_run. fold w1. rewrite HF.
  destruct dberr as [e|]; reflexivity.
Qed.

Lemma Get_fst (ctx : Context) (key : string) (w : World)
  (jsonData : string) (err : option error) :
  fst (RedisClient.Get ctx key w) = Ret (jsonData, err) ->
  RedisClient.Get ctx key w
  = (Ret (jsonData, err), called (RedisGetCmd ctx key) w).
Proof.
  destruct (Get_run ctx key w) as (j & e & ->). simpl. now intros [= -> ->].
Qed.

(** The fall-through of [GetUserByID].  When the cache lookup fails with an
    error other than [redis.Nil], or returns bytes that [json.Unmarshal]
    rejects, the call goes on to [DB.First] and returns what that query
    returns; the cache error and the decoding error are not returned.  The
    destination of the query is the struct the lookup left behind: the zero
    struct after a cache error, and whatever the decoder had stored before it
    failed after a decoding error. *)
Lemma cache_failure_goes_on_to_First :
  forall (ctx : Context) (id : N) (w : World)
         (jsonData : string) (err : option error),
    fst (RedisClient.Get ctx (cacheKey id) w) = Ret (jsonData, err) ->
    (exists e, err = Some e /\ e <> RedisNil)
    \/ (err = None /\ snd (json.Unmarshal jsonData model.zero) <> None) ->
    let w1 := snd (RedisClient.Get ctx (cacheKey id) w) in
    let dest := match err with
                | None => fst (json.Unmarshal jsonData model.zero)
                | Some _ => model.zero
                end in
    exists user dberr,
      fst (DB.First ctx dest id w1) = Ret (user, dberr)
      /\ fst (GetUserByID ctx id w)
         = Ret (match dberr with
                | Some e => (None, Some e)
                | None => (Some user, None)
                end).
Proof.
  intros ctx id w jsonData err HG Hfail w1 dest.
  apply Get_fst in HG.
  assert (HA : cache_attempt jsonData err model.zero = inr dest).
  { apply cache_attempt_falls_through.
    destruct Hfail as [(e & -> & _)|H]; [left; eauto|right; exact H]. }
  destruct (GetUserByID_fallback ctx id w jsonData err dest HG HA)
    as (user & dberr & HF & HR).
  exists user, dberr. subst w1. rewrite HG. simpl snd. rewrite HF, HR.
  split; [reflexivity|]. now destruct dberr.
Qed.

(** A cached value that is not JSON, over a store that holds the row: the
    read returns the row of the store. *)
Lemma not_json_entry_falls_back :
  fst (GetUserByID request_ctx 1
         (world_of [alice] {[ "user:1" := ("{", UserCacheTTL) ]} []))
  = Ret (Some alice, None).
Proof.
  destruct (cache_failure_goes_on_to_First request_ctx 1
              (world_of [alice] {[ "user:1" := ("{", UserCacheTTL) ]} [])
              "{" None)
    as (user & dberr & HF & HR).
  - vm_compute. reflexivity.
  - right. split; [reflexivity|]. vm_compute. discriminate.
  - rewrite HR. vm_compute in HF. injection HF as <- <-. reflexivity.
Defined.

(** C3. A corrupted cache entry that surfaces as a read failure.  Under the
    key of id 1 the cache holds [corrupted_entry], and the table holds the
    row of id 1.  The lookup succeeds and [json.Unmarshal] rejects the bytes,
    after it has stored the id 5 in the destination; the store, asked for id
    1 with a fresh struct, has the row.  [GetUserByID] passes the struct of
    the failed decode on to [First], and returns no user and
    [gorm.ErrRecordNotFound]; it launches nothing. *)
Theorem C3_corrupted_entry_surfaces_as_read_failure :
  let w := world_of [alice] {[ "user:1" := (corrupted_entry, UserCacheTTL) ]} [] in
  let w1 := snd (RedisClient.Get request_ctx (cacheKey 1) w) in
  fst (RedisClient.Get request_ctx (cacheKey 1) w) = Ret (corrupted_entry, None)
  /\ json.Unmarshal corrupted_entry model.zero
     = (model.set_ID 5 model.zero, Some (UnmarshalTypeError "name"))
  /\ fst (DB.First request_ctx model.zero 1 w1) = Ret (alice, None)
  /\ fst (DB.First request_ctx (model.set_ID 5 model.zero) 1 w1)
     = Ret (model.set_ID 5 model.zero, Some ErrRecordNotFound)
  /\ fst (GetUserByID request_ctx 1 w) = Ret (None, Some ErrRecordNotFound)
  /\ goroutines (snd (GetUserByID request_ctx 1 w)) = [].
Proof.
  intros w w1.
  assert (HU : json.Unmarshal corrupted_entry model.zero
               = (model.set_ID 5 model.zero, Some (UnmarshalTypeError "name")))
    by (vm_compute; reflexivity).
  assert (HG : RedisClient.Get request_ctx (cacheKey 1) w
               = (Ret (corrupted_entry, None),
                  called (RedisGetCmd request_ctx (cacheKey 1)) w))
    by (vm_compute; reflexivity).
  assert (HA : cache_attempt corrupted_entry None model.zero
               = inr (model.set_ID 5 model.zero))
    by (unfold cache_attempt; now rewrite HU).
  destruct (GetUserByID_fallback request_ctx 1 w corrupted_entry None
              (model.set_ID 5 model.zero) HG HA)
    as (user & dberr & HF & HR).
  assert (HF' : DB.First request_ctx (model.set_ID 5 model.zero) 1 w1
                = (Ret (model.set_ID 5 model.zero, Some ErrRecordNotFound),
                   called (SelectByID request_ctx 1 5) w1))
    by (vm_compute; reflexivity).
  subst w1. rewrite HG in *. cbn [snd] in *.
  rewrite HF' in HF. injection HF as <- <-.
  rewrite HR, HF'. cbn [fst snd].
  split; [reflexivity|]. split; [exact HU|].
  split; [vm_compute; reflexivity|]. split; [reflexivity|].
  split; reflexivity.
Qed.

(** C6. When the query of [GetUserByID] reports an error, among them
    [gorm.ErrRecordNotFound] for an absent row, the call returns no user and
    that error; it launches no goroutine, so no SET is issued, and the cache
    is as it was. *)
Theorem C6_store_miss_populates_nothing :
  forall (ctx : Context) (id : N) (w : World)
         (jsonData : string) (err : option error)
         (dest user : model.User) (e : error),
    fst (RedisClient.Get ctx (cacheKey id) w) = Ret (jsonData, err) ->
    cache_attempt jsonData err model.zero = inr dest ->
    fst (DB.First ctx dest id (snd (RedisClient.Get ctx (cacheKey id) w)))
      = Ret (user, Some e) ->
    let w' := snd (GetUserByID ctx id w) in
    fst (GetUserByID ctx id w) = Ret (None, Some e)
    /\ goroutines w' = goroutines w
    /\ cache w' = cache w
    /\ log w' = log w ++ [RedisGetCmd ctx (cacheKey id);
                          SelectByID ctx id (model.ID dest)].
Proof.
  intros ctx id w jsonData err dest user e HG HA HF w'.
  apply Get_fst in HG. rewrite HG in HF. simpl snd in HF.
  destruct (GetUserByID_fallback ctx id w jsonData err dest HG HA)
    as (user' & dberr & HF' & HR).
  rewrite HF' in HF. simpl in HF. injection HF as -> ->.
  subst w'. rewrite HR. simpl. repeat split.
  now rewrite <- app_assoc.
Qed.

(** An absent row behind an empty cache. *)
Lemma C6_witness :
  fst (GetUserByID request_ctx 5 (world_of [alice] ∅ []))
  = Ret (None, Some ErrRecordNotFound)
  /\ goroutines (snd (GetUserByID request_ctx 5 (world_of [alice] ∅ []))) = [].
Proof.
  destruct (C6_store_miss_populates_nothing request_ctx 5
              (world_of [alice] ∅ []) EmptyString (Some RedisNil)
              model.zero model.zero ErrRecordNotFound)
    as (H1 & H2 & _).
  - vm_compute. reflexivity.
  - reflexivity.
  - vm_compute. reflexivity.
  - split; [exact H1|exact H2].
Defined.

(** ** The population task of GetUserByID *)

Lemma run_task_log (t : Task) (w : World) :
  log (snd (run_task t w))
  = log w ++ [RedisSetCmd (task_ctx t) (task_key t)
                (fst (json.Marshal (task_user t))) UserCacheTTL].
Proof.
  unfold run_task. destruct (json.Marshal (task_user t)) as [jsonData merr].
  simpl fst. rewrite bind_run.
  destruct (Set_run (task_ctx t) (task_key t) jsonData UserCacheTTL w)
    as [[e ->] | ->]; reflexivity.
Qed.

(** C1, as the code has it.  After a lookup that fell through and a query
    that found the row, [GetUserByID] launches exactly one goroutine, and
    the closure holds the very [ctx] the call was given: the SET it issues
    runs under [ctx]. *)
Theorem C1_population_task_uses_request_context :
  forall (ctx : Context) (id : N) (w : World)
         (jsonData : string) (err : option error)
         (dest user : model.User),
    fst (RedisClient.Get ctx (cacheKey id) w) = Ret (jsonData, err) ->
    cache_attempt jsonData err model.zero = inr dest ->
    fst (DB.First ctx dest id (snd (RedisClient.Get ctx (cacheKey id) w)))
      = Ret (user, None) ->
    let w' := snd (GetUserByID ctx id w) in
    let t := mkTask ctx (cacheKey id) user in
    fst (GetUserByID ctx id w) = Ret (Some user, None)
    /\ goroutines w' = goroutines w ++ [t]
    /\ task_ctx t = ctx
    /\ forall w0, log (snd (run_task t w0))
                  = log w0 ++ [RedisSetCmd ctx (cacheKey id)
                                 (fst (json.Marshal user)) UserCacheTTL].
Proof.
  intros ctx id w jsonData err dest user HG HA HF w' t.
  apply Get_fst in HG. rewrite HG in HF. simpl snd in HF.
  destruct (GetUserByID_fallback ctx id w jsonData err dest HG HA)
    as (user' & dberr & HF' & HR).
  rewrite HF' in HF. simpl in HF. injection HF as -> ->.
  subst w'. rewrite HR. simpl. repeat split.
  intros w0. apply run_task_log.
Qed.

Lemma C1_witness :
  goroutines (snd (GetUserByID request_ctx 1 (world_of [alice] ∅ [])))
  = [mkTask request_ctx "user:1" alice].
Proof.
  destruct (C1_population_task_uses_request_context request_ctx 1
              (world_of [alice] ∅ []) EmptyString (Some RedisNil)
              model.zero alice)
    as (_ & H & _).
  - vm_compute. reflexivity.
  - reflexivity.
  - vm_compute. reflexivity.
  - exact H.
Defined.

(** C1, as the spec states it, fails: on a miss over a store that holds the
    row, the context of the launched task is the request context, which is
    not a context detached from it. *)
Lemma C1_counterexample :
  exists t,
    fst (GetUserByID request_ctx 1 (world_of [alice] ∅ []))
      = Ret (Some alice, None)
    /\ goroutines (snd (GetUserByID request_ctx 1 (world_of [alice] ∅ []))) = [t]
    /\ task_ctx t = request_ctx
    /\ ~ detached_from request_ctx (task_ctx t)
    /\ cache (snd (run_task t
                     (fire 7 (snd (GetUserByID request_ctx 1
                                     (world_of [alice] ∅ []))))))
          !! "user:1" = None.
Proof.
  exists (mkTask request_ctx "user:1" alice).
  split; [vm_compute; reflexivity|].
  split; [vm_compute; reflexivity|].
  split; [reflexivity|].
  split; [|vm_compute; reflexivity].
  intros [Hne _]. apply Hne. reflexivity.
Qed.

(** ** CreateUser and UpdateUser *)



Lemma assign_all_frame (now : time.Time) (src : model.User)
  (columns : list string) (row : model.User) :
  ~ In "created_at" columns -> ~ In "deleted_at" columns -> ~ In "id" columns ->
  model.CreatedAt (DB.assign_all now src columns row) = model.CreatedAt row
  /\ model.DeletedAt (DB.assign_all now src columns row) = model.DeletedAt row
  /\ model.ID (DB.assign_all now src columns row) = model.ID row.
Proof.
  unfold DB.assign_all. revert row.
  induction columns as [|c cs IH]; intros row Hc Hd Hi; [now simpl|].
  simpl fold_left.
  destruct (IH (DB.assign now src c row)) as (E1 & E2 & E3);
    [intros H; apply Hc; now right
    |intros H; apply Hd; now right
    |intros H; apply Hi; now right|].
  rewrite E1, E2, E3. unfold DB.assign.
  repeat match goal with
         | |- context [String.eqb c ?k] =>
             destruct (String.eqb_spec c k) as [->|_]
         end; simpl; try (repeat split; reflexivity).
  - exfalso. apply Hc. now left.
  - exfalso. apply Hd. now left.
  - exfalso. apply Hi. now left.
Qed.

(** An update returns.  When it reports an error the table is as it was;
    otherwise each live row with the given id takes the assignments and
    every other row stays. *)
Lemma Updates_run (ctx : Context) (columns : list string) (id : N)
  (user : model.User) (w : World) :
  let w1 := called (Update ctx columns id user) w in
  (exists e, DB.Updates ctx columns id user w = (Ret (Some e), w1))
  \/ DB.Updates ctx columns id user w
     = (Ret None,
        with_users
          (map (fun r => if DB.live r && (model.ID r =? id)
                         then DB.assign_all (clock w) user columns r else r)
               (users w)) w1).
Proof.
  unfold DB.Updates. rewrite bind_run.
  destruct (round_trip_run ctx (Update ctx columns id user) w) as [[e|] ->].
  - left. eauto.
  - rewrite bind_run. unfold get_world. cbv zeta.
    destruct (existsb _ _).
    + left. eauto.
    + right. reflexivity.
Qed.

Lemma UpdateUser_run (ctx : Context) (user : model.User) (w : World) :
  model.ID user <> 0 ->
  let key := cacheKey (model.ID user) in
  let w1 := snd (DB.Updates ctx update_columns (model.ID user) user w) in
  match fst (DB.Updates ctx update_columns (model.ID user) user w) with
  | Ret (Some e) => UpdateUser ctx user w = (Ret (Some e), w1)
  | Ret None =>
      UpdateUser ctx user w = (Ret None, snd (RedisClient.Del ctx key w1))
      /\ (snd (RedisClient.Del ctx key w1) = called (RedisDelCmd ctx key) w1
          \/ snd (RedisClient.Del ctx key w1)
             = with_cache (delete key (cache w1)) (called (RedisDelCmd ctx key) w1))
  | Panic _ => False
  end.
Proof.
  intros Hid key w1. unfold UpdateUser.
  destruct (N.eqb_spec (model.ID user) 0) as [|_]; [contradiction|].
  rewrite bind_run. subst w1.
  destruct (Updates_run ctx update_columns (model.ID user) user w)
    as [[e ->] | ->]; cbn [fst snd]; [reflexivity|].
  fold (cacheKey (model.ID user)). fold key. rewrite bind_run.
  match goal with
  | |- context [RedisClient.Del ctx key ?W] =>
      destruct (Del_run ctx key W) as [[e HD] | HD]; rewrite HD
  end; cbn [fst snd]; auto.
Qed.






(** C9. A successful [UpdateUser] leaves the table with the same rows in
    the same order, each with the [created_at], [deleted_at] and [id] it
    had; a row whose id is not the user's is unchanged altogether, and a row
    that changes takes exactly the assignments of the five selected
    columns. *)
Theorem C9_update_keeps_created_at :
  forall (ctx : Context) (user : model.User) (w : World),
    fst (UpdateUser ctx user w) = Ret None ->
    Forall2
      (fun before after =>
         model.CreatedAt after = model.CreatedAt before
         /\ model.DeletedAt after = model.DeletedAt before
         /\ model.ID after = model.ID before
         /\ (model.ID before <> model.ID user -> after = before)
         /\ (after = before
             \/ after =
                model.set_UpdatedAt (clock w)
                  (model.set_Status (model.Status user)
                     (model.set_Age (model.Age user)
                        (model.set_Email (model.Email user)
                           (model.set_Name (model.Name user) before))))))
      (users w) (users (snd (UpdateUser ctx user w))).
Proof.
  intros ctx user w HR.
  destruct (N.eq_dec (model.ID user) 0) as [H0|Hid].
  { unfold UpdateUser in HR. rewrite H0 in HR. discriminate. }
  pose proof (UpdateUser_run ctx user w Hid) as HU. cbv zeta in HU.
  destruct (Updates_run ctx update_columns (model.ID user) user w)
    as [[e HE] | HE]; rewrite HE in HU; cbn [fst snd] in HU.
  { rewrite HU in HR. discriminate. }
  destruct HU as [HU Hw]. rewrite HU. cbn [snd].
  assert (Husers :
    users (snd (RedisClient.Del ctx (cacheKey (model.ID user))
             (with_users
                (map (fun r => if DB.live r && (model.ID r =? model.ID user)
                               then DB.assign_all (clock w) user update_columns r
                               else r) (users w))
                (called (Update ctx update_columns (model.ID user) user) w))))
    = map (fun r => if DB.live r && (model.ID r =? model.ID user)
                    then DB.assign_all (clock w) user update_columns r
                    else r) (users w)).
  { destruct Hw as [-> | ->]; reflexivity. }
  rewrite Husers. clear.
  induction (users w) as [|r rows IH]; [constructor|].
  simpl map. constructor; [|exact IH].
  destruct (DB.live r && (model.ID r =? model.ID user)) eqn:Ht.
  - destruct (assign_all_frame (clock w) user update_columns r)
      as (E1 & E2 & E3);
      [simpl; intuition discriminate..|].
    repeat split; try assumption.
    + intros Hne. apply andb_true_iff in Ht as [_ Ht].
      apply N.eqb_eq in Ht. contradiction.
    + right. reflexivity.
  - repeat split. now left.
Qed.

Lemma Forall2_single {A B : Type} (P : A -> B -> Prop) (a : A) (l : list B) :
  Forall2 P [a] l -> exists b, l = [b] /\ P a b.
Proof.
  intros H. inversion H as [|x b xs l' HP Hl]; subst.
  inversion Hl; subst. eauto.
Qed.

(** Renaming a stored user: the call succeeds and the stored row keeps its
    creation time. *)
Lemma C9_witness :
  fst (UpdateUser request_ctx (model.set_Name "B" alice) (world_of [alice] ∅ []))
    = Ret None
  /\ exists after,
       users (snd (UpdateUser request_ctx (model.set_Name "B" alice)
                     (world_of [alice] ∅ []))) = [after]
       /\ model.CreatedAt after = noon.
Proof.
  assert (Hok : fst (UpdateUser request_ctx (model.set_Name "B" alice)
                       (world_of [alice] ∅ [])) = Ret None)
    by (vm_compute; reflexivity).
  split; [exact Hok|].
  destruct (Forall2_single _ _ _
              (C9_update_keeps_created_at request_ctx
                 (model.set_Name "B" alice) (world_of [alice] ∅ []) Hok))
    as (after & E & Hc & _).
  exists after. split; [exact E|exact Hc].
Defined.



(** ** TraceServiceFunc *)

Lemma TraceServiceFunc_run {T R : Type} (operationName : string)
  (fn : Context -> T -> M (R * option error))
  (attrFunc : option (Context -> T -> list KeyValue))
  (ctx : Context) (arg : T) (w : World) :
  let s := next_span w in
  let out := fn (ContextWithSpan ctx s) arg
                (entered operationName attrFunc ctx arg w) in
  TraceServiceFunc operationName fn attrFunc ctx arg w
  = (fst out, with_log (log (snd out) ++ exit_events s (fst out)) (snd out)).
Proof.
  intros s out.
  assert (Hentry :
    forall k : unit -> M (R * option error),
      ((match attrFunc with
        | Some attrFunc0 =>
            let attrs := attrFunc0 (ContextWithSpan ctx s) arg in
            if (0 <? length attrs)%nat then span.SetAttributes s attrs else ret tt
        | None => ret tt
        end) ≫= k)
        (with_next_span (S s)
           (with_log (log w ++ [SpanStart s operationName (SpanFromContext ctx)]) w))
      = k tt (entered operationName attrFunc ctx arg w)).
  { intros k. rewrite bind_run.
    unfold entered, entry_events, attribute_events. fold s.
    destruct attrFunc as [g|]; cbv zeta.
    - destruct (0 <? length (g (ContextWithSpan ctx s) arg))%nat.
      + unfold span.SetAttributes, emit. cbn. now rewrite <- app_assoc.
      + reflexivity.
    - reflexivity. }
  unfold TraceServiceFunc. rewrite bind_run.
  unfold Tracer.Start. cbv beta iota. fold s. unfold defer.
  rewrite Hentry, bind_run. fold out.
  destruct out as [[[result [e|]]|v] w3]; cbn [fst snd].
  - rewrite bind_run. unfold span.RecordError, span.SetStatus, span.End, emit.
    rewrite bind_run. cbn. now rewrite <- !app_assoc.
  - unfold span.End, emit. cbn. reflexivity.
  - unfold span.End, emit. cbn. reflexivity.
Qed.

(** C4. A call of the wrapped function returns the result and the error of
    [fn], called on the context that carries the new span and on the same
    argument; when [fn] panics, the same panic leaves the wrapper. *)
Theorem C4_wrapper_returns_what_fn_returns :
  forall (T R : Type) (operationName : string)
         (fn : Context -> T -> M (R * option error))
         (attrFunc : option (Context -> T -> list KeyValue))
         (ctx : Context) (arg : T) (w : World),
    fst (TraceServiceFunc operationName fn attrFunc ctx arg w)
    = fst (fn (ContextWithSpan ctx (next_span w)) arg
              (entered operationName attrFunc ctx arg w)).
Proof.
  intros. now rewrite TraceServiceFunc_run.
Qed.

(** C5. Around every call of [fn] the wrapper starts one span and ends that
    span, and it starts and ends no other: the span is started before [fn]
    is entered and ended after [fn] has returned a result, returned an
    error, or panicked. *)
Theorem C5_one_span_started_and_ended :
  forall (T R : Type) (operationName : string)
         (fn : Context -> T -> M (R * option error))
         (attrFunc : option (Context -> T -> list KeyValue))
         (ctx : Context) (arg : T) (w : World),
    let s := next_span w in
    let w_in := entered operationName attrFunc ctx arg w in
    let out := fn (ContextWithSpan ctx s) arg w_in in
    let w' := snd (TraceServiceFunc operationName fn attrFunc ctx arg w) in
    log w_in = log w ++ entry_events operationName attrFunc ctx arg s
    /\ log w' = log (snd out) ++ exit_events s (fst out)
    /\ spans_started (entry_events operationName attrFunc ctx arg s) = [s]
    /\ spans_ended (entry_events operationName attrFunc ctx arg s) = []
    /\ spans_started (exit_events s (fst out)) = []
    /\ spans_ended (exit_events s (fst out)) = [s]
    /\ last (log w') = Some (SpanEnd s).
Proof.
  intros T R operationName fn attrFunc ctx arg w s w_in out w'.
  subst w'. rewrite TraceServiceFunc_run. fold s w_in out. cbn [snd log with_log].
  assert (Hattr : forall c,
             spans_started (attribute_events attrFunc c arg s) = []
             /\ spans_ended (attribute_events attrFunc c arg s) = []).
  { intros c. unfold attribute_events. destruct attrFunc as [g|]; [|now split].
    destruct (0 <? length (g c arg))%nat; now split. }
  repeat split.
  - unfold entry_events. cbn. now rewrite (proj1 (Hattr _)).
  - unfold entry_events. cbn. now rewrite (proj2 (Hattr _)).
  - destruct (fst out) as [[r [e|]]|v]; reflexivity.
  - destruct (fst out) as [[r [e|]]|v]; reflexivity.
  - unfold exit_events. rewrite app_assoc. apply last_snoc.
Qed.

(** ** UTF-8: decoding a valid rune and encoding it back *)

Lemma in_range_spec (lo hi b : N) :
  utf8.in_range lo hi b = true <-> lo <= b /\ b <= hi.
Proof.
  unfold utf8.in_range. rewrite andb_true_iff, !N.leb_le. reflexivity.
Qed.

Lemma string_take_app (pre rest : string) :
  string_take (String.length pre) (pre +:+ rest) = pre.
Proof. induction pre as [|c pre IH]; simpl; [now destruct rest|]. now rewrite IH. Qed.

Lemma string_drop_app (pre rest : string) :
  string_drop (String.length pre) (pre +:+ rest) = rest.
Proof. induction pre as [|c pre IH]; simpl; [reflexivity|]. exact IH. Qed.

Lemma char_eq_byte (c : ascii) (b : N) : byte_of c = b -> char_of b = c.
Proof. intros <-. apply char_of_byte_of. Qed.

(** A multi-byte rune that decodes is the text its encoding gives back,
    whatever follows it. *)
Lemma DecodeRune_multibyte (c : ascii) (s : string) (r : N) (size : nat) :
  128 <= byte_of c ->
  utf8.DecodeRune (String c s) = (r, size) ->
  ~ (r = utf8.RuneError /\ size = 1%nat) ->
  exists pre rest,
    String c s = pre +:+ rest
    /\ String.length pre = size
    /\ utf8.EncodeRune r = pre
    /\ 128 <= r
    /\ (forall rest', utf8.DecodeRune (pre +:+ rest') = (r, size))
    /\ (1 < size)%nat.
Proof.
  intros Hc HD Hok. unfold utf8.DecodeRune in HD.
  destruct (N.ltb_spec (byte_of c) 128) as [?|_]; [lia|].
  destruct (N.ltb_spec (byte_of c) 194) as [?|H194].
  { injection HD as <- <-. exfalso. now apply Hok. }
  destruct (N.ltb_spec (byte_of c) 224) as [H224|H224].
  { (* two bytes *)
    destruct s as [|c1 s1]; [injection HD as <- <-; exfalso; now apply Hok|].
    destruct (utf8.in_range 128 191 (byte_of c1)) eqn:R1;
      [|injection HD as <- <-; exfalso; now apply Hok].
    injection HD as <- <-. apply in_range_spec in R1.
    exists (String c (String c1 EmptyString)), s1.
    split; [reflexivity|]. split; [reflexivity|].
    assert (E : utf8.EncodeRune ((byte_of c - 192) * 64 + (byte_of c1 - 128))
                = String c (String c1 EmptyString)).
    { unfold utf8.EncodeRune.
      destruct (N.leb_spec ((byte_of c - 192) * 64 + (byte_of c1 - 128)) 127);
        [lia|].
      destruct (N.leb_spec ((byte_of c - 192) * 64 + (byte_of c1 - 128)) 2047);
        [|lia].
      f_equal; [|f_equal]; apply char_eq_byte; divlia. }
    split; [exact E|]. split; [lia|].
    split; [|simpl; lia]. intros rest'. simpl. unfold utf8.DecodeRune.
    destruct (N.ltb_spec (byte_of c) 128); [lia|].
    destruct (N.ltb_spec (byte_of c) 194); [lia|].
    destruct (N.ltb_spec (byte_of c) 224); [|lia].
    now rewrite (proj2 (in_range_spec _ _ _) R1). }
  destruct (N.ltb_spec (byte_of c) 240) as [H240|H240].
  { (* three bytes *)
    destruct s as [|c1 [|c2 s2]];
      try (injection HD as <- <-; exfalso; now apply Hok).
    destruct (utf8.in_range _ _ (byte_of c1) && utf8.in_range 128 191 (byte_of c2))
      eqn:R; [|injection HD as <- <-; exfalso; now apply Hok].
    injection HD as <- <-.
    pose proof R as R'.
    apply andb_true_iff in R as [R1 R2].
    apply in_range_spec in R1, R2.
    exists (String c (String c1 (String c2 EmptyString))), s2.
    split; [reflexivity|]. split; [reflexivity|].
    set (r := (byte_of c - 224) * 4096 + (byte_of c1 - 128) * 64
              + (byte_of c2 - 128)).
    assert (Hb1 : 128 <= byte_of c1 <= 191)
      by (destruct (byte_of c =? 224); destruct (byte_of c =? 237); lia).
    assert (Hr : 2048 <= r <= 65535 /\ (r < 55296 \/ 57344 <= r)).
    { subst r. destruct (N.eqb_spec (byte_of c) 224);
        destruct (N.eqb_spec (byte_of c) 237); lia. }
    assert (E : utf8.EncodeRune r = String c (String c1 (String c2 EmptyString))).
    { unfold utf8.EncodeRune, utf8.encode3, utf8.is_surrogate, utf8.MaxRune.
      destruct (N.leb_spec r 127); [lia|].
      destruct (N.leb_spec r 2047); [lia|].
      destruct (N.ltb_spec 1114111 r); [lia|].
      destruct (N.leb_spec 55296 r); destruct (N.ltb_spec r 57344);
        cbn [andb orb]; try lia;
        (destruct (N.leb_spec r 65535); [|lia]);
        subst r;
        (f_equal; [|f_equal; [|f_equal]]); apply char_eq_byte; divlia. }
    split; [exact E|]. split; [lia|].
    split; [|simpl; lia]. intros rest'. simpl. unfold utf8.DecodeRune.
    destruct (N.ltb_spec (byte_of c) 128); [lia|].
    destruct (N.ltb_spec (byte_of c) 194); [lia|].
    destruct (N.ltb_spec (byte_of c) 224); [lia|].
    destruct (N.ltb_spec (byte_of c) 240); [|lia].
    rewrite R'. reflexivity. }
  destruct (N.ltb_spec (byte_of c) 245) as [H245|H245];
    [|injection HD as <- <-; exfalso; now apply Hok].
  (* four bytes *)
  destruct s as [|c1 [|c2 [|c3 s3]]];
    try (injection HD as <- <-; exfalso; now apply Hok).
  destruct (utf8.in_range _ _ (byte_of c1) && utf8.in_range 128 191 (byte_of c2)
            && utf8.in_range 128 191 (byte_of c3))
    eqn:R; [|injection HD as <- <-; exfalso; now apply Hok].
  injection HD as <- <-.
  pose proof R as R'.
  apply andb_true_iff in R as [R R3]. apply andb_true_iff in R as [R1 R2].
  apply in_range_spec in R1, R2, R3.
  exists (String c (String c1 (String c2 (String c3 EmptyString)))), s3.
  split; [reflexivity|]. split; [reflexivity|].
  set (r := (byte_of c - 240) * 262144 + (byte_of c1 - 128) * 4096
            + (byte_of c2 - 128) * 64 + (byte_of c3 - 128)).
  assert (Hb1 : 128 <= byte_of c1 <= 191)
    by (destruct (byte_of c =? 240); destruct (byte_of c =? 244); lia).
  assert (Hr : 65536 <= r <= 1114111).
  { subst r. destruct (N.eqb_spec (byte_of c) 240);
      destruct (N.eqb_spec (byte_of c) 244); lia. }
  assert (E : utf8.EncodeRune r
              = String c (String c1 (String c2 (String c3 EmptyString)))).
  { unfold utf8.EncodeRune, utf8.is_surrogate, utf8.MaxRune.
    destruct (N.leb_spec r 127); [lia|].
    destruct (N.leb_spec r 2047); [lia|].
    destruct (N.ltb_spec 1114111 r); [lia|].
    destruct (N.leb_spec 55296 r); destruct (N.ltb_spec r 57344);
      cbn [andb orb]; try lia;
      (destruct (N.leb_spec r 65535); [lia|]);
      subst r;
      (f_equal; [|f_equal; [|f_equal; [|f_equal]]]); apply char_eq_byte; divlia. }
  split; [exact E|]. split; [lia|].
  split; [|simpl; lia]. intros rest'. simpl. unfold utf8.DecodeRune.
  destruct (N.ltb_spec (byte_of c) 128); [lia|].
  destruct (N.ltb_spec (byte_of c) 194); [lia|].
  destruct (N.ltb_spec (byte_of c) 224); [lia|].
  destruct (N.ltb_spec (byte_of c) 240); [lia|].
  destruct (N.ltb_spec (byte_of c) 245); [|lia].
  rewrite R'. reflexivity.
Qed.

(** ** JSON strings: what the encoder writes, the scanner and [unquote]
       read back *)

Lemma prepend_nil r : prepend EmptyString r = r.
Proof. now destruct r as [[? ?]|]. Qed.

Lemma prepend_app a b r : prepend (a +:+ b) r = prepend a (prepend b r).
Proof. destruct r as [[? ?]|]; simpl; [|reflexivity]. now rewrite string_app_assoc. Qed.

Lemma passes_nil : passes EmptyString.
Proof. intros rest. now rewrite prepend_nil. Qed.

Lemma passes_app a b : passes a -> passes b -> passes (a +:+ b).
Proof.
  intros Ha Hb rest. now rewrite string_app_assoc, Ha, Hb, prepend_app.
Qed.

Lemma passes_plain_char c : plain_char c = true -> passes (String c EmptyString).
Proof.
  intros H rest. unfold plain_char in H.
  apply andb_true_iff in H as [H H92]. apply andb_true_iff in H as [H32 H34].
  apply negb_true_iff in H92, H34. apply N.leb_le in H32.
  simpl. rewrite H34, H92.
  destruct (N.ltb_spec (byte_of c) 32); [lia|]. reflexivity.
Qed.

Lemma passes_plain s : plain s = true -> passes s.
Proof.
  induction s as [|c s IH]; intros H; [apply passes_nil|].
  simpl in H. apply andb_true_iff in H as [Hc Hs].
  change (String c s) with (String c EmptyString +:+ s).
  apply passes_app; [now apply passes_plain_char|now apply IH].
Qed.

Lemma plain_app a b : plain (a +:+ b) = plain a && plain b.
Proof. induction a as [|c a IH]; simpl; [reflexivity|]. now rewrite IH, andb_assoc. Qed.

Lemma isDigit_spec c : isDigit c = true <-> 48 <= byte_of c /\ byte_of c <= 57.
Proof. unfold isDigit. now rewrite andb_true_iff, !N.leb_le. Qed.

Lemma isDigit_plain c : isDigit c = true -> plain_char c = true.
Proof.
  intros H. apply isDigit_spec in H. unfold plain_char.
  destruct (N.leb_spec 32 (byte_of c)); [|lia].
  destruct (N.eqb_spec (byte_of c) 34); [lia|].
  destruct (N.eqb_spec (byte_of c) 92); [lia|]. reflexivity.
Qed.

Lemma all_digits_plain s : strconv.all_digits s = true -> plain s = true.
Proof.
  induction s as [|c s IH]; [reflexivity|]. simpl. intros H.
  apply andb_true_iff in H as [Hc Hs]. now rewrite isDigit_plain, IH.
Qed.

Lemma hex_char_ok d :
  d < 16 -> json.hex_val (json.hex_char d) = Some d.
Proof.
  intros H.
  assert (C : d = 0 \/ d = 1 \/ d = 2 \/ d = 3 \/ d = 4 \/ d = 5 \/ d = 6
              \/ d = 7 \/ d = 8 \/ d = 9 \/ d = 10 \/ d = 11 \/ d = 12
              \/ d = 13 \/ d = 14 \/ d = 15) by lia.
  repeat (destruct C as [->|C]; [reflexivity|]). subst d. reflexivity.
Qed.

Lemma is_hex_char d : d < 16 -> json.is_hex (json.hex_char d) = true.
Proof. intros H. unfold json.is_hex. now rewrite hex_char_ok. Qed.

(** The escape of an ASCII byte outside [htmlSafeSet] scans, and unquotes
    to that byte. *)
Lemma escape_ascii_passes b : b < 128 -> passes (json.escape_ascii b).
Proof.
  intros Hb rest. unfold json.escape_ascii.
  destruct (N.eqb_spec b 92) as [->|N92]; [simpl; now destruct (json.scan_string rest) as [[? ?]|]|].
  destruct (N.eqb_spec b 34) as [->|N34]; [simpl; now destruct (json.scan_string rest) as [[? ?]|]|]. cbn [orb].
  destruct (N.eqb_spec b 8) as [->|N8]; [simpl; now destruct (json.scan_string rest) as [[? ?]|]|].
  destruct (N.eqb_spec b 12) as [->|N12]; [simpl; now destruct (json.scan_string rest) as [[? ?]|]|].
  destruct (N.eqb_spec b 10) as [->|N10]; [simpl; now destruct (json.scan_string rest) as [[? ?]|]|].
  destruct (N.eqb_spec b 13) as [->|N13]; [simpl; now destruct (json.scan_string rest) as [[? ?]|]|].
  destruct (N.eqb_spec b 9) as [->|N9]; [simpl; now destruct (json.scan_string rest) as [[? ?]|]|].
  cbn [String.append json.scan_string].
  change (byte_of "\"%char =? 34) with false.
  change (byte_of "\"%char =? 92) with true.
  cbv iota. change (json.is_simple_escape "u"%char) with false.
  change (byte_of "u"%char =? 117) with true. cbv iota.
  change (json.is_hex "0"%char) with true. cbn [andb].
  rewrite !is_hex_char; [|apply N.mod_lt; lia|divlia].
  cbn [andb]. now destruct (json.scan_string rest) as [[? ?]|].
Qed.

Lemma escape_ascii_decodes b :
  b < 128 -> json.htmlSafe b = false ->
  decodes (json.escape_ascii b) (String (char_of b) EmptyString).
Proof.
  intros Hb Hunsafe fuel rest. unfold json.escape_ascii.
  destruct (N.eqb_spec b 92) as [->|N92]; [simpl; now destruct (json.unquote_loop fuel rest)|].
  destruct (N.eqb_spec b 34) as [->|N34]; [simpl; now destruct (json.unquote_loop fuel rest)|]. cbn [orb].
  destruct (N.eqb_spec b 8) as [->|N8]; [simpl; now destruct (json.unquote_loop fuel rest)|].
  destruct (N.eqb_spec b 12) as [->|N12]; [simpl; now destruct (json.unquote_loop fuel rest)|].
  destruct (N.eqb_spec b 10) as [->|N10]; [simpl; now destruct (json.unquote_loop fuel rest)|].
  destruct (N.eqb_spec b 13) as [->|N13]; [simpl; now destruct (json.unquote_loop fuel rest)|].
  destruct (N.eqb_spec b 9) as [->|N9]; [simpl; now destruct (json.unquote_loop fuel rest)|].
  cbn [String.append json.unquote_loop].
  change (byte_of "\"%char =? 92) with true. cbv iota.
  change (byte_of "u"%char =? 117) with true. cbv iota.
  unfold json.getu4.
  change (byte_of "\"%char =? 92) with true.
  change (byte_of "u"%char =? 117) with true. cbn [andb].
  change (json.hex_val "0"%char) with (Some 0).
  rewrite !hex_char_ok; [|apply N.mod_lt; lia|divlia].
  cbv iota beta.
  replace (0 * 4096 + 0 * 256 + b / 16 * 16 + b mod 16) with b by divlia.
  unfold utf8.is_surrogate.
  destruct (N.leb_spec 55296 b); [lia|]. cbn [andb].
  unfold utf8.EncodeRune. destruct (N.leb_spec b 127); [|lia].
  reflexivity.
Qed.

Lemma plain_ascii_decodes c :
  byte_of c < 128 -> json.htmlSafe (byte_of c) = true ->
  decodes (String c EmptyString) (String c EmptyString)
  /\ plain_char c = true.
Proof.
  intros Hb Hsafe. unfold json.htmlSafe in Hsafe.
  apply andb_true_iff in Hsafe as [Hr Hn]. apply andb_true_iff in Hr as [H32 _].
  apply N.leb_le in H32. apply negb_true_iff in Hn.
  apply orb_false_iff in Hn as [Hn _]. apply orb_false_iff in Hn as [Hn _].
  apply orb_false_iff in Hn as [Hn _]. apply orb_false_iff in Hn as [H34 H92].
  split.
  - intros fuel rest. cbn [String.append json.unquote_loop].
    rewrite H92, H34. cbn [orb].
    destruct (N.ltb_spec (byte_of c) 32); [lia|].
    unfold utf8.RuneSelf. destruct (N.ltb_spec (byte_of c) 128); [|lia].
    reflexivity.
  - unfold plain_char. rewrite H34, H92.
    destruct (N.leb_spec 32 (byte_of c)); [reflexivity|lia].
Qed.

Lemma high_char b : 128 <= b -> b < 256 -> (128 <=? byte_of (char_of b)) = true.
Proof. intros H1 H2. rewrite byte_of_char_of by assumption. now apply N.leb_le. Qed.

Lemma EncodeRune_high r : 128 <= r -> high (utf8.EncodeRune r) = true.
Proof.
  intros Hr. unfold utf8.EncodeRune, utf8.encode3, utf8.is_surrogate, utf8.MaxRune.
  destruct (N.leb_spec r 127); [lia|].
  destruct (N.leb_spec r 2047).
  { cbn [high]. rewrite !high_char; [reflexivity|divlia..]. }
  destruct (N.ltb_spec 1114111 r); [reflexivity|].
  destruct (N.leb_spec 55296 r); destruct (N.ltb_spec r 57344);
    cbn [andb orb]; try reflexivity;
    (destruct (N.leb_spec r 65535);
     cbn [high]; rewrite !high_char; [reflexivity|divlia..]).
Qed.

Lemma high_plain s : high s = true -> plain s = true.
Proof.
  induction s as [|c s IH]; [reflexivity|]. simpl. intros H.
  apply andb_true_iff in H as [Hc Hs]. apply N.leb_le in Hc.
  rewrite IH by assumption. unfold plain_char.
  destruct (N.leb_spec 32 (byte_of c)); [|lia].
  destruct (N.eqb_spec (byte_of c) 34); [lia|].
  destruct (N.eqb_spec (byte_of c) 92); [lia|]. reflexivity.
Qed.

Lemma unquote_loop_nil fuel : json.unquote_loop fuel EmptyString = Some EmptyString.
Proof. now destruct fuel. Qed.

(** A multi-byte rune, copied as it is by the encoder, unquotes to
    itself. *)
Lemma multibyte_decodes (pre : string) (r : N) :
  128 <= r ->
  utf8.EncodeRune r = pre ->
  (forall rest', utf8.DecodeRune (pre +:+ rest') = (r, String.length pre)) ->
  decodes pre pre.
Proof.
  intros Hr E HD fuel rest.
  pose proof (EncodeRune_high r Hr) as Hh. rewrite E in Hh.
  destruct pre as [|c pre'].
  { specialize (HD EmptyString). simpl in HD. injection HD as <-.
    unfold utf8.RuneError in E. discriminate E. }
  simpl in Hh. apply andb_true_iff in Hh as [Hc _]. apply N.leb_le in Hc.
  cbn [String.append json.unquote_loop].
  destruct (N.eqb_spec (byte_of c) 92); [lia|].
  destruct (N.eqb_spec (byte_of c) 34); [lia|].
  destruct (N.ltb_spec (byte_of c) 32); [lia|]. cbn [orb].
  unfold utf8.RuneSelf. destruct (N.ltb_spec (byte_of c) 128); [lia|].
  change (String c (pre' +:+ rest)) with (String c pre' +:+ rest).
  rewrite HD, E, string_drop_app. reflexivity.
Qed.

(** The line and paragraph separators U+2028 and U+2029, which the encoder
    writes as six-byte escapes. *)
Lemma separator_decodes (pre : string) (r : N) :
  r = 8232 \/ r = 8233 ->
  utf8.EncodeRune r = pre ->
  let esc := String "\" (String "u" (String "2" (String "0" (String "2"
               (String (json.hex_char (r mod 16)) EmptyString))))) in
  decodes esc pre /\ passes esc.
Proof.
  intros Hr E esc. split.
  - intros fuel rest. subst esc pre.
    destruct Hr as [-> | ->]; simpl;
      now destruct (json.unquote_loop fuel rest).
  - intros rest. subst esc.
    destruct Hr as [-> | ->]; simpl;
      now destruct (json.scan_string rest) as [[? ?]|].
Qed.

(** The escaped body of a valid UTF-8 string scans as one string literal
    body and unquotes to the string. *)
Lemma escape_loop_round_trip (fe : nat) : forall s : string,
  utf8.valid_loop fe s = true ->
  passes (json.escape_loop fe s)
  /\ forall fu, (String.length (json.escape_loop fe s) <= fu)%nat ->
       json.unquote_loop fu (json.escape_loop fe s) = Some s.
Proof.
  induction fe as [|fe IH]; intros s Hv.
  { simpl. split; [apply passes_nil|]. intros fu _.
    destruct s; [apply unquote_loop_nil|discriminate]. }
  destruct s as [|c s'].
  { simpl. split; [apply passes_nil|]. intros fu _. apply unquote_loop_nil. }
  cbn [utf8.valid_loop] in Hv. cbn [json.escape_loop].
  unfold utf8.RuneSelf in *.
  destruct (N.ltb_spec (byte_of c) 128) as [Hlt|Hge].
  - (* one ASCII byte *)
    destruct (IH s' Hv) as [Hp Hu].
    destruct (json.htmlSafe (byte_of c)) eqn:Hsafe.
    + destruct (plain_ascii_decodes c Hlt Hsafe) as [Hd Hpl]. split.
      * change (String c (json.escape_loop fe s'))
          with (String c EmptyString +:+ json.escape_loop fe s').
        apply passes_app; [now apply passes_plain_char|exact Hp].
      * intros [|fu] Hlen; [simpl in Hlen; lia|].
        change (String c (json.escape_loop fe s'))
          with (String c EmptyString +:+ json.escape_loop fe s').
        rewrite Hd, Hu by (simpl in Hlen; lia). reflexivity.
    + split.
      * apply passes_app; [now apply escape_ascii_passes|exact Hp].
      * intros [|fu] Hlen.
        { rewrite string_length_app in Hlen.
          assert (0 < String.length (json.escape_ascii (byte_of c)))%nat; [|lia].
          unfold json.escape_ascii.
          repeat match goal with |- context [if ?b then _ else _] => destruct b end;
            simpl; lia. }
        rewrite (escape_ascii_decodes (byte_of c) Hlt Hsafe).
        rewrite Hu.
        -- simpl. now rewrite char_of_byte_of.
        -- rewrite string_length_app in Hlen.
           assert (0 < String.length (json.escape_ascii (byte_of c)))%nat; [|lia].
           unfold json.escape_ascii.
           repeat match goal with |- context [if ?b then _ else _] => destruct b end;
             simpl; lia.
  - (* a multi-byte rune *)
    destruct (utf8.DecodeRune (String c s')) as [r size] eqn:HD.
    destruct ((r =? utf8.RuneError) && Nat.eqb size 1) eqn:Herr; [discriminate|].
    assert (Hok : ~ (r = utf8.RuneError /\ size = 1%nat)).
    { intros [-> ->]. discriminate. }
    destruct (DecodeRune_multibyte c s' r size Hge HD Hok)
      as (pre & rest & Es & Hlen & E & Hr & HDpre & Hpos).
    rewrite Es in *. subst size.
    rewrite string_drop_app in *. rewrite string_take_app.
    destruct (IH rest Hv) as [Hp Hu].
    destruct ((r =? 8232) || (r =? 8233)) eqn:Hsep.
    + assert (Hr' : r = 8232 \/ r = 8233).
      { apply orb_true_iff in Hsep as [H|H]; apply N.eqb_eq in H; auto. }
      destruct (separator_decodes pre r Hr' E) as [Hd Hpe]. split.
      * apply passes_app; [exact Hpe|exact Hp].
      * intros [|fu] Hl; [simpl in Hl; lia|].
        rewrite Hd, Hu; [reflexivity|].
        rewrite string_length_app in Hl. simpl in Hl. lia.
    + split.
      * apply passes_app; [|exact Hp]. apply passes_plain, high_plain.
        rewrite <- E. now apply EncodeRune_high.
      * intros [|fu] Hl; [rewrite string_length_app in Hl; lia|].
        rewrite (multibyte_decodes pre r Hr E HDpre), Hu; [reflexivity|].
        rewrite string_length_app in Hl. lia.
Qed.

Lemma appendString_round_trip (s : string) :
  utf8.ValidString s = true ->
  exists body,
    json.appendString s = String json.quote (body +:+ String json.quote EmptyString)
    /\ passes body
    /\ json.unquote body = Some s.
Proof.
  intros Hv. destruct (escape_loop_round_trip (String.length s) s Hv) as [Hp Hu].
  exists (json.escape_loop (String.length s) s). split; [reflexivity|].
  split; [exact Hp|]. apply Hu. lia.
Qed.

(** ** JSON numbers: the numerals the encoder writes *)

Lemma digits_value_acc (s : string) : forall acc,
  strconv.digits_value acc s
  = acc * 10 ^ N.of_nat (String.length s) + strconv.digits_value 0 s.
Proof.
  induction s as [|c s IH]; intros acc.
  - simpl. lia.
  - cbn [strconv.digits_value String.length].
    rewrite IH, (IH (10 * 0 + digit_val c)).
    rewrite Nat2N.inj_succ, N.pow_succ_r'. lia.
Qed.

Lemma span_digits_app (ds rest : string) (c : ascii) :
  strconv.all_digits ds = true -> isDigit c = false ->
  time.span_digits (ds +:+ String c rest) = (ds, String c rest).
Proof.
  intros Hd Hc. induction ds as [|d ds IH].
  - simpl. now rewrite Hc.
  - simpl in Hd. apply andb_true_iff in Hd as [Hd1 Hd2].
    cbn [String.append time.span_digits]. rewrite Hd1, (IH Hd2). reflexivity.
Qed.

Lemma numeral_scans (u : N) (ds : string) (c : ascii) (rest : string) :
  numeral u ds -> closes c ->
  json.scan_number (ds +:+ String c rest) = Some (ds, String c rest).
Proof.
  intros [Hd Hv Hh Hn] Hc.
  assert (Hcd : isDigit c = false) by (destruct Hc as [-> | ->]; reflexivity).
  destruct ds as [|d ds]; [congruence|].
  pose proof Hd as Hd'. simpl in Hd'. apply andb_true_iff in Hd' as [Hd1 Hd2].
  unfold json.scan_number. cbn [String.append].
  assert (Hminus : Ascii.eqb d "-" = false).
  { apply isDigit_spec in Hd1. apply Ascii.eqb_neq. intros ->.
    change (byte_of "-"%char) with 45 in Hd1. lia. }
  rewrite Hminus.
  change (String d (ds +:+ String c rest)) with (String d ds +:+ String c rest).
  rewrite (span_digits_app (String d ds) rest c Hd Hcd).
  assert (Hint : match String d ds with
                 | EmptyString => false
                 | String d0 EmptyString => true
                 | String d0 _ => negb (Ascii.eqb d0 "0")
                 end = true).
  { destruct ds as [|d' ds']; [reflexivity|].
    destruct (Hh d (String d' ds') eq_refl) as [H0 Hnz].
    apply negb_true_iff, Ascii.eqb_neq. apply Hnz. intros ->.
    specialize (H0 eq_refl). discriminate. }
  rewrite Hint. cbn [negb].
  destruct Hc as [-> | ->]; cbn; now rewrite string_app_nil_r.
Qed.

Lemma numeral_first_digit (u : N) (ds : string) :
  numeral u ds -> exists d ds', ds = String d ds' /\ isDigit d = true.
Proof.
  intros [Hd _ _ Hn]. destruct ds as [|d ds']; [congruence|].
  simpl in Hd. apply andb_true_iff in Hd as [Hd1 _]. eauto.
Qed.

Lemma isDigit_not_space d : isDigit d = true -> json.isSpace d = false.
Proof.
  intros H. apply isDigit_spec in H. unfold json.isSpace.
  destruct (N.eqb_spec (byte_of d) 32); [lia|].
  destruct (N.eqb_spec (byte_of d) 9); [lia|].
  destruct (N.eqb_spec (byte_of d) 13); [lia|].
  destruct (N.eqb_spec (byte_of d) 10); [lia|]. reflexivity.
Qed.

Lemma FormatUint_scans (u : N) :
  scans_as (strconv.FormatUint u) (json.Number (strconv.FormatUint u)).
Proof.
  intros fuel c rest Hc.
  pose proof (FormatUint_numeral u) as Hn.
  destruct (numeral_first_digit _ _ Hn) as (d & ds' & E & Hd).
  pose proof (numeral_scans u _ c rest Hn Hc) as Hs.
  rewrite E in *. cbn [String.append json.scan_value json.skip_space].
  rewrite (isDigit_not_space d Hd). apply isDigit_spec in Hd as Hr.
  destruct (N.eqb_spec (byte_of d) 123); [lia|].
  destruct (N.eqb_spec (byte_of d) 91); [lia|].
  destruct (N.eqb_spec (byte_of d) 34); [lia|].
  rewrite Hd, orb_true_r.
  cbn [String.append] in Hs. rewrite Hs. reflexivity.
Qed.

Lemma FormatInt_scans (i : Z) :
  scans_as (strconv.FormatInt i) (json.Number (strconv.FormatInt i)).
Proof.
  unfold strconv.FormatInt. destruct (i <? 0)%Z; [|apply FormatUint_scans].
  intros fuel c rest Hc.
  pose proof (FormatUint_numeral (Z.to_N (- i))) as Hn.
  pose proof (numeral_scans _ _ c rest Hn Hc) as Hs.
  cbn [String.append json.scan_value json.skip_space].
  change (json.isSpace "-"%char) with false. cbv iota.
  change (byte_of "-"%char =? 123) with false.
  change (byte_of "-"%char =? 91) with false.
  change (byte_of "-"%char =? 34) with false.
  change (byte_of "-"%char =? 45) with true. cbn [orb]. cbv iota.
  unfold json.scan_number in *. change (Ascii.eqb "-" "-") with true. cbv iota.
  destruct (numeral_first_digit _ _ Hn) as (d & ds' & E & Hd).
  rewrite E in *. cbn [String.append] in Hs.
  assert (Hminus : Ascii.eqb d "-" = false).
  { apply isDigit_spec in Hd. apply Ascii.eqb_neq. intros ->.
    change (byte_of "-"%char) with 45 in Hd. lia. }
  rewrite Hminus in Hs. cbn [String.append].
  destruct (time.span_digits (String d (ds' +:+ String c rest))) as [int s2].
  destruct (negb _); [discriminate|].
  destruct (match s2 with EmptyString => _ | String dot s3 => _ end)
    as [[fr s5]|]; [|discriminate].
  destruct (match s5 with EmptyString => _ | String e s6 => _ end)
    as [[ex s9]|]; [|discriminate].
  cbn [String.append] in *. injection Hs as <- <-. reflexivity.
Qed.

Lemma all_digits_nonempty_value (u : N) (ds : string) :
  numeral u ds -> strconv.digits_value 0 ds = u.
Proof. intros Hn. rewrite (numeral_value _ _ Hn). lia. Qed.

Lemma ParseUint_FormatUint (u : N) :
  u <= strconv.maxUint64 ->
  strconv.ParseUint (strconv.FormatUint u) = Some u.
Proof.
  intros Hu. pose proof (FormatUint_numeral u) as Hn.
  unfold strconv.ParseUint.
  destruct (strconv.FormatUint u) eqn:E; [now destruct Hn|].
  rewrite (numeral_digits _ _ Hn), (all_digits_nonempty_value _ _ Hn).
  destruct (N.leb_spec u strconv.maxUint64); [reflexivity|lia].
Qed.

Lemma ParseInt_FormatInt (i : Z) :
  (strconv.minInt64 <= i <= strconv.maxInt64)%Z ->
  strconv.ParseInt (strconv.FormatInt i) = Some i.
Proof.
  intros Hi. unfold strconv.FormatInt, strconv.ParseInt.
  destruct (Z.ltb_spec i 0) as [Hneg|Hpos].
  - change (Ascii.eqb "-" "-") with true. cbn [orb].
    pose proof (FormatUint_numeral (Z.to_N (- i))) as Hn.
    destruct (strconv.FormatUint (Z.to_N (- i))) eqn:E; [now destruct Hn|].
    rewrite (numeral_digits _ _ Hn), (all_digits_nonempty_value _ _ Hn).
    rewrite Z2N.id by lia. rewrite Z.opp_involutive.
    destruct (Z.leb_spec strconv.minInt64 i); [|lia].
    destruct (Z.leb_spec i strconv.maxInt64); [reflexivity|lia].
  - pose proof (FormatUint_numeral (Z.to_N i)) as Hn.
    destruct (numeral_first_digit _ _ Hn) as (d & ds' & E & Hd).
    rewrite E in *.
    assert (Hminus : Ascii.eqb d "-" = false).
    { apply isDigit_spec in Hd. apply Ascii.eqb_neq. intros ->.
      change (byte_of "-"%char) with 45 in Hd. lia. }
    assert (Hplus : Ascii.eqb d "+" = false).
    { apply isDigit_spec in Hd. apply Ascii.eqb_neq. intros ->.
      change (byte_of "+"%char) with 43 in Hd. lia. }
    rewrite Hminus, Hplus. cbn [orb].
    rewrite (numeral_digits _ _ Hn), (all_digits_nonempty_value _ _ Hn).
    rewrite Z2N.id by lia.
    destruct (Z.leb_spec strconv.minInt64 i); [|lia].
    destruct (Z.leb_spec i strconv.maxInt64); [reflexivity|lia].
Qed.

(** ** RFC 3339: the text of a time parses back to the time *)

Lemma zeros_digits k : strconv.all_digits (time.zeros k) = true.
Proof. induction k; [reflexivity|]. simpl. exact IHk. Qed.

Lemma zeros_length k : String.length (time.zeros k) = k.
Proof. induction k; [reflexivity|]. simpl. now rewrite IHk. Qed.

Lemma zeros_value k acc :
  strconv.digits_value acc (time.zeros k) = acc * 10 ^ N.of_nat k.
Proof.
  rewrite digits_value_acc, zeros_length.
  assert (strconv.digits_value 0 (time.zeros k) = 0); [|lia].
  induction k; [reflexivity|]. simpl. exact IHk.
Qed.

Lemma digit_val_pos c : isDigit c = true -> c <> "0"%char -> 1 <= digit_val c.
Proof.
  intros Hd Hz. apply isDigit_spec in Hd. unfold digit_val.
  assert (byte_of c <> 48); [|lia].
  intros H. apply Hz. apply byte_of_inj. exact H.
Qed.

Lemma numeral_length_le (x : N) (ds : string) (w : nat) :
  numeral x ds -> x < 10 ^ N.of_nat w -> (1 <= w)%nat ->
  (String.length ds <= w)%nat.
Proof.
  intros [Hd Hv Hh Hn] Hx Hw. destruct ds as [|c rest]; [congruence|].
  destruct (Hh c rest eq_refl) as [H0 Hnz].
  destruct (N.eq_dec x 0) as [->|Hx0].
  { rewrite (H0 eq_refl). simpl. lia. }
  simpl in Hd. apply andb_true_iff in Hd as [Hc Hrest].
  pose proof (digit_val_pos c Hc (Hnz Hx0)) as Hpos.
  pose proof (Hv 0) as Hval. cbn [strconv.digits_value] in Hval.
  rewrite digits_value_acc in Hval. simpl String.length in *.
  assert (Hle : 10 ^ N.of_nat (String.length rest) <= x).
  { rewrite ?N.mul_0_r, ?N.mul_0_l, ?N.add_0_l in Hval.
    set (P := 10 ^ N.of_nat (String.length rest)) in *.
    assert (P <= digit_val c * P) by nia. lia. }
  assert (Hlt : 10 ^ N.of_nat (String.length rest) < 10 ^ N.of_nat w) by lia.
  apply N.pow_lt_mono_r_iff in Hlt; lia.
Qed.

(** [appendInt x w] is [x] in exactly [w] digits, when [x] has that few. *)
Lemma appendInt_fixed (x : N) (w : nat) :
  x < 10 ^ N.of_nat w -> (1 <= w)%nat ->
  String.length (time.appendInt x w) = w
  /\ strconv.all_digits (time.appendInt x w) = true
  /\ strconv.digits_value 0 (time.appendInt x w) = x.
Proof.
  intros Hx Hw. pose proof (FormatUint_numeral x) as Hn.
  pose proof (numeral_length_le x _ w Hn Hx Hw) as Hlen.
  unfold time.appendInt. cbv zeta. repeat split.
  - rewrite string_length_app, zeros_length. lia.
  - rewrite all_digits_app, zeros_digits. apply (numeral_digits _ _ Hn).
  - rewrite digits_value_app, zeros_value, N.mul_0_l.
    apply all_digits_nonempty_value. exact Hn.
Qed.

Lemma two_digits (x : N) :
  x < 100 ->
  exists a b,
    time.appendInt x 2 = String a (String b EmptyString)
    /\ isDigit a = true /\ isDigit b = true
    /\ forall lo hi, lo <= x -> x <= hi -> time.parseUint2 a b lo hi = Some x.
Proof.
  intros Hx. destruct (appendInt_fixed x 2) as (Hl & Hd & Hv); [exact Hx|lia|].
  destruct (time.appendInt x 2) as [|a [|b [|? ?]]]; try discriminate.
  exists a, b. simpl in Hd.
  apply andb_true_iff in Hd as [Ha Hb]. rewrite andb_true_r in Hb.
  repeat split; try assumption.
  intros lo hi Hlo Hhi. unfold time.parseUint2. rewrite Ha, Hb. cbn [andb].
  cbn [strconv.digits_value] in Hv.
  replace (10 * digit_val a + digit_val b) with x by lia.
  destruct (N.leb_spec lo x); [|lia]. destruct (N.leb_spec x hi); [|lia].
  reflexivity.
Qed.

Lemma four_digits (y : N) :
  y <= 9999 ->
  exists a b c d,
    time.appendInt y 4 = String a (String b (String c (String d EmptyString)))
    /\ isDigit a = true /\ isDigit b = true /\ isDigit c = true /\ isDigit d = true
    /\ strconv.digits_value 0
         (String a (String b (String c (String d EmptyString)))) = y.
Proof.
  intros Hy.
  destruct (appendInt_fixed y 4) as (Hl & Hd & Hv);
    [change (10 ^ N.of_nat 4) with 10000; lia|lia|].
  destruct (time.appendInt y 4) as [|a [|b [|c [|d [|? ?]]]]]; try discriminate.
  exists a, b, c, d. simpl in Hd.
  apply andb_true_iff in Hd as [Ha Hd]. apply andb_true_iff in Hd as [Hb Hd].
  apply andb_true_iff in Hd as [Hc Hd]. rewrite andb_true_r in Hd.
  repeat split; assumption.
Qed.

Lemma trim_zeros_spec (ds : string) :
  strconv.all_digits ds = true ->
  strconv.all_digits (time.trim_zeros ds) = true
  /\ exists k, ds = time.trim_zeros ds +:+ time.zeros k.
Proof.
  induction ds as [|c ds IH]; intros Hd.
  - split; [reflexivity|]. now exists 0%nat.
  - simpl in Hd. apply andb_true_iff in Hd as [Hc Hds].
    destruct (IH Hds) as (Ht & k & E). cbn [time.trim_zeros].
    destruct (time.trim_zeros ds) as [|t ts] eqn:Et.
    + destruct (Ascii.eqb_spec c "0") as [->|Hnz].
      * split; [reflexivity|]. exists (S k). simpl. f_equal. exact E.
      * split; [simpl; now rewrite Hc|]. exists k. simpl. f_equal. exact E.
    + split; [simpl; rewrite Hc; exact Ht|]. exists k. simpl. f_equal. exact E.
Qed.

Lemma string_take_all (n : nat) (s : string) :
  (String.length s <= n)%nat -> string_take n s = s.
Proof.
  revert n. induction s as [|c s IH]; intros [|n] H; simpl in *;
    try reflexivity; try lia.
  rewrite IH by lia. reflexivity.
Qed.

Lemma formatZone_parses (off : Z) :
  (off mod 60 = 0)%Z -> (Z.abs off < 86400)%Z ->
  time.parseZone (time.formatZone off) = Some off
  /\ exists c zs, time.formatZone off = String c zs
                  /\ isDigit c = false /\ Ascii.eqb c "." = false.
Proof.
  intros Hmod Hday. unfold time.formatZone.
  destruct (Z.eqb_spec off 0) as [->|Hnz].
  { split; [reflexivity|]. exists "Z"%char, EmptyString. now repeat split. }
  cbv zeta.
  set (az := Z.to_N (Z.abs (off ÷ 60))).
  assert (Haz : (Z.of_N az * 60 = Z.abs off)%Z).
  { subst az. rewrite Z2N.id by lia. divlia. }
  assert (Hh : az / 60 < 100) by divlia.
  assert (Hm : az mod 60 < 100) by divlia.
  destruct (two_digits (az / 60) Hh) as (h1 & h2 & Eh & _ & _ & Ph).
  destruct (two_digits (az mod 60) Hm) as (m1 & m2 & Em & _ & _ & Pm).
  rewrite Eh, Em.
  assert (Hsum : (az / 60 * 60 + az mod 60) = az) by divlia.
  destruct (Z.ltb_spec (off ÷ 60) 0) as [Hneg|Hpos].
  - split.
    + cbn [String.append time.parseZone].
      rewrite (Ph 0 23), (Pm 0 59); [|divlia..].
      change (Ascii.eqb "-" "-") with true. change (Ascii.eqb ":" ":") with true.
      cbn [orb andb]. f_equal. rewrite Hsum.
      divlia.
    + exists "-"%char. eexists. now repeat split.
  - split.
    + cbn [String.append time.parseZone].
      rewrite (Ph 0 23), (Pm 0 59); [|divlia..].
      change (Ascii.eqb "+" "-") with false. change (Ascii.eqb "+" "+") with true.
      change (Ascii.eqb ":" ":") with true.
      cbn [orb andb]. f_equal. rewrite Hsum.
      divlia.
    + exists "+"%char. eexists. now repeat split.
Qed.

Lemma appendNano_parses (ns : N) (c : ascii) (zs : string) :
  ns < 1000000000 -> isDigit c = false -> Ascii.eqb c "." = false ->
  match time.appendNano ns +:+ String c zs with
  | String dot (String f after) =>
      if Ascii.eqb dot "." && isDigit f then
        let '(ds, r) := time.span_digits (String f after) in
        (time.parseNanoseconds ds, r)
      else (0, time.appendNano ns +:+ String c zs)
  | _ => (0, time.appendNano ns +:+ String c zs)
  end = (ns, String c zs).
Proof.
  intros Hns Hc Hdot. unfold time.appendNano.
  destruct (N.eqb_spec ns 0) as [->|Hnz].
  { cbn [String.append]. destruct zs; [reflexivity|]. now rewrite Hdot. }
  destruct (appendInt_fixed ns 9) as (Hl & Hd & Hv);
    [change (10 ^ N.of_nat 9) with 1000000000; lia|lia|].
  destruct (trim_zeros_spec _ Hd) as (Ht & k & E).
  set (t := time.trim_zeros (time.appendInt ns 9)) in *.
  assert (Hlen : (String.length t + k = 9)%nat).
  { rewrite <- Hl, E at 1. now rewrite string_length_app, zeros_length. }
  assert (Hval : strconv.digits_value 0 t * 10 ^ N.of_nat k = ns).
  { rewrite <- Hv, E at 1. now rewrite digits_value_app, zeros_value. }
  destruct t as [|f after] eqn:Et.
  { simpl in Hval. lia. }
  cbn [String.append]. change (Ascii.eqb "." ".") with true.
  pose proof Ht as Ht'. simpl in Ht'. apply andb_true_iff in Ht' as [Hf _].
  rewrite Hf. cbn [andb].
  change (String f (after +:+ String c zs)) with (String f after +:+ String c zs).
  rewrite (span_digits_app (String f after) zs c Ht Hc).
  unfold time.parseNanoseconds. rewrite string_take_all by lia.
  replace (9 - String.length (String f after))%nat with k by lia.
  now rewrite Hval.
Qed.

Lemma time_eqb_eq (a b : time.Time) : time.eqb a b = true -> a = b.
Proof.
  unfold time.eqb. intros H.
  repeat match type of H with
         | _ && _ = true => let H' := fresh in apply andb_true_iff in H as [H H']
         end.
  destruct a, b. simpl in *.
  repeat match goal with
         | H : (_ =? _) = true |- _ => apply N.eqb_eq in H
         | H : (_ =? _)%Z = true |- _ => apply Z.eqb_eq in H
         end.
  congruence.
Qed.

(** The text [appendStrictRFC3339] writes for a valid time, and its
    parse. *)
Lemma RFC3339_round_trip (t : time.Time) :
  time.valid t = true ->
  time.appendStrictRFC3339 t = Some (time.appendFormatRFC3339 t)
  /\ time.parseRFC3339 (time.appendFormatRFC3339 t) = Some t
  /\ plain (time.appendFormatRFC3339 t) = true.
Proof.
  intros Hv. unfold time.valid in Hv.
  repeat match type of Hv with
         | _ && _ = true => let H' := fresh "V" in apply andb_true_iff in Hv as [Hv H']
         end.
  destruct t as [year month day hour minute second nsec off]. simpl in *.
  apply N.leb_le in Hv, V8, V7, V6, V5, V4, V3, V2.
  apply N.ltb_lt in V1. apply Z.eqb_eq in V0. apply Z.ltb_lt in V.
  destruct (formatZone_parses off V0 V) as (Hz & zc & zs & Ez & Hzd & Hzdot).
  split.
  { unfold time.appendStrictRFC3339. simpl.
    destruct (N.ltb_spec 9999 year); [lia|].
    destruct (Z.eqb_spec off 0); [reflexivity|].
    destruct (N.leb_spec 24 (Z.to_N (Z.abs (off ÷ 60)) / 60)); [|reflexivity].
    exfalso. divlia. }
  destruct (four_digits year Hv) as (y1 & y2 & y3 & y4 & Ey & Dy1 & Dy2 & Dy3 & Dy4 & Vy).
  destruct (two_digits month ltac:(lia)) as (mo1 & mo2 & Emo & Dmo1 & Dmo2 & Pmo).
  assert (Hdays : time.daysIn month year <= 31).
  { unfold time.daysIn.
    repeat match goal with |- context [if ?b then _ else _] => destruct b end; lia. }
  destruct (two_digits day ltac:(lia)) as (dy1 & dy2 & Edy & Ddy1 & Ddy2 & Pdy).
  destruct (two_digits hour ltac:(lia)) as (h1 & h2 & Eh & Dh1 & Dh2 & Ph).
  destruct (two_digits minute ltac:(lia)) as (mi1 & mi2 & Emi & Dmi1 & Dmi2 & Pmi).
  destruct (two_digits second ltac:(lia)) as (s1 & s2 & Es & Ds1 & Ds2 & Ps).
  unfold time.appendFormatRFC3339. simpl time.Year. simpl time.Month.
  simpl time.Day. simpl time.Hour. simpl time.Minute. simpl time.Second.
  simpl time.Nanosecond. simpl time.ZoneOffset.
  rewrite Ey, Emo, Edy, Eh, Emi, Es. cbn [String.append].
  split.
  - unfold time.parseRFC3339.
    rewrite Dy1, Dy2, Dy3, Dy4. cbn [andb].
    change (Ascii.eqb "-" "-") with true. change (Ascii.eqb "T" "T") with true.
    change (Ascii.eqb ":" ":") with true. cbn [andb]. cbv zeta.
    rewrite Vy, (Pmo 1 12) by lia.
    rewrite (Pdy 1 (time.daysIn month year)), (Ph 0 23), (Pmi 0 59), (Ps 0 59) by lia.
    rewrite Ez. rewrite (appendNano_parses nsec zc zs V1 Hzd Hzdot).
    rewrite <- Ez, Hz. reflexivity.
  -     assert (Hnano : plain (time.appendNano nsec) = true).
    { unfold time.appendNano. destruct (nsec =? 0); [reflexivity|].
      simpl. apply all_digits_plain.
      destruct (appendInt_fixed nsec 9) as (_ & Hd & _);
        [change (10 ^ N.of_nat 9) with 1000000000; lia|lia|].
      apply (trim_zeros_spec _ Hd). }
    assert (Hzone : plain (time.formatZone off) = true).
    { unfold time.formatZone. destruct (off =? 0)%Z; [reflexivity|]. cbv zeta.
      assert (forall x, x < 100 -> plain (time.appendInt x 2) = true).
      { intros x Hx. apply all_digits_plain.
        apply (appendInt_fixed x 2); [exact Hx|lia]. }
      rewrite !plain_app, !H by divlia.
      now destruct (off ÷ 60 <? 0)%Z. }
    cbn [plain].
    repeat match goal with
           | |- context [plain_char ?c] =>
               first [ rewrite (isDigit_plain c) by assumption
                     | change (plain_char c) with true ]
           end.
    cbn [andb].
    rewrite plain_app, Hnano, Hzone. reflexivity.
Qed.

(** ** The object [json.Marshal] writes, scanned and decoded *)

Lemma string_scans (body : string) :
  passes body ->
  scans_as (String json.quote (body +:+ String json.quote EmptyString))
           (json.Str body).
Proof.
  intros Hp fuel c rest Hc.
  cbn [String.append json.scan_value json.skip_space].
  change (json.isSpace json.quote) with false. cbv iota.
  change (byte_of json.quote =? 123) with false.
  change (byte_of json.quote =? 91) with false.
  change (byte_of json.quote =? 34) with true. cbv iota.
  rewrite string_app_assoc, Hp. cbn [String.append json.scan_string].
  change (byte_of json.quote =? 34) with true. cbv iota.
  cbn [prepend]. now rewrite string_app_nil_r.
Qed.

Lemma null_scans : scans_as "null" json.Null.
Proof. intros fuel c rest Hc. destruct Hc as [-> | ->]; reflexivity. Qed.

Lemma render_starts_with_quote l rest :
  l <> [] -> exists s, render l rest = String json.quote s.
Proof.
  destruct l as [|[tag text] l']; [congruence|]. intros _.
  simpl. unfold json.member. cbn [String.append]. eauto.
Qed.

Lemma scan_members_S (fuel : nat) (s : string) :
  json.scan_members (S fuel) s =
  match s with
  | String q s1 =>
      if byte_of q =? 34 then
        match json.scan_string s1 with
        | Some (key, s2) =>
            match json.skip_space s2 with
            | String colon s3 =>
                if byte_of colon =? 58 then
                  match json.scan_value fuel s3 with
                  | Some (v, s4) =>
                      match json.skip_space s4 with
                      | String d s5 =>
                          if byte_of d =? 125 then Some ([(key, v)], s5)
                          else if byte_of d =? 44 then
                            match json.scan_members fuel (json.skip_space s5) with
                            | Some (ms, r) => Some ((key, v) :: ms, r)
                            | None => None
                            end
                          else None
                      | EmptyString => None
                      end
                  | None => None
                  end
                else None
            | EmptyString => None
            end
        | None => None
        end
      else None
  | EmptyString => None
  end.
Proof. reflexivity. Qed.

Lemma scan_members_render (l : list (string * string))
  (kvs : list (string * json.Value)) :
  Forall2 member_scans l kvs -> l <> [] ->
  forall fuel rest,
    (length l <= fuel)%nat ->
    json.scan_members (S fuel) (render l rest) = Some (kvs, rest).
Proof.
  induction 1 as [|[tag text] [key v] l' kvs' (Hk & Hpl & Hs) HF IH];
    [congruence|].
  intros _ fuel rest Hlen. simpl in Hk, Hpl, Hs. subst key.
  destruct fuel as [|fuel]; [simpl in Hlen; lia|].
  cbn [render]. unfold json.member.
  cbn [String.append]. rewrite scan_members_S.
  change (byte_of json.quote =? 34) with true. cbv iota.
  rewrite !string_app_assoc. rewrite (passes_plain tag Hpl).
  cbn [String.append json.scan_string].
  change (byte_of json.quote =? 34) with true. cbv iota.
  cbn [prepend json.skip_space]. change (json.isSpace ":"%char) with false.
  cbv iota. change (byte_of ":"%char =? 58) with true. cbv iota.
  rewrite string_app_nil_r.
  destruct l' as [|m l''].
  - inversion HF; subst.
    rewrite (Hs fuel "}"%char rest (or_intror eq_refl)).
    reflexivity.
  - rewrite (Hs fuel ","%char (render (m :: l'') rest) (or_introl eq_refl)).
    cbn [json.skip_space]. change (json.isSpace ","%char) with false. cbv iota.
    change (byte_of ","%char =? 125) with false.
    change (byte_of ","%char =? 44) with true. cbv iota.
    destruct (render_starts_with_quote (m :: l'') rest ltac:(discriminate))
      as (s & Es).
    assert (Hskip : json.skip_space (render (m :: l'') rest)
                    = render (m :: l'') rest).
    { rewrite Es. reflexivity. }
    rewrite Hskip. rewrite (IH ltac:(discriminate) fuel rest);
      [reflexivity|simpl in *; lia].
Qed.

Lemma render_length l rest :
  (3 * length l <= String.length (render l rest))%nat.
Proof.
  induction l as [|[tag text] l IH]; [simpl; lia|].
  cbn [render]. unfold json.member.
  destruct l as [|m l'];
    repeat first [rewrite string_length_app | progress cbn [String.length String.append]];
    simpl in *; lia.
Qed.

Lemma scan_object (l : list (string * string))
  (kvs : list (string * json.Value)) :
  Forall2 member_scans l kvs -> (3 <= length l)%nat ->
  json.scan (String "{" (render l EmptyString)) = Some (json.Object kvs).
Proof.
  intros HF Hlen.
  assert (Hne : l <> []) by (destruct l; [simpl in Hlen; lia|discriminate]).
  unfold json.scan.
  pose proof (render_length l EmptyString) as Hr.
  cbn [String.length].
  set (f := S (String.length (render l EmptyString))).
  cbn [json.scan_value json.skip_space].
  change (json.isSpace "{"%char) with false. cbv iota.
  change (byte_of "{"%char =? 123) with true. cbv iota.
  destruct (render_starts_with_quote l EmptyString Hne) as (s & Es).
  rewrite Es. cbn [json.skip_space].
  change (json.isSpace json.quote) with false. cbv iota.
  change (byte_of json.quote =? 125) with false. cbv iota.
  rewrite <- Es. subst f.
  rewrite (scan_members_render l kvs HF Hne _ EmptyString) by lia.
  reflexivity.
Qed.

Lemma Time_MarshalJSON_valid (t : time.Time) :
  time.valid t = true ->
  let text := time.appendFormatRFC3339 t in
  json.Time_MarshalJSON t
    = Some (String json.quote (text +:+ String json.quote EmptyString))
  /\ scans_as (String json.quote (text +:+ String json.quote EmptyString))
              (json.Str text)
  /\ time.parseRFC3339 text = Some t.
Proof.
  intros Hv text. destruct (RFC3339_round_trip t Hv) as (Hs & Hp & Hpl).
  unfold json.Time_MarshalJSON. rewrite Hs. split; [reflexivity|].
  split; [|exact Hp]. apply string_scans, passes_plain, Hpl.
Qed.

Lemma tag_plain_scans (tag text : string) (v : json.Value) :
  plain tag = true -> scans_as text v -> member_scans (tag, text) (tag, v).
Proof. intros Hp Hs. now repeat split. Qed.

(** C7. For every valid user [e], [json.Marshal] succeeds, and
    [json.Unmarshal] of the bytes it wrote, into a zero [model.User] as
    [GetUserByID] does, returns a nil error and leaves the struct equal to
    [e] in every field. *)
Theorem C7_json_round_trip :
  forall e : model.User,
    model.valid e = true ->
    snd (json.Marshal e) = None
    /\ json.Unmarshal (fst (json.Marshal e)) model.zero = (e, None).
Proof.
  intros [id created updated [dtime dvalid] name email age status] Hv.
  unfold model.valid in Hv. cbn [model.ID model.CreatedAt model.UpdatedAt
    model.DeletedAt model.Name model.Email model.Age model.Status
    gorm.Valid gorm.Time] in Hv.
  repeat match type of Hv with
         | _ && _ = true => let H' := fresh "V" in apply andb_true_iff in Hv as [Hv H']
         end.
  apply N.leb_le in Hv. apply Z.leb_le in V, V0, V1, V2.
  destruct (Time_MarshalJSON_valid created V7) as (Mc & Sc & Pc).
  destruct (Time_MarshalJSON_valid updated V6) as (Mu & Su & Pu).
  destruct (appendString_round_trip name V4) as (bn & En & Hpn & Hun).
  destruct (appendString_round_trip email V3) as (be & Ee & Hpe & Hue).
  (* the soft-delete marker: a time, or null *)
  assert (Hd : exists dtext dv,
             json.DeletedAt_MarshalJSON (gorm.mkDeletedAt dtime dvalid) = Some dtext
             /\ scans_as dtext dv
             /\ json.DeletedAt_UnmarshalJSON dv (model.DeletedAt model.zero)
                = Some (gorm.mkDeletedAt dtime dvalid)).
  { unfold json.DeletedAt_MarshalJSON. cbn [gorm.Valid gorm.Time].
    destruct dvalid.
    - destruct (Time_MarshalJSON_valid dtime V5) as (Md & Sd & Pd).
      eexists _, _. split; [exact Md|]. split; [exact Sd|].
      cbn [json.DeletedAt_UnmarshalJSON json.Time_UnmarshalJSON]. now rewrite Pd.
    - exists "null", json.Null. split; [reflexivity|]. split; [apply null_scans|].
      apply time_eqb_eq in V5. subst dtime. reflexivity. }
  destruct Hd as (dtext & dv & Md & Sd & Pd).
  set (tc := time.appendFormatRFC3339 created) in *.
  set (tu := time.appendFormatRFC3339 updated) in *.
  set (l := [ ("id", strconv.FormatUint id);
              ("created_at", String json.quote (tc +:+ String json.quote EmptyString));
              ("updated_at", String json.quote (tu +:+ String json.quote EmptyString));
              ("deleted_at", dtext);
              ("name", String json.quote (bn +:+ String json.quote EmptyString));
              ("email", String json.quote (be +:+ String json.quote EmptyString));
              ("age", strconv.FormatInt age);
              ("status", strconv.FormatInt status) ]).
  set (kvs := [ ("id", json.Number (strconv.FormatUint id));
                ("created_at", json.Str tc);
                ("updated_at", json.Str tu);
                ("deleted_at", dv);
                ("name", json.Str bn);
                ("email", json.Str be);
                ("age", json.Number (strconv.FormatInt age));
                ("status", json.Number (strconv.FormatInt status)) ]).
  assert (HM : json.Marshal
                 (model.mkUser id created updated (gorm.mkDeletedAt dtime dvalid)
                    name email age status)
               = (String "{" (render l EmptyString), None)).
  { unfold json.Marshal.
    cbn [model.ID model.CreatedAt model.UpdatedAt model.DeletedAt model.Name
         model.Email model.Age model.Status].
    rewrite Mc, Mu, Md, En, Ee. reflexivity. }
  assert (HS : json.scan (String "{" (render l EmptyString))
               = Some (json.Object kvs)).
  { apply scan_object; [|simpl; lia].
    subst l kvs.
    repeat (constructor; [apply tag_plain_scans; [reflexivity|]|]);
      try constructor.
    - apply FormatUint_scans.
    - exact Sc.
    - exact Su.
    - exact Sd.
    - now apply string_scans.
    - now apply string_scans.
    - apply FormatInt_scans.
    - apply FormatInt_scans. }
  rewrite HM. cbn [fst snd]. split; [reflexivity|].
  unfold json.Unmarshal. rewrite HS. subst kvs.
  cbn [json.decode_members].
  change (json.unquote "id") with (Some "id").
  change (json.unquote "created_at") with (Some "created_at").
  change (json.unquote "updated_at") with (Some "updated_at").
  change (json.unquote "deleted_at") with (Some "deleted_at").
  change (json.unquote "name") with (Some "name").
  change (json.unquote "email") with (Some "email").
  change (json.unquote "age") with (Some "age").
  change (json.unquote "status") with (Some "status").
  cbv iota beta.
  change (json.find_field "id") with (Some json.FID).
  change (json.find_field "created_at") with (Some json.FCreatedAt).
  change (json.find_field "updated_at") with (Some json.FUpdatedAt).
  change (json.find_field "deleted_at") with (Some json.FDeletedAt).
  change (json.find_field "name") with (Some json.FName).
  change (json.find_field "email") with (Some json.FEmail).
  change (json.find_field "age") with (Some json.FAge).
  change (json.find_field "status") with (Some json.FStatus).
  cbv iota beta.
  cbn [json.store json.store_uint json.store_int json.store_string
       json.store_time json.Time_UnmarshalJSON].
  rewrite (ParseUint_FormatUint id Hv). cbv iota beta.
  subst tc tu. unfold json.store_time. cbn [json.Time_UnmarshalJSON].
  rewrite Pc. cbv iota beta.
  cbn [model.set_ID model.set_CreatedAt model.set_UpdatedAt model.set_DeletedAt
       model.set_Name model.set_Email model.set_Age model.set_Status
       model.ID model.CreatedAt model.UpdatedAt model.DeletedAt model.Name
       model.Email model.Age model.Status].
  rewrite Pu. cbv iota beta.
  cbn [model.set_ID model.set_CreatedAt model.set_UpdatedAt model.set_DeletedAt
       model.set_Name model.set_Email model.set_Age model.set_Status
       model.ID model.CreatedAt model.UpdatedAt model.DeletedAt model.Name
       model.Email model.Age model.Status].
  change (model.DeletedAt model.zero) with (gorm.mkDeletedAt time.zero false) in Pd.
  change (model.DeletedAt model.zero) with (gorm.mkDeletedAt time.zero false).
  rewrite Pd. cbv iota beta. rewrite Hun. cbv iota beta.
  cbn [model.set_ID model.set_CreatedAt model.set_UpdatedAt model.set_DeletedAt
       model.set_Name model.set_Email model.set_Age model.set_Status
       model.ID model.CreatedAt model.UpdatedAt model.DeletedAt model.Name
       model.Email model.Age model.Status].
  rewrite Hue. cbv iota beta.
  rewrite (ParseInt_FormatInt age) by lia. cbv iota beta.
  rewrite (ParseInt_FormatInt status) by lia. cbv iota beta.
  reflexivity.
Qed.

(** The stored sample user, through the encoder and back. *)
Lemma C7_witness :
  json.Unmarshal (fst (json.Marshal alice)) model.zero = (alice, None).
Proof.
  apply (C7_json_round_trip alice). vm_compute. reflexivity.
Defined.

(** ** Decoding into a struct that is not fresh *)

(** The bytes [json.Marshal] writes for a valid user name every field, so
    decoding them overwrites whatever the destination held; only the time
    inside a NULL soft-delete marker is left as the destination had it. *)
Lemma Unmarshal_overwrites : forall e dest : model.User,
  model.valid e = true ->
  gorm.Time (model.DeletedAt dest) = time.zero ->
  snd (json.Marshal e) = None
  /\ json.Unmarshal (fst (json.Marshal e)) dest = (e, None).
Proof.
  intros [id created updated [dtime dvalid] name email age status] dest Hv Hdest.
  unfold model.valid in Hv. cbn [model.ID model.CreatedAt model.UpdatedAt
    model.DeletedAt model.Name model.Email model.Age model.Status
    gorm.Valid gorm.Time] in Hv.
  repeat match type of Hv with
         | _ && _ = true => let H' := fresh "V" in apply andb_true_iff in Hv as [Hv H']
         end.
  apply N.leb_le in Hv. apply Z.leb_le in V, V0, V1, V2.
  destruct (Time_MarshalJSON_valid created V7) as (Mc & Sc & Pc).
  destruct (Time_MarshalJSON_valid updated V6) as (Mu & Su & Pu).
  destruct (appendString_round_trip name V4) as (bn & En & Hpn & Hun).
  destruct (appendString_round_trip email V3) as (be & Ee & Hpe & Hue).
  (* the soft-delete marker: a time, or null *)
  assert (Hd : exists dtext dv,
             json.DeletedAt_MarshalJSON (gorm.mkDeletedAt dtime dvalid) = Some dtext
             /\ scans_as dtext dv
             /\ json.DeletedAt_UnmarshalJSON dv (model.DeletedAt dest)
                = Some (gorm.mkDeletedAt dtime dvalid)).
  { unfold json.DeletedAt_MarshalJSON. cbn [gorm.Valid gorm.Time].
    destruct dvalid.
    - destruct (Time_MarshalJSON_valid dtime V5) as (Md & Sd & Pd).
      eexists _, _. split; [exact Md|]. split; [exact Sd|].
      cbn [json.DeletedAt_UnmarshalJSON json.Time_UnmarshalJSON]. now rewrite Pd.
    - exists "null", json.Null. split; [reflexivity|]. split; [apply null_scans|].
      apply time_eqb_eq in V5. subst dtime.
      cbn [json.DeletedAt_UnmarshalJSON]. now rewrite Hdest. }
  destruct Hd as (dtext & dv & Md & Sd & Pd).
  set (tc := time.appendFormatRFC3339 created) in *.
  set (tu := time.appendFormatRFC3339 updated) in *.
  set (l := [ ("id", strconv.FormatUint id);
              ("created_at", String json.quote (tc +:+ String json.quote EmptyString));
              ("updated_at", String json.quote (tu +:+ String json.quote EmptyString));
              ("deleted_at", dtext);
              ("name", String json.quote (bn +:+ String json.quote EmptyString));
              ("email", String json.quote (be +:+ String json.quote EmptyString));
              ("age", strconv.FormatInt age);
              ("status", strconv.FormatInt status) ]).
  set (kvs := [ ("id", json.Number (strconv.FormatUint id));
                ("created_at", json.Str tc);
                ("updated_at", json.Str tu);
                ("deleted_at", dv);
                ("name", json.Str bn);
                ("email", json.Str be);
                ("age", json.Number (strconv.FormatInt age));
                ("status", json.Number (strconv.FormatInt status)) ]).
  assert (HM : json.Marshal
                 (model.mkUser id created updated (gorm.mkDeletedAt dtime dvalid)
                    name email age status)
               = (String "{" (render l EmptyString), None)).
  { unfold json.Marshal.
    cbn [model.ID model.CreatedAt model.UpdatedAt model.DeletedAt model.Name
         model.Email model.Age model.Status].
    rewrite Mc, Mu, Md, En, Ee. reflexivity. }
  assert (HS : json.scan (String "{" (render l EmptyString))
               = Some (json.Object kvs)).
  { apply scan_object; [|simpl; lia].
    subst l kvs.
    repeat (constructor; [apply tag_plain_scans; [reflexivity|]|]);
      try constructor.
    - apply FormatUint_scans.
    - exact Sc.
    - exact Su.
    - exact Sd.
    - now apply string_scans.
    - now apply string_scans.
    - apply FormatInt_scans.
    - apply FormatInt_scans. }
  rewrite HM. cbn [fst snd]. split; [reflexivity|].
  unfold json.Unmarshal. rewrite HS. subst kvs.
  cbn [json.decode_members].
  change (json.unquote "id") with (Some "id").
  change (json.unquote "created_at") with (Some "created_at").
  change (json.unquote "updated_at") with (Some "updated_at").
  change (json.unquote "deleted_at") with (Some "deleted_at").
  change (json.unquote "name") with (Some "name").
  change (json.unquote "email") with (Some "email").
  change (json.unquote "age") with (Some "age").
  change (json.unquote "status") with (Some "status").
  cbv iota beta.
  change (json.find_field "id") with (Some json.FID).
  change (json.find_field "created_at") with (Some json.FCreatedAt).
  change (json.find_field "updated_at") with (Some json.FUpdatedAt).
  change (json.find_field "deleted_at") with (Some json.FDeletedAt).
  change (json.find_field "name") with (Some json.FName).
  change (json.find_field "email") with (Some json.FEmail).
  change (json.find_field "age") with (Some json.FAge).
  change (json.find_field "status") with (Some json.FStatus).
  cbv iota beta.
  cbn [json.store json.store_uint json.store_int json.store_string
       json.store_time json.Time_UnmarshalJSON].
  rewrite (ParseUint_FormatUint id Hv). cbv iota beta.
  subst tc tu. unfold json.store_time. cbn [json.Time_UnmarshalJSON].
  rewrite Pc. cbv iota beta.
  cbn [model.set_ID model.set_CreatedAt model.set_UpdatedAt model.set_DeletedAt
       model.set_Name model.set_Email model.set_Age model.set_Status
       model.ID model.CreatedAt model.UpdatedAt model.DeletedAt model.Name
       model.Email model.Age model.Status].
  rewrite Pu. cbv iota beta.
  cbn [model.set_ID model.set_CreatedAt model.set_UpdatedAt model.set_DeletedAt
       model.set_Name model.set_Email model.set_Age model.set_Status
       model.ID model.CreatedAt model.UpdatedAt model.DeletedAt model.Name
       model.Email model.Age model.Status].
  rewrite Pd. cbv iota beta. rewrite Hun. cbv iota beta.
  cbn [model.set_ID model.set_CreatedAt model.set_UpdatedAt model.set_DeletedAt
       model.set_Name model.set_Email model.set_Age model.set_Status
       model.ID model.CreatedAt model.UpdatedAt model.DeletedAt model.Name
       model.Email model.Age model.Status].
  rewrite Hue. cbv iota beta.
  rewrite (ParseInt_FormatInt age) by lia. cbv iota beta.
  rewrite (ParseInt_FormatInt status) by lia. cbv iota beta.
  reflexivity.
Qed.

(** ** Runs without failures

    What the collaborators return when the fault script is empty and the
    context is not done. *)

Lemma round_trip_ok (ctx : Context) (ev : Event) (w : World) :
  faults w = [] -> ctx_err (fired w) ctx = None ->
  round_trip ctx ev w = (Ret None, called ev w).
Proof. intros Hf Hc. unfold round_trip. now rewrite Hc, Hf. Qed.

Lemma round_trip_done (ctx : Context) (ev : Event) (w : World) (e : error) :
  ctx_err (fired w) ctx = Some e ->
  round_trip ctx ev w = (Ret (Some e), called ev w).
Proof. intros Hc. unfold round_trip. now rewrite Hc. Qed.

Lemma Get_ok (ctx : Context) (key : string) (w : World) :
  faults w = [] -> ctx_err (fired w) ctx = None ->
  RedisClient.Get ctx key w
  = (Ret (match cache w !! key with
          | Some (v, _) => (v, None)
          | None => (EmptyString, Some RedisNil)
          end), called (RedisGetCmd ctx key) w).
Proof.
  intros Hf Hc. unfold RedisClient.Get.
  rewrite bind_run, (round_trip_ok _ _ _ Hf Hc), bind_run. unfold get_world.
  change (cache (called (RedisGetCmd ctx key) w)) with (cache w).
  now destruct (cache w !! key) as [[v ttl]|].
Qed.

Lemma Set_ok (ctx : Context) (key value : string) (ttl : Duration) (w : World) :
  faults w = [] -> ctx_err (fired w) ctx = None ->
  RedisClient.Set_ ctx key value ttl w
  = (Ret None,
     with_cache (<[key := (value, ttl)]> (cache w))
       (called (RedisSetCmd ctx key value ttl) w)).
Proof.
  intros Hf Hc. unfold RedisClient.Set_.
  now rewrite bind_run, (round_trip_ok _ _ _ Hf Hc).
Qed.

Lemma Del_ok (ctx : Context) (key : string) (w : World) :
  faults w = [] -> ctx_err (fired w) ctx = None ->
  RedisClient.Del ctx key w
  = (Ret None, with_cache (delete key (cache w)) (called (RedisDelCmd ctx key) w)).
Proof.
  intros Hf Hc. unfold RedisClient.Del.
  now rewrite bind_run, (round_trip_ok _ _ _ Hf Hc).
Qed.

Lemma First_ok (ctx : Context) (dest : model.User) (id : N) (w : World) :
  faults w = [] -> ctx_err (fired w) ctx = None ->
  DB.First ctx dest id w
  = (Ret (match DB.first_by_id
                  (fun r => DB.live r && (model.ID r =? id)
                            && ((model.ID dest =? 0) || (model.ID r =? model.ID dest)))
                  (users w) with
          | Some r => (r, None)
          | None => (dest, Some ErrRecordNotFound)
          end), called (SelectByID ctx id (model.ID dest)) w).
Proof.
  intros Hf Hc. unfold DB.First.
  rewrite bind_run, (round_trip_ok _ _ _ Hf Hc), bind_run. unfold get_world.
  change (users (called (SelectByID ctx id (model.ID dest)) w)) with (users w).
  now destruct (DB.first_by_id _ (users w)).
Qed.

(** With unique ids, the query by id finds the live row that has the id. *)
Lemma first_by_id_unique (p : model.User -> bool) (rows : list model.User)
  (r : model.User) :
  NoDup (map model.ID rows) ->
  In r rows -> p r = true ->
  (forall o, p o = true -> model.ID o = model.ID r) ->
  DB.first_by_id p rows = Some r.
Proof.
  intros Hnd Hin Hp Hid. induction rows as [|a rows IH]; [contradiction|].
  simpl in Hnd. apply NoDup_cons in Hnd as [Hnotin Hnd'].
  rewrite list_elem_of_In in Hnotin.
  cbn [DB.first_by_id]. destruct Hin as [->|Hin].
  - assert (Hnone : DB.first_by_id p rows = None).
    { clear IH Hnd'. induction rows as [|b rows IHr]; [reflexivity|].
      cbn [DB.first_by_id]. rewrite IHr.
      - destruct (p b) eqn:Hb; [|reflexivity].
        exfalso. apply Hnotin. simpl. left. now apply Hid.
      - intros H. apply Hnotin. now right. }
    now rewrite Hnone, Hp.
  - rewrite (IH Hnd' Hin).
    destruct (p a) eqn:Ha; [|reflexivity].
    exfalso. apply Hnotin. rewrite (Hid a Ha). now apply in_map.
Qed.

Lemma first_by_id_none (p : model.User -> bool) (rows : list model.User) :
  (forall r, In r rows -> p r = false) -> DB.first_by_id p rows = None.
Proof.
  induction rows as [|a rows IH]; intros H; [reflexivity|].
  cbn [DB.first_by_id]. rewrite IH by (intros r Hr; apply H; now right).
  now rewrite (H a (or_introl eq_refl)).
Qed.

Lemma first_by_id_some (p : model.User -> bool) (rows : list model.User)
  (r : model.User) :
  DB.first_by_id p rows = Some r -> In r rows /\ p r = true.
Proof.
  revert r. induction rows as [|a rows IH]; intros r H; [discriminate|].
  cbn [DB.first_by_id] in H.
  destruct (DB.first_by_id p rows) as [r'|].
  - destruct (IH r' eq_refl) as [Hin Hp].
    destruct (p a && (model.ID a <=? model.ID r')) eqn:E; injection H as <-.
    + apply andb_true_iff in E as [E _]. split; [now left|exact E].
    + split; [now right|exact Hp].
  - destruct (p a) eqn:E; [|discriminate]. injection H as <-.
    split; [now left|exact E].
Qed.

Lemma first_by_id_ext (p q : model.User -> bool) (rows : list model.User) :
  (forall r, p r = q r) -> DB.first_by_id p rows = DB.first_by_id q rows.
Proof.
  intros H. induction rows as [|a rows IH]; [reflexivity|].
  cbn [DB.first_by_id]. now rewrite IH, H.
Qed.

(** The query of [GetUserByID] with a fresh destination: the live row of
    that id. *)
Lemma first_live_row (rows : list model.User) (r : model.User) (id : N) :
  NoDup (map model.ID rows) ->
  In r rows -> DB.live r = true -> model.ID r = id ->
  DB.first_by_id (fun r => DB.live r && (model.ID r =? id)) rows = Some r.
Proof.
  intros Hnd Hin Hl Hid. apply first_by_id_unique; try assumption.
  - rewrite Hl. cbn. now apply N.eqb_eq.
  - intros o Ho. apply andb_true_iff in Ho as [_ Ho].
    apply N.eqb_eq in Ho. congruence.
Qed.

Lemma First_fresh (ctx : Context) (id : N) (w : World) :
  faults w = [] -> ctx_err (fired w) ctx = None ->
  DB.First ctx model.zero id w
  = (Ret (match DB.first_by_id (fun r => DB.live r && (model.ID r =? id))
                  (users w) with
          | Some r => (r, None)
          | None => (model.zero, Some ErrRecordNotFound)
          end), called (SelectByID ctx id 0) w).
Proof.
  intros Hf Hc. rewrite (First_ok _ _ _ _ Hf Hc).
  change (model.ID model.zero) with 0.
  rewrite (first_by_id_ext _ (fun r => DB.live r && (model.ID r =? id))).
  - reflexivity.
  - intros r. cbn. now rewrite andb_true_r.
Qed.

(** *** The three ways through [GetUserByID] *)

Lemma GetUserByID_hit (ctx : Context) (id : N) (w : World)
  (jsonData : string) (user : model.User) :
  RedisClient.Get ctx (cacheKey id) w
    = (Ret (jsonData, None), called (RedisGetCmd ctx (cacheKey id)) w) ->
  json.Unmarshal jsonData model.zero = (user, None) ->
  GetUserByID ctx id w
  = (Ret (Some user, None), called (RedisGetCmd ctx (cacheKey id)) w).
Proof.
  intros HG HU. unfold GetUserByID. fold (cacheKey id). rewrite bind_run, HG.
  cbv beta iota. unfold cache_attempt. now rewrite HU.
Qed.

Lemma GetUserByID_cached (ctx : Context) (id : N) (w : World)
  (e : model.User) (ttl : Duration) :
  faults w = [] -> ctx_err (fired w) ctx = None ->
  cache w !! cacheKey id = Some (fst (json.Marshal e), ttl) ->
  model.valid e = true ->
  GetUserByID ctx id w
  = (Ret (Some e, None), called (RedisGetCmd ctx (cacheKey id)) w).
Proof.
  intros Hf Hc Hk Hv. apply GetUserByID_hit with (jsonData := fst (json.Marshal e)).
  - rewrite (Get_ok _ _ _ Hf Hc). now rewrite Hk.
  - now destruct (Unmarshal_overwrites e model.zero Hv eq_refl).
Qed.

Lemma GetUserByID_uncached (ctx : Context) (id : N) (w : World) :
  faults w = [] -> ctx_err (fired w) ctx = None ->
  cache w !! cacheKey id = None ->
  let w2 := called (SelectByID ctx id 0) (called (RedisGetCmd ctx (cacheKey id)) w) in
  GetUserByID ctx id w
  = match DB.first_by_id (fun r => DB.live r && (model.ID r =? id)) (users w) with
    | Some r =>
        (Ret (Some r, None),
         with_goroutines (goroutines w ++ [mkTask ctx (cacheKey id) r])
           (with_log (log w2 ++ [Go (mkTask ctx (cacheKey id) r)]) w2))
    | None => (Ret (None, Some ErrRecordNotFound), w2)
    end.
Proof.
  intros Hf Hc Hk w2. unfold GetUserByID. fold (cacheKey id).
  rewrite bind_run, (Get_ok _ _ _ Hf Hc), Hk. cbv beta iota.
  cbn [cache_attempt]. rewrite bind_run, First_fresh; [|cbn; now rewrite Hf|exact Hc].
  change (users (called (RedisGetCmd ctx (cacheKey id)) w)) with (users w).
  fold w2. destruct (DB.first_by_id _ (users w)) as [r|]; reflexivity.
Qed.

Lemma run_task_ok (t : Task) (w : World) :
  faults w = [] -> ctx_err (fired w) (task_ctx t) = None ->
  run_task t w
  = (Ret tt,
     with_cache (<[task_key t := (fst (json.Marshal (task_user t)), UserCacheTTL)]>
                   (cache w))
       (called (RedisSetCmd (task_ctx t) (task_key t)
                  (fst (json.Marshal (task_user t))) UserCacheTTL) w)).
Proof.
  intros Hf Hc. unfold run_task.
  destruct (json.Marshal (task_user t)) as [jsonData merr]. cbn [fst].
  now rewrite bind_run, (Set_ok _ _ _ _ _ Hf Hc).
Qed.

Lemma run_task_done (t : Task) (w : World) (e : error) :
  ctx_err (fired w) (task_ctx t) = Some e ->
  run_task t w
  = (Ret tt, called (RedisSetCmd (task_ctx t) (task_key t)
                       (fst (json.Marshal (task_user t))) UserCacheTTL) w).
Proof.
  intros Hc. unfold run_task.
  destruct (json.Marshal (task_user t)) as [jsonData merr]. cbn [fst].
  unfold RedisClient.Set_. now rewrite !bind_run, (round_trip_done _ _ _ _ Hc).
Qed.

(** A read after the population task has run. *)
Lemma read_after_task (t : Task) (ctx : Context) (id : N) (w : World) :
  task_key t = cacheKey id ->
  model.valid (task_user t) = true ->
  faults w = [] ->
  ctx_err (fired w) (task_ctx t) = None ->
  ctx_err (fired w) ctx = None ->
  GetUserByID ctx id (snd (run_task t w))
  = (Ret (Some (task_user t), None),
     called (RedisGetCmd ctx (cacheKey id))
       (with_cache (<[cacheKey id := (fst (json.Marshal (task_user t)),
                                      UserCacheTTL)]> (cache w))
          (called (RedisSetCmd (task_ctx t) (cacheKey id)
                     (fst (json.Marshal (task_user t))) UserCacheTTL) w))).
Proof.
  intros Hk Hv Hf Hct Hc.
  rewrite (run_task_ok t w Hf Hct). cbn [snd]. rewrite Hk.
  apply GetUserByID_cached with (ttl := UserCacheTTL).
  - cbn. now rewrite Hf.
  - exact Hc.
  - cbn [cache with_cache]. apply lookup_insert_eq.
  - exact Hv.
Qed.

(** The read that finds no entry and the live row of the id. *)
Lemma GetUserByID_from_store (ctx : Context) (id : N) (w : World)
  (r : model.User) :
  faults w = [] -> ctx_err (fired w) ctx = None ->
  cache w !! cacheKey id = None ->
  NoDup (map model.ID (users w)) ->
  In r (users w) -> DB.live r = true -> model.ID r = id ->
  GetUserByID ctx id w
  = (Ret (Some r, None),
     with_goroutines (goroutines w ++ [mkTask ctx (cacheKey id) r])
       (with_log (log w ++ [RedisGetCmd ctx (cacheKey id);
                            SelectByID ctx id 0;
                            Go (mkTask ctx (cacheKey id) r)])
          w)).
Proof.
  intros Hf Hc Hk Hnd Hin Hl Hid.
  rewrite (GetUserByID_uncached ctx id w Hf Hc Hk).
  rewrite (first_live_row (users w) r id Hnd Hin Hl Hid).
  f_equal. destruct w; cbn in *; subst. now rewrite <- !app_assoc.
Qed.

(** ** The statements of the write path, case by case *)

Lemma existsb_false {A} (f : A -> bool) (l : list A) :
  existsb f l = false <-> forall x, In x l -> f x = false.
Proof.
  split.
  - intros H x Hx. destruct (f x) eqn:E; [|reflexivity].
    rewrite <- H. symmetry. apply existsb_exists. eauto.
  - intros H. destruct (existsb f l) eqn:E; [|reflexivity].
    apply existsb_exists in E as (x & Hx & Hfx). rewrite (H x Hx) in Hfx.
    discriminate.
Qed.


Lemma Create_cases (ctx : Context) (user : model.User) (w : World) :
  let w1 := called (Insert ctx user) w in
  (exists e, DB.Create ctx user w = (Ret (user, Some e), w1))
  \/ (existsb (fun r => (model.ID r =? new_id user w)
                        || String.eqb (model.Email r) (model.Email user))
              (users w) = false
      /\ DB.Create ctx user w
         = (Ret (stamped user w, None),
            with_auto_increment (N.max (auto_increment w) (new_id user w + 1))
              (with_users (users w ++ [new_row user w]) w1))).
Proof.
  intros w1. unfold DB.Create. rewrite bind_run.
  destruct (round_trip_run ctx (Insert ctx user) w) as [[e|] ->].
  { left. now exists e. }
  rewrite bind_run. unfold get_world. fold w1.
  change (users w1) with (users w).
  change (auto_increment w1) with (auto_increment w).
  change (clock w1) with (clock w).
  fold (new_id user w). fold (stamped user w). fold (new_row user w).
  destruct (existsb _ (users w)) eqn:E.
  - left. now exists ErrDuplicatedKey.
  - right. split; [reflexivity|]. reflexivity.
Qed.


Lemma assign_update_columns (now : time.Time) (user row : model.User) :
  DB.assign_all now user update_columns row = updated now user row.
Proof. reflexivity. Qed.

Lemma clash_false (now : time.Time) (user : model.User) (rows : list model.User) :
  existsb
    (fun r => (DB.live r && (model.ID r =? model.ID user))
              && existsb (fun o => negb (model.ID o =? model.ID r)
                                   && String.eqb (model.Email o)
                                        (model.Email
                                           (DB.assign_all now user update_columns r)))
                         rows)
    rows = false
  <-> email_free user rows.
Proof.
  rewrite existsb_false. unfold email_free. split.
  - intros H r o Hr Ho Hl Hid Hne He.
    specialize (H r Hr). rewrite Hl in H. cbn [andb] in H.
    rewrite (proj2 (N.eqb_eq _ _) Hid) in H. cbn [andb] in H.
    rewrite existsb_false in H. specialize (H o Ho).
    rewrite assign_update_columns in H. cbn [updated model.Email model.set_UpdatedAt
      model.set_Status model.set_Age model.set_Email] in H.
    rewrite (proj2 (N.eqb_neq _ _) Hne) in H. cbn in H.
    rewrite He, String.eqb_refl in H. discriminate.
  - intros H r Hr.
    destruct (DB.live r) eqn:Hl; [|reflexivity]. cbn [andb].
    destruct (N.eqb_spec (model.ID r) (model.ID user)) as [Hid|]; [|reflexivity].
    cbn [andb]. apply existsb_false. intros o Ho.
    destruct (N.eqb_spec (model.ID o) (model.ID r)) as [|Hne]; [reflexivity|].
    cbn [negb andb]. apply String.eqb_neq. rewrite assign_update_columns.
    cbn. exact (H r o Hr Ho Hl Hid Hne).
Qed.

Lemma Updates_cases (ctx : Context) (user : model.User) (w : World) :
  let w1 := called (Update ctx update_columns (model.ID user) user) w in
  (exists e, DB.Updates ctx update_columns (model.ID user) user w
             = (Ret (Some e), w1))
  \/ (email_free user (users w)
      /\ DB.Updates ctx update_columns (model.ID user) user w
         = (Ret None, with_users (update_rows (clock w) user (users w)) w1)).
Proof.
  intros w1. unfold DB.Updates. rewrite bind_run.
  destruct (round_trip_run ctx (Update ctx update_columns (model.ID user) user) w)
    as [[e|] ->].
  { left. now exists e. }
  rewrite bind_run. unfold get_world. fold w1.
  change (users w1) with (users w). change (clock w1) with (clock w).
  destruct (existsb _ (users w)) eqn:E.
  - left. now exists ErrDuplicatedKey.
  - right. split; [now apply (clash_false (clock w))|]. reflexivity.
Qed.

Lemma Updates_ok (ctx : Context) (user : model.User) (w : World) :
  faults w = [] -> ctx_err (fired w) ctx = None ->
  email_free user (users w) ->
  DB.Updates ctx update_columns (model.ID user) user w
  = (Ret None,
     with_users (update_rows (clock w) user (users w))
       (called (Update ctx update_columns (model.ID user) user) w)).
Proof.
  intros Hf Hc Hfree. unfold DB.Updates.
  rewrite bind_run, (round_trip_ok _ _ _ Hf Hc), bind_run. unfold get_world.
  set (w1 := called _ w).
  change (users w1) with (users w). change (clock w1) with (clock w).
  apply (clash_false (clock w)) in Hfree. rewrite Hfree. reflexivity.
Qed.

Lemma UpdateUser_ok (ctx : Context) (user : model.User) (w : World) :
  faults w = [] -> ctx_err (fired w) ctx = None ->
  model.ID user <> 0 ->
  email_free user (users w) ->
  UpdateUser ctx user w
  = (Ret None,
     with_cache (delete (cacheKey (model.ID user)) (cache w))
       (called (RedisDelCmd ctx (cacheKey (model.ID user)))
          (with_users (update_rows (clock w) user (users w))
             (called (Update ctx update_columns (model.ID user) user) w)))).
Proof.
  intros Hf Hc Hid Hfree. unfold UpdateUser.
  rewrite (proj2 (N.eqb_neq _ _) Hid).
  rewrite bind_run, (Updates_ok _ _ _ Hf Hc Hfree). cbv beta iota.
  fold (cacheKey (model.ID user)).
  rewrite bind_run, Del_ok; [reflexivity|cbn; now rewrite Hf|exact Hc].
Qed.

(** A context is done as soon as one of the handles it listens to fires. *)
Lemma ctx_err_fired (h : nat) (fd : list nat) (ctx : Context) :
  In h (signals ctx) -> exists e, ctx_err (h :: fd) ctx = Some e.
Proof.
  induction ctx as [|p IH h0|p IH d h0|p IH|p IH s]; cbn [signals ctx_err];
    intros Hin; try contradiction.
  - destruct (existsb (Nat.eqb h0) (h :: fd)) eqn:E; [eauto|].
    destruct Hin as [->|Hin]; [|now apply IH].
    cbn in E. now rewrite Nat.eqb_refl in E.
  - destruct (existsb (Nat.eqb h0) (h :: fd)) eqn:E; [eauto|].
    destruct Hin as [->|Hin]; [|now apply IH].
    cbn in E. now rewrite Nat.eqb_refl in E.
  - now apply IH.
Qed.

(** ** The table after an update *)

Lemma update_rows_ids (now : time.Time) (user : model.User)
  (rows : list model.User) :
  map model.ID (update_rows now user rows) = map model.ID rows.
Proof.
  unfold update_rows. rewrite map_map. apply map_ext. intros r.
  now destruct (DB.live r && (model.ID r =? model.ID user)).
Qed.


Lemma update_rows_absent (now : time.Time) (user : model.User)
  (rows : list model.User) :
  (forall r, In r rows -> DB.live r = true -> model.ID r <> model.ID user) ->
  update_rows now user rows = rows.
Proof.
  intros H. unfold update_rows. rewrite <- (map_id rows) at 2.
  apply map_ext_in. intros r Hr.
  destruct (DB.live r) eqn:Hl; [|reflexivity]. cbn [andb].
  now rewrite (proj2 (N.eqb_neq _ _) (H r Hr Hl)).
Qed.


Lemma update_rows_emails (now : time.Time) (user : model.User)
  (rows : list model.User) :
  NoDup (map model.ID rows) ->
  NoDup (map model.Email rows) ->
  email_free user rows ->
  NoDup (map model.Email (update_rows now user rows)).
Proof.
  intros Hid Hem Hfree.
  assert (Hsub : forall r, In r rows -> In r rows) by auto.
  revert Hid Hem Hsub. generalize rows at 1 2 3 5 as l.
  induction l as [|a l IH]; intros Hid Hem Hsub; [constructor|].
  cbn [map] in Hid, Hem. apply NoDup_cons in Hid as [Ha Hid].
  apply NoDup_cons in Hem as [Hb Hem].
  rewrite list_elem_of_In in Ha. rewrite list_elem_of_In in Hb.
  cbn [update_rows map]. apply NoDup_cons. split.
  - rewrite list_elem_of_In. fold (update_rows now user l).
    intros Hin. apply in_map_iff in Hin as (o' & Heq & Hin).
    unfold update_rows in Hin. apply in_map_iff in Hin as (o & <- & Ho).
    assert (Hne : model.ID o <> model.ID a).
    { intros E. apply Ha. rewrite <- E. now apply in_map. }
    destruct (DB.live a && (model.ID a =? model.ID user)) eqn:Ta;
      destruct (DB.live o && (model.ID o =? model.ID user)) eqn:To.
    + apply andb_true_iff in Ta as [_ Ta]. apply andb_true_iff in To as [_ To].
      apply N.eqb_eq in Ta, To. congruence.
    + apply andb_true_iff in Ta as [La Ta]. apply N.eqb_eq in Ta.
      cbn in Heq.
      apply (Hfree a o); auto using in_cons, in_eq.
    + apply andb_true_iff in To as [Lo To]. apply N.eqb_eq in To.
      cbn in Heq.
      apply (Hfree o a); auto using in_cons, in_eq.
    + apply Hb. rewrite <- Heq. now apply in_map.
  - apply IH; auto using in_cons.
Qed.

(** [keys_hold] reads the rows and the counter only. *)
Lemma keys_hold_frame (w w' : World) :
  users w' = users w -> auto_increment w' = auto_increment w ->
  keys_hold w -> keys_hold w'.
Proof. unfold keys_hold. now intros -> ->. Qed.


(** ** A create that goes through *)


(** ** GetUserByID: hits, population, and what a cancelled request loses *)

(** X1. When the lookup returns bytes that decode, [GetUserByID] returns the
    decoded user: the store is not queried, nothing is launched, and the
    world changes by the one logged GET. *)
Theorem X1_cache_hit_skips_store :
  forall (ctx : Context) (id : N) (w : World)
         (jsonData : string) (user : model.User),
    fst (RedisClient.Get ctx (cacheKey id) w) = Ret (jsonData, None) ->
    json.Unmarshal jsonData model.zero = (user, None) ->
    let w' := snd (GetUserByID ctx id w) in
    fst (GetUserByID ctx id w) = Ret (Some user, None)
    /\ log w' = log w ++ [RedisGetCmd ctx (cacheKey id)]
    /\ goroutines w' = goroutines w
    /\ cache w' = cache w
    /\ users w' = users w.
Proof.
  intros ctx id w jsonData user HG HU w'. subst w'.
  rewrite (GetUserByID_hit ctx id w jsonData user (Get_fst _ _ _ _ _ HG) HU).
  now repeat split.
Qed.

Lemma X1_witness :
  let w := world_of [] {[ "user:1" := (fst (json.Marshal alice), UserCacheTTL) ]} [] in
  fst (GetUserByID request_ctx 1 w) = Ret (Some alice, None)
  /\ log (snd (GetUserByID request_ctx 1 w))
     = log w ++ [RedisGetCmd request_ctx (cacheKey 1)]
  /\ goroutines (snd (GetUserByID request_ctx 1 w)) = goroutines w
  /\ cache (snd (GetUserByID request_ctx 1 w)) = cache w
  /\ users (snd (GetUserByID request_ctx 1 w)) = users w.
Proof.
  apply (X1_cache_hit_skips_store request_ctx 1 _ (fst (json.Marshal alice)) alice).
  - vm_compute. reflexivity.
  - vm_compute. reflexivity.
Defined.

(** X2. Once a population task has stored a valid user under the key of
    [id], a read of [id] returns that user from the cache and does not query
    the store, whatever the table holds by then. *)
Theorem X2_populated_key_is_served_from_cache :
  forall (t : Task) (ctx : Context) (id : N) (w : World),
    task_key t = cacheKey id ->
    model.valid (task_user t) = true ->
    faults w = [] ->
    ctx_err (fired w) (task_ctx t) = None ->
    ctx_err (fired w) ctx = None ->
    let w1 := snd (run_task t w) in
    let w2 := snd (GetUserByID ctx id w1) in
    fst (GetUserByID ctx id w1) = Ret (Some (task_user t), None)
    /\ log w2 = log w ++ [RedisSetCmd (task_ctx t) (cacheKey id)
                            (fst (json.Marshal (task_user t))) UserCacheTTL;
                          RedisGetCmd ctx (cacheKey id)]
    /\ users w2 = users w
    /\ goroutines w2 = goroutines w.
Proof.
  intros t ctx id w Hk Hv Hf Hct Hc w1 w2. subst w2 w1.
  rewrite (read_after_task t ctx id w Hk Hv Hf Hct Hc).
  cbn. rewrite <- app_assoc. now repeat split.
Qed.

Lemma X2_witness :
  fst (GetUserByID request_ctx 1
         (snd (run_task (mkTask Background (cacheKey 1) alice)
                 (world_of [] ∅ []))))
  = Ret (Some alice, None).
Proof.
  apply (X2_populated_key_is_served_from_cache
           (mkTask Background (cacheKey 1) alice) request_ctx 1 (world_of [] ∅ []));
    reflexivity.
Defined.

(** X3. A read that misses the cache and finds the row, the population task
    it launched, and a second read: the second read returns the same row and
    sends no query to the store. *)
Theorem X3_second_read_is_served_from_cache :
  forall (ctx ctx' : Context) (id : N) (w : World) (r : model.User),
    faults w = [] ->
    ctx_err (fired w) ctx = None ->
    ctx_err (fired w) ctx' = None ->
    cache w !! cacheKey id = None ->
    NoDup (map model.ID (users w)) ->
    In r (users w) -> DB.live r = true -> model.ID r = id ->
    model.valid r = true ->
    let t := mkTask ctx (cacheKey id) r in
    let w1 := snd (GetUserByID ctx id w) in
    let w2 := snd (run_task t w1) in
    let w3 := snd (GetUserByID ctx' id w2) in
    fst (GetUserByID ctx id w) = Ret (Some r, None)
    /\ goroutines w1 = goroutines w ++ [t]
    /\ fst (GetUserByID ctx' id w2) = Ret (Some r, None)
    /\ log w3 = log w ++ [RedisGetCmd ctx (cacheKey id);
                          SelectByID ctx id 0;
                          Go t;
                          RedisSetCmd ctx (cacheKey id) (fst (json.Marshal r))
                                      UserCacheTTL;
                          RedisGetCmd ctx' (cacheKey id)].
Proof.
  intros ctx ctx' id w r Hf Hc Hc' Hk Hnd Hin Hl Hid Hv t w1 w2 w3.
  subst w3 w2 w1.
  rewrite (GetUserByID_from_store ctx id w r Hf Hc Hk Hnd Hin Hl Hid). fold t.
  cbn [fst snd]. split; [reflexivity|]. split; [reflexivity|].
  rewrite (read_after_task t ctx' id); try assumption; try reflexivity.
  cbn. split; [reflexivity|]. now rewrite <- !app_assoc.
Qed.

Lemma X3_witness :
  fst (GetUserByID Background 1
         (snd (run_task (mkTask request_ctx (cacheKey 1) alice)
                 (snd (GetUserByID request_ctx 1 (world_of [alice] ∅ []))))))
  = Ret (Some alice, None).
Proof.
  refine (proj1 (proj2 (proj2
    (X3_second_read_is_served_from_cache request_ctx Background 1
       (world_of [alice] ∅ []) alice _ _ _ _ _ _ _ _ _)))); try reflexivity.
  - cbn. apply NoDup_singleton.
  - now left.
Defined.

(** X4. The population task runs under the request's context.  When a
    handle that context listens to fires before the task runs (the client
    went away, the request timed out), the task's SET fails, the key stays
    absent, and the next read of the id queries the store again. *)
Theorem X4_cancelled_request_loses_population :
  forall (ctx ctx' : Context) (id : N) (w : World) (r : model.User) (h : nat),
    faults w = [] ->
    ctx_err (fired w) ctx = None ->
    cache w !! cacheKey id = None ->
    NoDup (map model.ID (users w)) ->
    In r (users w) -> DB.live r = true -> model.ID r = id ->
    In h (signals ctx) ->
    ctx_err (h :: fired w) ctx' = None ->
    let t := mkTask ctx (cacheKey id) r in
    let w1 := snd (GetUserByID ctx id w) in
    let w2 := snd (run_task t (fire h w1)) in
    let w3 := snd (GetUserByID ctx' id w2) in
    goroutines w1 = goroutines w ++ [t]
    /\ cache w2 = cache w
    /\ fst (GetUserByID ctx' id w2) = Ret (Some r, None)
    /\ log w3 = log w2 ++ [RedisGetCmd ctx' (cacheKey id);
                           SelectByID ctx' id 0;
                           Go (mkTask ctx' (cacheKey id) r)].
Proof.
  intros ctx ctx' id w r h Hf Hc Hk Hnd Hin Hl Hid Hh Hc' t w1 w2 w3.
  subst w3 w2 w1.
  rewrite (GetUserByID_from_store ctx id w r Hf Hc Hk Hnd Hin Hl Hid). fold t.
  cbn [snd]. split; [reflexivity|].
  destruct (ctx_err_fired h (fired w) ctx Hh) as [e He].
  rewrite (run_task_done t _ e) by exact He. cbn [snd].
  split; [reflexivity|].
  rewrite (GetUserByID_from_store ctx' id _ r); try assumption.
  - split; reflexivity.
  - cbn. now rewrite Hf.
Qed.

Lemma X4_witness :
  cache (snd (run_task (mkTask request_ctx (cacheKey 1) alice)
                (fire 7 (snd (GetUserByID request_ctx 1 (world_of [alice] ∅ []))))))
  = ∅.
Proof.
  refine (proj1 (proj2
    (X4_cancelled_request_loses_population request_ctx Background 1
       (world_of [alice] ∅ []) alice 7%nat _ _ _ _ _ _ _ _ _))); try reflexivity.
  - cbn. apply NoDup_singleton.
  - now left.
  - now left.
Defined.

(** X5. A cached value that fails to decode after it has set the id of the
    destination to another id than the one asked for makes the read fail:
    [First] adds the destination's id to its condition, no row has both
    ids, and the read reports that the record was not found whatever the
    table holds. *)
Theorem X5_half_decoded_entry_hides_the_row :
  forall (ctx : Context) (id : N) (w : World)
         (jsonData : string) (ttl : Duration) (dest : model.User) (e : error),
    faults w = [] ->
    ctx_err (fired w) ctx = None ->
    cache w !! cacheKey id = Some (jsonData, ttl) ->
    json.Unmarshal jsonData model.zero = (dest, Some e) ->
    model.ID dest <> 0 ->
    model.ID dest <> id ->
    let w' := snd (GetUserByID ctx id w) in
    fst (GetUserByID ctx id w) = Ret (None, Some ErrRecordNotFound)
    /\ log w' = log w ++ [RedisGetCmd ctx (cacheKey id);
                          SelectByID ctx id (model.ID dest)]
    /\ goroutines w' = goroutines w
    /\ cache w' = cache w.
Proof.
  intros ctx id w jsonData ttl dest e Hf Hc Hk HU H0 Hne w'. subst w'.
  unfold GetUserByID. fold (cacheKey id).
  rewrite bind_run, (Get_ok _ _ _ Hf Hc), Hk. cbv beta iota.
  cbn [cache_attempt]. rewrite HU.
  rewrite bind_run, First_ok; [|cbn; now rewrite Hf|exact Hc].
  rewrite first_by_id_none.
  - cbn. rewrite <- app_assoc. now repeat split.
  - intros r _. apply (proj2 (N.eqb_neq _ _)) in H0.
    rewrite H0. cbn [orb].
    destruct (N.eqb_spec (model.ID r) id) as [E1|]; [|now rewrite andb_false_r].
    destruct (N.eqb_spec (model.ID r) (model.ID dest)) as [E2|];
      [congruence|now rewrite andb_false_r].
Qed.

Lemma X5_witness :
  fst (GetUserByID request_ctx 1
         (world_of [alice]
            {[ "user:1" := ("{" +:+ json.member "id" +:+ "5,"
                              +:+ json.member "name" +:+ "3}", UserCacheTTL) ]} []))
  = Ret (None, Some ErrRecordNotFound).
Proof.
  refine (proj1
    (X5_half_decoded_entry_hides_the_row request_ctx 1 _ _ UserCacheTTL
       (model.set_ID 5 model.zero) (UnmarshalTypeError "name") _ _ _ _ _ _));
    try reflexivity; cbn; discriminate.
Defined.

(** ** Writes, and the reads that follow them *)







(** *** Calls under a context that is done *)

Lemma Get_done (ctx : Context) (key : string) (w : World) (e : error) :
  ctx_err (fired w) ctx = Some e ->
  RedisClient.Get ctx key w
  = (Ret (EmptyString, Some e), called (RedisGetCmd ctx key) w).
Proof.
  intros He. unfold RedisClient.Get.
  now rewrite bind_run, (round_trip_done _ _ _ _ He).
Qed.

Lemma First_done (ctx : Context) (dest : model.User) (id : N) (w : World)
  (e : error) :
  ctx_err (fired w) ctx = Some e ->
  DB.First ctx dest id w
  = (Ret (dest, Some e), called (SelectByID ctx id (model.ID dest)) w).
Proof.
  intros He. unfold DB.First.
  now rewrite bind_run, (round_trip_done _ _ _ _ He).
Qed.

Lemma FirstWhereEmail_done (ctx : Context) (email : string) (w : World)
  (e : error) :
  ctx_err (fired w) ctx = Some e ->
  DB.FirstWhereEmail ctx email w
  = (Ret (model.zero, Some e), called (SelectByEmail ctx email) w).
Proof.
  intros He. unfold DB.FirstWhereEmail.
  now rewrite bind_run, (round_trip_done _ _ _ _ He).
Qed.

Lemma Create_done (ctx : Context) (user : model.User) (w : World) (e : error) :
  ctx_err (fired w) ctx = Some e ->
  DB.Create ctx user w = (Ret (user, Some e), called (Insert ctx user) w).
Proof.
  intros He. unfold DB.Create.
  now rewrite bind_run, (round_trip_done _ _ _ _ He).
Qed.

Lemma Updates_done (ctx : Context) (columns : list string) (id : N)
  (user : model.User) (w : World) (e : error) :
  ctx_err (fired w) ctx = Some e ->
  DB.Updates ctx columns id user w
  = (Ret (Some e), called (Update ctx columns id user) w).
Proof.
  intros He. unfold DB.Updates.
  now rewrite bind_run, (round_trip_done _ _ _ _ He).
Qed.

(** X9. Under a context that is already done, the four functions of the
    logic package return the context's error (the two writes after their
    own validation), and none of them changes the table, the cache or the
    set of launched tasks. *)
Theorem X9_done_context_changes_nothing :
  forall (ctx : Context) (e : error) (w : World),
    ctx_err (fired w) ctx = Some e ->
    (forall id,
        let r := GetUserByID ctx id w in
        fst r = Ret (None, Some e)
        /\ users (snd r) = users w /\ cache (snd r) = cache w
        /\ goroutines (snd r) = goroutines w)
    /\ (let r := GetAllUsers ctx w in
        fst r = Ret (None, Some e)
        /\ users (snd r) = users w /\ cache (snd r) = cache w
        /\ goroutines (snd r) = goroutines w)
    /\ (forall user,
        let r := CreateUser ctx user w in
        fst r = Ret (user,
                     Some (if String.eqb (model.Name user) EmptyString
                              || String.eqb (model.Email user) EmptyString
                           then Errorf "用户姓名和邮箱不能为空" else e))
        /\ users (snd r) = users w /\ cache (snd r) = cache w
        /\ auto_increment (snd r) = auto_increment w
        /\ goroutines (snd r) = goroutines w)
    /\ (forall user,
        let r := UpdateUser ctx user w in
        fst r = Ret (Some (if model.ID user =? 0
                           then Errorf "用户ID不能为空" else e))
        /\ users (snd r) = users w /\ cache (snd r) = cache w
        /\ goroutines (snd r) = goroutines w).
Proof.
  intros ctx e w He. split; [|split; [|split]].
  - intros id r. subst r. unfold GetUserByID.
    rewrite bind_run, (Get_done _ _ _ _ He). cbv beta iota.
    rewrite cache_attempt_falls_through by (left; eauto).
    rewrite bind_run, (First_done _ _ _ _ e) by exact He.
    now repeat split.
  - intros r. subst r. unfold GetAllUsers, DB_Find, unlogged_round_trip.
    rewrite !bind_run, He. now repeat split.
  - intros user r. subst r. unfold CreateUser.
    destruct (String.eqb (model.Name user) EmptyString
              || String.eqb (model.Email user) EmptyString);
      [now repeat split|].
    rewrite bind_run, (FirstWhereEmail_done _ _ _ _ He). cbv beta iota.
    rewrite bind_run, (Create_done _ _ _ e) by exact He.
    now repeat split.
  - intros user r. subst r. unfold UpdateUser.
    destruct (model.ID user =? 0); [now repeat split|].
    rewrite bind_run, (Updates_done _ _ _ _ _ e) by exact He.
    now repeat split.
Qed.

Lemma X9_witness :
  fst (GetUserByID request_ctx 1 (fire 7 (world_of [alice] ∅ [])))
  = Ret (None, Some ContextCanceled)
  /\ fst (UpdateUser request_ctx (model.set_Name "B" alice)
            (fire 7 (world_of [alice] ∅ [])))
     = Ret (Some ContextCanceled).
Proof.
  destruct (X9_done_context_changes_nothing request_ctx ContextCanceled
              (fire 7 (world_of [alice] ∅ [])) eq_refl)
    as (H1 & _ & _ & H4).
  split.
  - exact (proj1 (H1 1)).
  - exact (proj1 (H4 (model.set_Name "B" alice))).
Defined.

(** ** The keys of the table *)

Lemma Del_frame (ctx : Context) (key : string) (w : World) :
  users (snd (RedisClient.Del ctx key w)) = users w
  /\ auto_increment (snd (RedisClient.Del ctx key w)) = auto_increment w.
Proof.
  destruct (Del_run ctx key w) as [[e ->] | ->]; now split.
Qed.

Lemma keys_hold_insert (user : model.User) (w w1 : World) :
  users w1 = users w ++ [new_row user w] ->
  auto_increment w1 = N.max (auto_increment w) (new_id user w + 1) ->
  existsb (fun r => (model.ID r =? new_id user w)
                    || String.eqb (model.Email r) (model.Email user))
          (users w) = false ->
  keys_hold w -> keys_hold w1.
Proof.
  intros Hu Ha Hex (Hid & Hem & Hlt). unfold keys_hold. rewrite Hu, Ha.
  rewrite existsb_false in Hex.
  assert (Hrow : model.ID (new_row user w) = new_id user w
                 /\ model.Email (new_row user w) = model.Email user).
  { unfold new_row. now destruct (_ =? 0)%Z. }
  destruct Hrow as [Hrid Hrem].
  rewrite !map_app. cbn [map]. rewrite Hrid, Hrem. repeat split.
  - apply NoDup_app. split; [exact Hid|]. split; [|apply NoDup_singleton].
    intros x Hx E. apply list_elem_of_In in Hx.
    apply in_map_iff in Hx as (o & <- & Ho).
    apply list_elem_of_In, in_inv in E as [E|[]].
    specialize (Hex o Ho). apply orb_false_iff in Hex as [Hex _].
    apply N.eqb_neq in Hex. congruence.
  - apply NoDup_app. split; [exact Hem|]. split; [|apply NoDup_singleton].
    intros x Hx E. apply list_elem_of_In in Hx.
    apply in_map_iff in Hx as (o & <- & Ho).
    apply list_elem_of_In, in_inv in E as [E|[]].
    specialize (Hex o Ho). apply orb_false_iff in Hex as [_ Hex].
    apply String.eqb_neq in Hex. congruence.
  - apply Forall_app. split.
    + eapply Forall_impl; [exact Hlt|]. cbv beta. intros; lia.
    + apply Forall_singleton. rewrite Hrid. lia.
Qed.

(** X10. The two writes keep the keys of the table, whether their calls go
    through or fail: after [CreateUser] and after [UpdateUser] no two rows
    share an id, no two rows share an email, soft-deleted rows included, and
    the AUTO_INCREMENT counter is above every id. *)
Theorem X10_writes_keep_the_keys :
  forall (ctx : Context) (w : World),
    keys_hold w ->
    (forall user, keys_hold (snd (CreateUser ctx user w)))
    /\ (forall user, keys_hold (snd (UpdateUser ctx user w))).
Proof.
  intros ctx w Hk. split; intros user.
  - unfold CreateUser.
    destruct (String.eqb (model.Name user) EmptyString
              || String.eqb (model.Email user) EmptyString); [exact Hk|].
    rewrite bind_run.
    destruct (FirstWhereEmail_run ctx (model.Email user) w)
      as (existing & err & ->).
    cbv beta iota. set (w1 := called _ w).
    assert (Hk1 : keys_hold w1) by (now apply (keys_hold_frame w)).
    destruct err as [e0|]; [|exact Hk1].
    rewrite bind_run.
    destruct (Create_cases ctx user w1) as [[e ->] | [Hex ->]].
    + now apply (keys_hold_frame w1).
    + cbv beta iota. rewrite bind_run.
      set (w2 := with_auto_increment _ _).
      assert (Hk2 : keys_hold w2)
        by (now apply (keys_hold_insert user w1 w2)).
      destruct (Del_frame ctx (fmt.Sprintf UserCacheKey [model.ID (stamped user w1)]) w2)
        as [Hu Ha].
      destruct (RedisClient.Del ctx _ w2) as [[d|v] w3]; cbn [snd] in *;
        now apply (keys_hold_frame w2).
  - unfold UpdateUser. destruct (model.ID user =? 0); [exact Hk|].
    rewrite bind_run.
    destruct (Updates_cases ctx user w) as [[e ->] | [Hfree ->]].
    + now apply (keys_hold_frame w).
    + cbv beta iota. rewrite bind_run.
      set (w2 := with_users _ _).
      assert (Hk2 : keys_hold w2).
      { destruct Hk as (Hid & Hem & Hlt). unfold keys_hold. subst w2.
        cbn [users with_users auto_increment called with_faults with_log].
        rewrite update_rows_ids. repeat split.
        - exact Hid.
        - now apply update_rows_emails.
        - apply Forall_forall. intros x Hx. apply list_elem_of_In in Hx.
          unfold update_rows in Hx. apply in_map_iff in Hx as (o & <- & Ho).
          rewrite Forall_forall in Hlt.
          specialize (Hlt o (proj2 (list_elem_of_In _ _) Ho)).
          now destruct (DB.live o && (model.ID o =? model.ID user)). }
      destruct (Del_frame ctx (fmt.Sprintf UserCacheKey [model.ID user]) w2)
        as [Hu Ha].
      destruct (RedisClient.Del ctx _ w2) as [[d|v] w3]; cbn [snd] in *;
        now apply (keys_hold_frame w2).
Qed.

Lemma X10_witness :
  keys_hold (snd (CreateUser request_ctx
                    (model.set_Email "b@x.com" (model.set_ID 0 alice))
                    (world_of [alice] ∅ [])))
  /\ keys_hold (snd (UpdateUser request_ctx (model.set_Name "B" alice)
                       (world_of [alice] ∅ []))).
Proof.
  assert (H : keys_hold (world_of [alice] ∅ [])).
  { repeat split; cbn.
    - apply NoDup_singleton.
    - apply NoDup_singleton.
    - repeat constructor. }
  destruct (X10_writes_keep_the_keys request_ctx (world_of [alice] ∅ []) H)
    as [H1 H2].
  split; [apply H1|apply H2].
Defined.

(** X11. An update of an id that no live row has (the id was never given
    out, or its row is soft-deleted) reports success: no row changes, and
    the key of the id is deleted from the cache all the same. *)
Theorem X11_update_of_absent_id_reports_success :
  forall (ctx : Context) (user : model.User) (w : World),
    faults w = [] ->
    ctx_err (fired w) ctx = None ->
    model.ID user <> 0 ->
    (forall r, In r (users w) -> DB.live r = true -> model.ID r <> model.ID user) ->
    let key := cacheKey (model.ID user) in
    let w' := snd (UpdateUser ctx user w) in
    fst (UpdateUser ctx user w) = Ret None
    /\ users w' = users w
    /\ cache w' = delete key (cache w)
    /\ log w' = log w ++ [Update ctx update_columns (model.ID user) user;
                          RedisDelCmd ctx key].
Proof.
  intros ctx user w Hf Hc H0 Habs key w'. subst w'.
  rewrite (UpdateUser_ok ctx user w Hf Hc H0).
  - cbn. rewrite (update_rows_absent _ _ _ Habs), <- app_assoc.
    now repeat split.
  - intros r o Hr _ Hl Hid. now destruct (Habs r Hr Hl).
Qed.

Lemma X11_witness :
  fst (UpdateUser request_ctx (model.set_ID 9 alice) (world_of [alice] ∅ []))
  = Ret None
  /\ users (snd (UpdateUser request_ctx (model.set_ID 9 alice)
                   (world_of [alice] ∅ [])))
     = [alice].
Proof.
  destruct (X11_update_of_absent_id_reports_success request_ctx
              (model.set_ID 9 alice) (world_of [alice] ∅ []))
    as (H1 & H2 & _); try reflexivity.
  - discriminate.
  - intros r [<-|[]] _. discriminate.
  - split; [exact H1|exact H2].
Defined.



(** ** GetAllUsers *)

Lemma GetAllUsers_ok (ctx : Context) (w : World) :
  faults w = [] -> ctx_err (fired w) ctx = None ->
  GetAllUsers ctx w
  = (Ret (Some (List.filter DB.live (users w)), None), with_faults [] w).
Proof.
  intros Hf Hc. unfold GetAllUsers, DB_Find, unlogged_round_trip.
  rewrite !bind_run, Hc, Hf. reflexivity.
Qed.

(** X13. [GetAllUsers] and [GetUserByID] agree on a table with unique ids:
    the list holds the live rows of the table and no other, and a read of an
    id that is not cached returns a user exactly when the list holds that
    user under that id.  The listing reads the table only: it leaves the
    cache and the launched tasks as they were. *)
Theorem X13_listing_agrees_with_lookup :
  forall (ctx : Context) (w : World),
    faults w = [] ->
    ctx_err (fired w) ctx = None ->
    NoDup (map model.ID (users w)) ->
    exists us,
      fst (GetAllUsers ctx w) = Ret (Some us, None)
      /\ cache (snd (GetAllUsers ctx w)) = cache w
      /\ users (snd (GetAllUsers ctx w)) = users w
      /\ goroutines (snd (GetAllUsers ctx w)) = goroutines w
      /\ (forall u, In u us <-> In u (users w) /\ DB.live u = true)
      /\ (forall id u,
             cache w !! cacheKey id = None ->
             (fst (GetUserByID ctx id w) = Ret (Some u, None)
              <-> In u us /\ model.ID u = id)).
Proof.
  intros ctx w Hf Hc Hnd. exists (List.filter DB.live (users w)).
  rewrite (GetAllUsers_ok ctx w Hf Hc). cbn [fst snd].
  split; [reflexivity|]. split; [reflexivity|]. split; [reflexivity|].
  split; [reflexivity|]. split; [intros u; apply filter_In|].
  intros id u Hk. rewrite (GetUserByID_uncached ctx id w Hf Hc Hk).
  rewrite filter_In. split.
  - destruct (DB.first_by_id _ (users w)) as [r|] eqn:E; cbn [fst];
      [|discriminate].
    intros H. injection H as ->.
    apply first_by_id_some in E as [Hin Hp].
    apply andb_true_iff in Hp as [Hl Hid]. apply N.eqb_eq in Hid. auto.
  - intros [[Hin Hl] Hid].
    now rewrite (first_live_row (users w) u id Hnd Hin Hl Hid).
Qed.

Lemma X13_witness :
  exists us,
    fst (GetAllUsers request_ctx
           (world_of [alice; model.set_DeletedAt (gorm.mkDeletedAt noon true)
                               (model.set_ID 2 alice)] ∅ []))
    = Ret (Some us, None)
    /\ (In alice us
        /\ ~ In (model.set_DeletedAt (gorm.mkDeletedAt noon true)
                   (model.set_ID 2 alice)) us).
Proof.
  destruct (X13_listing_agrees_with_lookup request_ctx
              (world_of [alice; model.set_DeletedAt (gorm.mkDeletedAt noon true)
                                  (model.set_ID 2 alice)] ∅ []))
    as (us & H1 & _ & _ & _ & H5 & _).
  - reflexivity.
  - reflexivity.
  - cbn. apply NoDup_cons. split; [|apply NoDup_singleton].
    rewrite list_elem_of_In. cbn. intuition discriminate.
  - exists us. split; [exact H1|]. split.
    + apply H5. split; [now left|reflexivity].
    + intros H. apply H5 in H as [_ H]. discriminate.
Defined.

(** ** What each function may touch *)

Lemma cacheKey_inj (id1 id2 : N) : cacheKey id1 = cacheKey id2 -> id1 = id2.
Proof.
  rewrite !cacheKey_unfold. intros H.
  apply string_app_inv_head in H. now apply FormatUint_inj.
Qed.

(** X14. Whatever the cache and the store answer, [GetUserByID] returns
    either a user and no error or no user and an error; it changes neither
    the table nor the cache itself; and it launches at most one task, only
    when it returns a user, for that user under the key of the id. *)
Theorem X14_read_footprint :
  forall (ctx : Context) (id : N) (w : World),
    let w' := snd (GetUserByID ctx id w) in
    users w' = users w
    /\ auto_increment w' = auto_increment w
    /\ cache w' = cache w
    /\ ((exists e, fst (GetUserByID ctx id w) = Ret (None, Some e)
                   /\ goroutines w' = goroutines w)
        \/ (exists u, fst (GetUserByID ctx id w) = Ret (Some u, None)
                      /\ (goroutines w' = goroutines w
                          \/ goroutines w'
                             = goroutines w ++ [mkTask ctx (cacheKey id) u]))).
Proof.
  intros ctx id w w'. subst w'.
  destruct (Get_run ctx (cacheKey id) w) as (jsonData & err & HG).
  destruct (cache_attempt jsonData err model.zero) as [u|dest] eqn:HA.
  - assert (H : GetUserByID ctx id w
                = (Ret (Some u, None), called (RedisGetCmd ctx (cacheKey id)) w)).
    { unfold GetUserByID. fold (cacheKey id). rewrite bind_run, HG.
      cbv beta iota. now rewrite HA. }
    rewrite H. cbn. repeat split. right. exists u. auto.
  - destruct (GetUserByID_fallback ctx id w jsonData err dest HG HA)
      as (user & dberr & _ & H).
    rewrite H. destruct dberr as [e|]; cbn; repeat split.
    + left. exists e. auto.
    + right. exists user. auto.
Qed.

(** X15. What a write does to the cache and to the tasks: it launches
    nothing; a key other than the key of the written id keeps its entry; and
    the key of the written id either keeps its entry or, only after the
    store has accepted the write, has none. *)
Theorem X15_write_footprint :
  forall (ctx : Context) (user : model.User) (w : World),
    (let r := CreateUser ctx user w in
     goroutines (snd r) = goroutines w
     /\ (cache (snd r) = cache w
         \/ exists user',
              fst r = Ret (user', None)
              /\ cache (snd r) = delete (cacheKey (model.ID user')) (cache w)))
    /\ (let r := UpdateUser ctx user w in
        goroutines (snd r) = goroutines w
        /\ (cache (snd r) = cache w
            \/ (fst r = Ret None
                /\ cache (snd r) = delete (cacheKey (model.ID user)) (cache w)))).
Proof.
  intros ctx user w. split.
  - intros r. subst r. unfold CreateUser.
    destruct (String.eqb (model.Name user) EmptyString
              || String.eqb (model.Email user) EmptyString); [cbn; auto|].
    rewrite bind_run.
    destruct (FirstWhereEmail_run ctx (model.Email user) w)
      as (existing & err & ->).
    cbv beta iota. set (w1 := called _ w).
    destruct err as [e0|]; [|cbn; auto].
    rewrite bind_run.
    destruct (Create_cases ctx user w1) as [[e ->] | [_ ->]]; [cbn; auto|].
    cbv beta iota. rewrite bind_run.
    fold (cacheKey (model.ID (stamped user w1))).
    set (w2 := with_auto_increment _ _).
    destruct (Del_run ctx (cacheKey (model.ID (stamped user w1))) w2)
      as [[e ->] | ->]; cbn; split; auto.
    right. exists (stamped user w1). auto.
  - intros r. subst r. unfold UpdateUser.
    destruct (model.ID user =? 0); [cbn; auto|].
    rewrite bind_run.
    destruct (Updates_cases ctx user w) as [[e ->] | [_ ->]]; [cbn; auto|].
    cbv beta iota. rewrite bind_run. fold (cacheKey (model.ID user)).
    set (w2 := with_users _ _).
    destruct (Del_run ctx (cacheKey (model.ID user)) w2)
      as [[e ->] | ->]; cbn; auto.
Qed.

(** X16. The population task a read of [id] launches writes under the key
    of [id] only: the entry of every other id is after the task what it was
    before, and the entry of [id] is either what it was or the encoding of
    the task's user with the time to live of thirty minutes.  The task
    changes no row. *)
Theorem X16_population_touches_only_its_key :
  forall (ctx : Context) (id id' : N) (u : model.User) (w : World),
    id' <> id ->
    let t := mkTask ctx (cacheKey id) u in
    let w' := snd (run_task t w) in
    cache w' !! cacheKey id' = cache w !! cacheKey id'
    /\ (cache w' !! cacheKey id = cache w !! cacheKey id
        \/ cache w' !! cacheKey id
           = Some (fst (json.Marshal u), (30 * Minute)%Z))
    /\ users w' = users w
    /\ fst (run_task t w) = Ret tt.
Proof.
  intros ctx id id' u w Hne t w'. subst w'. unfold run_task.
  destruct (json.Marshal (task_user t)) as [jsonData merr] eqn:EM.
  subst t. cbn [task_ctx task_key task_user] in *. rewrite EM. cbn [fst].
  rewrite bind_run.
  destruct (Set_run ctx (cacheKey id) jsonData UserCacheTTL w)
    as [[e ->] | ->]; cbn [fst snd cache with_cache called with_faults with_log
                             users].
  - auto.
  - split; [|split; [|auto]].
    + apply lookup_insert_ne. intros E. apply Hne. symmetry.
      now apply cacheKey_inj.
    + right. apply lookup_insert_eq.
Qed.

Lemma X16_witness :
  cache (snd (run_task (mkTask request_ctx (cacheKey 1) alice)
                (world_of [] {[ "user:2" := ("kept", UserCacheTTL) ]} [])))
    !! cacheKey 2
  = Some ("kept", UserCacheTTL).
Proof.
  refine (eq_trans (proj1
    (X16_population_touches_only_its_key request_ctx 1 2 alice
       (world_of [] {[ "user:2" := ("kept", UserCacheTTL) ]} []) _)) _).
  - discriminate.
  - reflexivity.
Defined.

(** ** Decorated calls *)

(** X17. A decorated function behind a second decorator: the inner span is
    started after the outer one, as its child, and ended before it; [fn] runs
    under the context that carries the inner span; its result and its error
    come back unchanged, and an error or a panic of [fn] leaves both spans
    ended. *)
Theorem X17_decorators_nest_their_spans :
  forall (T R : Type) (outer inner : string)
         (fn : Context -> T -> M (R * option error))
         (a1 a2 : option (Context -> T -> list KeyValue))
         (ctx : Context) (arg : T) (w : World),
    let s := next_span w in
    let f := TraceServiceFunc outer (TraceServiceFunc inner fn a2) a1 in
    let ctx1 := ContextWithSpan ctx s in
    let w_in := entered inner a2 ctx1 arg (entered outer a1 ctx arg w) in
    let out := fn (ContextWithSpan ctx1 (S s)) arg w_in in
    fst (f ctx arg w) = fst out
    /\ log w_in
       = log w ++ SpanStart s outer (SpanFromContext ctx)
                  :: attribute_events a1 ctx1 arg s
               ++ SpanStart (S s) inner (Some s)
                  :: attribute_events a2 (ContextWithSpan ctx1 (S s)) arg (S s)
    /\ log (snd (f ctx arg w))
       = log (snd out) ++ exit_events (S s) (fst out) ++ exit_events s (fst out)
    /\ spans_ended (exit_events (S s) (fst out) ++ exit_events s (fst out))
       = [S s; s].
Proof.
  intros T R outer inner fn a1 a2 ctx arg w s f ctx1 w_in out. subst f.
  rewrite TraceServiceFunc_run. fold s ctx1.
  rewrite TraceServiceFunc_run.
  change (next_span (entered outer a1 ctx arg w)) with (S s).
  fold w_in out. cbn [fst snd log with_log].
  split; [reflexivity|]. split.
  { subst w_in. unfold entered, entry_events. cbn [log with_log with_next_span].
    fold s ctx1. now rewrite <- app_assoc. }
  split.
  { now rewrite <- app_assoc. }
  destruct (fst out) as [[r [e|]]|v]; reflexivity.
Qed.

(** X18. The two methods of [ServiceCWithTrace]: each starts a span with
    the method's name under the span of the caller's context, sets the three
    attributes with the argument of the call, calls the method of the
    wrapped [ServiceC] once with that argument under the context that
    carries the new span, and then records the error if there is one and
    ends the span.  The result and the error are those of the wrapped
    method. *)
Theorem X18_ServiceCWithTrace_calls :
  forall (Svc : Type) (I : service.ServiceCInterface Svc) (serviceC : Svc)
         (ctx : Context) (w : World),
    let s := next_span w in
    let traced := service.NewServiceCWithTrace serviceC in
    let started (name method : string) (input : KeyValue) :=
      with_log (log w ++ [SpanStart s name (SpanFromContext ctx);
                          SpanSetAttributes s
                            [("service.name", AttrString "ServiceC");
                             ("method", AttrString method);
                             input]])
        (with_next_span (S s) w) in
    (forall number : Z,
        let out := service.Calculate serviceC (ContextWithSpan ctx s) number
                     (started "ServiceC.Calculate" "Calculate"
                        ("input.number", AttrInt number)) in
        service.Calculate traced ctx number w
        = (fst out, with_log (log (snd out) ++ exit_events s (fst out)) (snd out)))
    /\ (forall content : string,
        let out := service.Process serviceC (ContextWithSpan ctx s) content
                     (started "ServiceC.Process" "Process"
                        ("input.content", AttrString content)) in
        service.Process traced ctx content w
        = (fst out, with_log (log (snd out) ++ exit_events s (fst out)) (snd out))).
Proof.
  intros Svc I serviceC ctx w s traced started. split.
  - intros number out. subst traced.
    cbn [service.Calculate service.ServiceCWithTrace_interface
         service.calculate service.NewServiceCWithTrace].
    rewrite TraceServiceFunc_run. reflexivity.
  - intros content out. subst traced.
    cbn [service.Process service.ServiceCWithTrace_interface
         service.process service.NewServiceCWithTrace].
    rewrite TraceServiceFunc_run. reflexivity.
Qed.
